(** * Drain3 [TemplateMiner]: snapshot policy, persistence and recovery

    A shallow embedding of [drain3/template_miner.py].  The controller's
    methods are state-passing functions over the controller object and the
    outside world (clock, heap of profiler objects, persistence store,
    logger); exceptions are an explicit outcome and leave the state as it
    was when they were raised, as in Python. *)

From Stdlib Require Import ZArith NArith QArith Qround Qpower List String Ascii
  Bool Arith Lia.
From Stdlib.Strings Require Import Byte.
From Stdlib Require Import DecimalString.
From Stdlib Require Import Lqa Permutation.
Import ListNotations.

Local Open Scope Z_scope.
Local Open Scope string_scope.
Local Open Scope list_scope.

(** ** The fragment of the Python runtime the controller relies on *)

Module Py.

(** A raised exception: its class name and its message. *)
Inductive exn : Type := Exn (cls msg : string).

Inductive Outcome (A : Type) : Type :=
| Ok (a : A)
| Raise (e : exn).
Arguments Ok {A} a.
Arguments Raise {A} e.

Definition bytes := list byte.

(** [str(n)] for an [int]: its decimal text.  An interpreter that limits
    the digits of a conversion between [int] and [str] (4300 by default)
    raises [ValueError] beyond its limit; the text here is the one of a
    conversion within the limit. *)
Definition str_int (n : Z) : string := NilZero.string_of_int (Z.to_int n).

(** Truthiness of an [Optional[str]]: [None] and [""] are falsy. *)
Definition truthy (r : option string) : bool :=
  match r with
  | None => false
  | Some s => negb (s =? "")
  end.

(** *** [int(s)] for a [str]

    The ASCII fragment of the builtin, for literals within the
    interpreter's limit on the digits of a conversion: surrounding
    whitespace is stripped, one sign is allowed, and the digits may be
    grouped by single underscores. *)

Definition is_space (c : ascii) : bool :=
  let n := nat_of_ascii c in
  ((9 <=? n) && (n <=? 13) || (n =? 32))%nat.

Definition digit_of (c : ascii) : option Z :=
  let n := nat_of_ascii c in
  if ((48 <=? n) && (n <=? 57))%nat then Some (Z.of_nat (n - 48)) else None.

Fixpoint lstrip (s : string) : string :=
  match s with
  | String c s' => if is_space c then lstrip s' else s
  | EmptyString => s
  end.

(** [digits acc after_digit s]: [after_digit] tells whether the previous
    character was a digit, the only place where an underscore or the end
    of the literal is accepted. *)
Fixpoint digits (acc : Z) (after_digit : bool) (s : string) : option Z :=
  match s with
  | EmptyString => if after_digit then Some acc else None
  | String c s' =>
      match digit_of c with
      | Some d => digits (10 * acc + d) true s'
      | None =>
          if (c =? "_")%char then
            if after_digit then digits acc false s' else None
          else if is_space c then
            if after_digit then
              (if (lstrip s' =? "") then Some acc else None)
            else None
          else None
      end
  end.

Definition int_str (s : string) : Outcome Z :=
  let bad := Raise (Exn "ValueError"
                        ("invalid literal for int() with base 10: '" ++ s ++ "'")) in
  match lstrip s with
  | String "-" s' => match digits 0 false s' with
                     | Some n => Ok (- n)
                     | None => bad
                     end
  | String "+" s' => match digits 0 false s' with
                     | Some n => Ok n
                     | None => bad
                     end
  | s' => match digits 0 false s' with
          | Some n => Ok n
          | None => bad
          end
  end.

(** *** [float]

    A [float] is an IEEE 754 binary64 number: a sign, a significand of 53
    bits and an exponent.  A finite one is held as the rational it
    denotes.  The difference and the product of two finite floats are the
    exact result rounded to the nearest float, ties to the even
    significand, and an infinity when that is out of range; no [nan]
    arises from them. *)
Inductive float : Type :=
| Finite (q : Q)
| Infinity (negative : bool).

Definition pow2 (e : Z) : Q := (2 ^ e)%Q.

(** For [a > 0], the exponent [e] with [2^e <= a < 2^(e+1)]. *)
Definition floor_log2 (a : Q) : Z :=
  let k := Z.log2 (Qnum a) - Z.log2 (Z.pos (Qden a)) in
  if Qle_bool (pow2 k) a then k else k - 1.

(** The nearest integer, the even one of two that are equally near. *)
Definition round_half_even (x : Q) : Z :=
  let f := Qfloor x in
  match (x - inject_Z f ?= 1 # 2)%Q with
  | Lt => f
  | Gt => f + 1
  | Eq => if Z.even f then f else f + 1
  end.

(** The exponent of the last bit of the significand of a float near
    [a > 0]: 53 bits from the leading one, and nothing below [2^-1074]. *)
Definition ulp_exponent (a : Q) : Z := Z.max (floor_log2 a - 52) (-1074).

(** The nearest multiple of [2^e]. *)
Definition on_grid (e : Z) (a : Q) : Q :=
  (inject_Z (round_half_even (a / pow2 e)) * pow2 e)%Q.

Definition nearest (a : Q) : Q := on_grid (ulp_exponent a) a.

(** A rounded magnitude of [2^1024] or more is out of range. *)
Definition in_range (negative : bool) (r : Q) : float :=
  if Qle_bool (pow2 1024) r then Infinity negative
  else Finite (if negative then - r else r)%Q.

(** The float an exact result is rounded to. *)
Definition float_of (q : Q) : float :=
  match (q ?= 0)%Q with
  | Eq => Finite 0
  | Gt => in_range false (nearest q)
  | Lt => in_range true (nearest (- q))
  end.

(** [a - b] and [a * b] for finite floats *)
Definition float_sub (a b : Q) : float := float_of (a - b).
Definition float_mul (a b : Q) : float := float_of (a * b).

(** [a <= b] and [a >= b] *)
Definition float_le (a b : float) : bool :=
  match a, b with
  | Finite x, Finite y => Qle_bool x y
  | Infinity n, Finite _ => n
  | Finite _, Infinity n => negb n
  | Infinity n, Infinity m => n || negb m
  end.

Definition float_ge (a b : float) : bool := float_le b a.

(** Whether a rational is the value of a float. *)
Definition is_float (q : Q) : bool :=
  match float_of q with
  | Finite r => Qeq_bool r q
  | Infinity _ => false
  end.

(** *** Dictionary keys

    After [jsonpickle.loads] a key is a [str]; the engine uses [int]s. *)
Inductive PyKey : Type :=
| KInt (z : Z)
| KStr (s : string).

Definition key_eqb (a b : PyKey) : bool :=
  match a, b with
  | KInt x, KInt y => (x =? y)%Z
  | KStr x, KStr y => (x =? y)%string
  | _, _ => false
  end.

Definition key_eq_dec (a b : PyKey) : {a = b} + {a <> b}.
Proof. decide equality; [apply Z.eq_dec | apply string_dec]. Defined.

Definition is_int_key (k : PyKey) : bool :=
  match k with KInt _ => true | KStr _ => false end.

(** [int(key)] *)
Definition int_key (k : PyKey) : Outcome Z :=
  match k with
  | KInt z => Ok z
  | KStr s => int_str s
  end.

(** *** The interpreter

    What the controller's second re-keying loop does depends on the layout
    of CPython's dictionaries and on its key iterator, which changed with
    the releases: 3.8 added a check to the iterator, 3.10 another way to
    choose the size of a table, 3.11 tables for [str] keys only. *)
Inductive CPython : Type :=
| Py37    (* 3.7 *)
| Py38    (* 3.8 and 3.9 *)
| Py310   (* 3.10 *)
| Py311.  (* 3.11 and later *)

Definition has_keys_guard (py : CPython) : bool :=
  match py with Py37 => false | _ => true end.
Definition has_log2_keysize (py : CPython) : bool :=
  match py with Py310 | Py311 => true | _ => false end.
Definition has_unicode_tables (py : CPython) : bool :=
  match py with Py311 => true | _ => false end.

(** *** [dict]

    CPython's compact dictionary: the entries are kept in insertion order
    in an array; deleting an entry leaves a hole; a new key is appended
    after the last entry; when no slot is left the array is rebuilt without
    its holes.  [dk_usable] is the number of free slots at the end of the
    array, [dk_unicode] tells a table made for [str] keys only.  The hash
    index is not modelled: it decides nothing but the speed of a lookup. *)

Record dict (V : Type) : Type := mkDict {
  dk_entries : list (option (PyKey * V));
  dk_usable : nat;
  dk_unicode : bool
}.
Arguments mkDict {V}.
Arguments dk_entries {V}.
Arguments dk_usable {V}.
Arguments dk_unicode {V}.

Section Dict.
Context {V : Type}.

(** [{}], on [Py_EMPTY_KEYS] *)
Definition empty_dict : dict V := mkDict [] 0 true.

Definition live (es : list (option (PyKey * V))) : list (PyKey * V) :=
  flat_map (fun e => match e with Some kv => [kv] | None => [] end) es.

Definition items (d : dict V) : list (PyKey * V) := live (dk_entries d).
Definition keys (d : dict V) : list PyKey := map fst (items d).
Definition values (d : dict V) : list V := map snd (items d).

(** [len(d)], CPython's [ma_used] *)
Definition ma_used (d : dict V) : nat := List.length (items d).

(** CPython's [dk_nentries] *)
Definition dk_nentries (d : dict V) : nat := List.length (dk_entries d).

(** The capacity of the entries array: filled and free slots. *)
Definition capacity (d : dict V) : nat := (dk_nentries d + dk_usable d)%nat.

Definition holds (k : PyKey) (e : option (PyKey * V)) : bool :=
  match e with
  | Some (k', _) => key_eqb k' k
  | None => false
  end.

Definition getitem (d : dict V) (k : PyKey) : option V :=
  match find (holds k) (dk_entries d) with
  | Some (Some (_, v)) => Some v
  | _ => None
  end.

Fixpoint del_entry (k : PyKey) (es : list (option (PyKey * V)))
  : list (option (PyKey * V)) :=
  match es with
  | [] => []
  | e :: es' => if holds k e then None :: es' else e :: del_entry k es'
  end.

Fixpoint set_entry (k : PyKey) (v : V) (es : list (option (PyKey * V)))
  : list (option (PyKey * V)) :=
  match es with
  | [] => []
  | e :: es' =>
      match e with
      | Some (k', _) =>
          if key_eqb k' k then Some (k', v) :: es' else e :: set_entry k v es'
      | None => e :: set_entry k v es'
      end
  end.

(** [d.pop(k)] *)
Definition pop (k : PyKey) (d : dict V) : Outcome V * dict V :=
  match getitem d k with
  | Some v =>
      (Ok v, mkDict (del_entry k (dk_entries d)) (dk_usable d) (dk_unicode d))
  | None => (Raise (Exn "KeyError" ""), d)
  end.

Definition PyDict_MINSIZE : nat := 8.
Definition USABLE_FRACTION (n : nat) : nat := (2 * n) / 3.
Definition GROWTH_RATE (d : dict V) : nat := 3 * ma_used d.

(** Up to 3.9, [dictresize] doubles the size from [PyDict_MINSIZE] on
    until it is at least [minsize]. *)
Fixpoint table_size (fuel : nat) (size minsize : nat) : nat :=
  match fuel with
  | O => size
  | S fuel' => if (size <? minsize)%nat
               then table_size fuel' (2 * size) minsize
               else size
  end.

(** From 3.10 on, [calculate_keysize]:
    [1 << bit_length(((minsize | PyDict_MINSIZE) - 1) | (PyDict_MINSIZE - 1))] *)
Definition calculate_keysize (minsize : nat) : nat :=
  N.to_nat
    (N.shiftl 1
       (N.succ (N.log2 (N.lor (N.lor (N.of_nat minsize) 8 - 1) 7)))).

Definition keysize (py : CPython) (minsize : nat) : nat :=
  if has_log2_keysize py then calculate_keysize minsize
  else table_size minsize PyDict_MINSIZE minsize.

(** [insertion_resize]: the table is rebuilt without its holes; it stays a
    table for [str] keys only if it was one and [unicode] allows it. *)
Definition insertion_resize (py : CPython) (unicode : bool) (d : dict V)
  : dict V :=
  mkDict (map Some (items d))
         (USABLE_FRACTION (keysize py (GROWTH_RATE d)) - ma_used d)
         (dk_unicode d && unicode).

Definition is_str_key (k : PyKey) : bool :=
  match k with KStr _ => true | KInt _ => false end.

(** [d[k] = v] ([insertdict]).  From 3.11 on, a key that is not a [str]
    first turns a table for [str] keys into a general one, which rebuilds
    it. *)
Definition setitem (py : CPython) (k : PyKey) (v : V) (d : dict V) : dict V :=
  let d :=
    if has_unicode_tables py && dk_unicode d && negb (is_str_key k)
    then insertion_resize py false d
    else d in
  match getitem d k with
  | Some _ =>
      mkDict (set_entry k v (dk_entries d)) (dk_usable d) (dk_unicode d)
  | None =>
      let d' := if (dk_usable d =? 0)%nat
                then insertion_resize py true d
                else d in
      mkDict (dk_entries d' ++ [Some (k, v)]) (dk_usable d' - 1)
             (dk_unicode d')
  end.

(** The dictionary a literal or a decoder builds: the items inserted one by
    one into [{}]. *)
Definition dict_of (py : CPython) (kvs : list (PyKey * V)) : dict V :=
  fold_left (fun d kv => setitem py (fst kv) (snd kv) d) kvs empty_dict.

(** *** Iterating over the live view [d.keys()]

    The iterator remembers the size of the dictionary when it was created
    ([di_used]), its position in the entries array ([di_pos]) and how many
    keys it still expects ([di_len]).  It reads the dictionary as it is at
    each step. *)

Record dictiter : Type := mkIter {
  di_used : nat;
  di_pos : nat;
  di_len : nat
}.

Definition iter (d : dict V) : dictiter := mkIter (ma_used d) 0 (ma_used d).

Inductive Next : Type :=
| Yield (k : PyKey) (it : dictiter)
| StopIteration
| IterError (e : exn).

(** The first live entry at position [i] or later. *)
Fixpoint next_entry (i : nat) (es : list (option (PyKey * V)))
  : option (nat * PyKey) :=
  match es with
  | [] => None
  | Some (k, _) :: _ => Some (i, k)
  | None :: es' => next_entry (S i) es'
  end.

(** [dictiter_iternextkey].  From 3.8 on, a key found after all the
    expected ones have been returned is an error; before, the iterator
    goes on. *)
Definition next (py : CPython) (it : dictiter) (d : dict V) : Next :=
  if negb (di_used it =? ma_used d)%nat then
    IterError (Exn "RuntimeError" "dictionary changed size during iteration")
  else
    match next_entry (di_pos it) (skipn (di_pos it) (dk_entries d)) with
    | None => StopIteration
    | Some (i, k) =>
        if has_keys_guard py && (di_len it =? 0)%nat then
          IterError
            (Exn "RuntimeError" "dictionary keys changed during iteration")
        else Yield k (mkIter (di_used it) (S i) (di_len it - 1))
    end.

(** *** Re-keying a dictionary: [d[int(key)] = d.pop(key)]

    The right-hand side is evaluated first, then the subscript of the
    target, then the store. *)
Definition rekey (py : CPython) (k : PyKey) (d : dict V)
  : Outcome unit * dict V :=
  match pop k d with
  | (Raise e, d') => (Raise e, d')
  | (Ok v, d') =>
      match int_key k with
      | Raise e => (Raise e, d')
      | Ok z => (Ok tt, setitem py (KInt z) v d')
      end
  end.

(** [for key in ks: d[int(key)] = d.pop(key)] where [ks] is a list. *)
Fixpoint rekey_list (py : CPython) (ks : list PyKey) (d : dict V)
  : Outcome unit * dict V :=
  match ks with
  | [] => (Ok tt, d)
  | k :: ks' =>
      match rekey py k d with
      | (Ok _, d') => rekey_list py ks' d'
      | (Raise e, d') => (Raise e, d')
      end
  end.

(** [for key in d.keys(): d[int(key)] = d.pop(key)] where the keys are the
    live view: every turn of the loop asks the iterator for the next key of
    the dictionary as the previous turns left it.  [None] when [fuel] turns
    were not enough. *)
Fixpoint rekey_loop (py : CPython) (fuel : nat) (it : dictiter) (d : dict V)
  : option (Outcome unit * dict V) :=
  match fuel with
  | O => None
  | S fuel' =>
      match next py it d with
      | StopIteration => Some (Ok tt, d)
      | IterError e => Some (Raise e, d)
      | Yield k it' =>
          match rekey py k d with
          | (Ok _, d') => rekey_loop py fuel' it' d'
          | (Raise e, d') => Some (Raise e, d')
          end
      end
  end.

(** The entries array never grows beyond the larger of its capacity at the
    start and the capacity a rebuild gives it, and every turn moves the
    iterator forward in it: this many turns suffice
    ([rekey_loop_terminates] below). *)
Definition rekey_turns (py : CPython) (d : dict V) : nat :=
  S (Nat.max (capacity d)
             (USABLE_FRACTION (keysize py (3 * (ma_used d - 1))))).

Definition rekey_view (py : CPython) (d : dict V) : Outcome unit * dict V :=
  match rekey_loop py (rekey_turns py d) (iter d) d with
  | Some r => r
  | None => (Raise (Exn "RecursionError" ""), d)
  end.

(** An item after re-keying and the item it was: the same value, under the
    same key or under the [int] of that key. *)
Definition rekeyed (after before : PyKey * V) : Prop :=
  snd after = snd before
  /\ (fst after = fst before
      \/ exists z, int_key (fst before) = Ok z /\ fst after = KInt z).


End Dict.

End Py.


Import Py.

(** ** [base64.b64encode] and [base64.b64decode]

    The encoder of RFC 4648 and the lenient decoder of CPython's
    [binascii.a2b_base64] (3.8 to 3.10), which [b64decode] calls when
    [validate] is left false: characters outside the alphabet are skipped,
    and a pad character that completes a group ends the input. *)

Module Base64.

Definition alphabet : bytes :=
  list_byte_of_string
    "ABCDEFGHIJKLMNOPQRSTUVWXYZabcdefghijklmnopqrstuvwxyz0123456789+/".

Definition BASE64_PAD : byte := "="%byte.

(** [table_b2a_base64] *)
Definition b2a (n : N) : byte := nth (N.to_nat n) alphabet BASE64_PAD.

Fixpoint index_of (c : byte) (l : bytes) (i : N) : option N :=
  match l with
  | [] => None
  | x :: l' => if Byte.eqb x c then Some i else index_of c l' (N.succ i)
  end.

(** [table_a2b_base64], without the entry of the pad character *)
Definition a2b (c : byte) : option N := index_of c alphabet 0%N.

Definition byte_of (n : N) : byte :=
  match Byte.of_N n with
  | Some b => b
  | None => "000"%byte
  end.

Definition sextet1 (a : byte) : N := N.shiftr (Byte.to_N a) 2.
Definition sextet2 (a b : byte) : N :=
  N.lor (N.shiftl (N.land (Byte.to_N a) 3) 4) (N.shiftr (Byte.to_N b) 4).
Definition sextet3 (b c : byte) : N :=
  N.lor (N.shiftl (N.land (Byte.to_N b) 15) 2) (N.shiftr (Byte.to_N c) 6).
Definition sextet4 (c : byte) : N := N.land (Byte.to_N c) 63.

Fixpoint b64encode (s : bytes) : bytes :=
  match s with
  | a :: b :: c :: rest =>
      b2a (sextet1 a) :: b2a (sextet2 a b) :: b2a (sextet3 b c)
        :: b2a (sextet4 c) :: b64encode rest
  | [a; b] =>
      [b2a (sextet1 a); b2a (sextet2 a b);
       b2a (N.shiftl (N.land (Byte.to_N b) 15) 2); BASE64_PAD]
  | [a] =>
      [b2a (sextet1 a); b2a (N.shiftl (N.land (Byte.to_N a) 3) 4);
       BASE64_PAD; BASE64_PAD]
  | [] => []
  end.

(** Characters the decoder steps over before looking at the table. *)
Definition skipped (c : byte) : bool :=
  (127 <? Byte.to_N c)%N || Byte.eqb c "013"%byte || Byte.eqb c "010"%byte
  || Byte.eqb c " "%byte.

(** Whether the next character of the table or pad character in [s] is a
    pad ([binascii_find_valid] compared with the pad). *)
Fixpoint next_valid_is_pad (s : bytes) : bool :=
  match s with
  | [] => false
  | c :: s' =>
      if Byte.eqb c BASE64_PAD then true
      else if (Byte.to_N c <=? 127)%N then
             match a2b c with
             | Some _ => false
             | None => next_valid_is_pad s'
             end
           else next_valid_is_pad s'
  end.

Definition emit (b : byte) (r : Outcome bytes) : Outcome bytes :=
  match r with
  | Ok l => Ok (b :: l)
  | Raise e => Raise e
  end.

(** One character of the table shifted into the buffer: the new state and
    the byte that became ready, if any. *)
Definition shift_in (leftchar leftbits v : N) : option byte * N * N :=
  let leftchar := N.lor (N.shiftl leftchar 6) v in
  let leftbits := (leftbits + 6)%N in
  if (8 <=? leftbits)%N then
    let leftbits := (leftbits - 8)%N in
    (Some (byte_of (N.land (N.shiftr leftchar leftbits) 255)),
     N.land leftchar (N.shiftl 1 leftbits - 1)%N, leftbits)
  else (None, leftchar, leftbits).

Definition binascii_Error (msg : string) : exn := Exn "binascii.Error" msg.

(** The message for a text that ends one data character after a whole
    group; the count is worked out from the number of bytes written. *)
Definition one_more_character (bin_len : N) : string :=
  "Invalid base64-encoded string: number of data characters ("
  ++ str_int (Z.of_N (bin_len / 3 * 4 + 1))
  ++ ") cannot be 1 more than a multiple of 4".

(** [bin_len] is the number of bytes written so far. *)
Fixpoint a2b_base64 (quad_pos leftchar leftbits bin_len : N) (s : bytes)
  : Outcome bytes :=
  match s with
  | [] =>
      if (leftbits =? 0)%N then Ok []
      else if (leftbits =? 6)%N then
        Raise (binascii_Error (one_more_character bin_len))
      else Raise (binascii_Error "Incorrect padding")
  | c :: s' =>
      if skipped c then a2b_base64 quad_pos leftchar leftbits bin_len s'
      else if Byte.eqb c BASE64_PAD then
        if (quad_pos <? 2)%N
           || ((quad_pos =? 2)%N && negb (next_valid_is_pad s'))
        then a2b_base64 quad_pos leftchar leftbits bin_len s'
        else Ok []
      else
        match a2b c with
        | None => a2b_base64 quad_pos leftchar leftbits bin_len s'
        | Some v =>
            let quad_pos := N.land (quad_pos + 1) 3 in
            match shift_in leftchar leftbits v with
            | (Some b, leftchar, leftbits) =>
                emit b (a2b_base64 quad_pos leftchar leftbits (bin_len + 1) s')
            | (None, leftchar, leftbits) =>
                a2b_base64 quad_pos leftchar leftbits bin_len s'
            end
        end
  end.

Definition b64decode (s : bytes) : Outcome bytes := a2b_base64 0 0 0 0 s.

(** Every byte and every index of the table, for facts that are checked
    value by value. *)
Definition all_bytes : bytes :=
  map (fun n => byte_of (N.of_nat n)) (seq 0 256).

Definition all_sextets : list N := map N.of_nat (seq 0 64).

Definition same_shift (x y : option byte * N * N) : bool :=
  match x, y with
  | (Some a, c, n), (Some b, d, m) => Byte.eqb a b && (c =? d)%N && (n =? m)%N
  | (None, c, n), (None, d, m) => (c =? d)%N && (n =? m)%N
  | _, _ => false
  end.

(** A character of the table is read back as its index, and is neither
    stepped over nor taken for the pad. *)
Definition reads_back (n : N) : bool :=
  match a2b (b2a n) with
  | Some m => (m =? n)%N
  | None => false
  end && negb (skipped (b2a n)) && negb (Byte.eqb (b2a n) BASE64_PAD).

(** A character of the table, and a character the decoder reads: one of
    the table or the pad. *)
Definition in_table (c : byte) : bool :=
  match a2b c with
  | Some _ => true
  | None => false
  end.

Definition b64_char (c : byte) : bool := Byte.eqb c BASE64_PAD || in_table c.

(** The data characters of a text. *)
Definition data_chars (s : bytes) : bytes := filter in_table s.

(** A character of the table is not stepped over, is an ASCII character
    and is not the pad: the decoder shifts it in wherever it stands. *)
Definition reads_alike (c : byte) : bool :=
  if in_table c
  then negb (skipped c) && (Byte.to_N c <=? 127)%N
       && negb (Byte.eqb c BASE64_PAD)
  else true.

End Base64.


(** ** Collaborators of the controller *)

(** Modelled from the spec: the Instrumentation Hook, whose classes
    ([NullProfiler], [SimpleProfiler]) are not part of this file: "named
    timed sections and periodic reporting; a no-op variant must exist".
    The active variant keeps a journal of its timed calls. *)
Inductive ProfEvent : Type :=
| SectionStarted (name : string) (at_ : Q)
| SectionEnded (name : string) (at_ : Q)
| ReportChecked (period_sec : Z) (at_ : Q).

Inductive Profiler : Type :=
| NullProfiler
| SimpleProfiler (journal : list ProfEvent).

(** Objects are held by reference: an index into the heap of profiler
    objects. *)
Definition ProfRef := nat.

(** Modelled from the spec: a cluster of the Clustering Engine, which
    "exposes [id: int], [size: int], [template(): string]". *)
Record LogCluster : Type := mkLogCluster {
  cluster_id : Z;
  size : Z;
  log_template : string
}.

Definition get_template (c : LogCluster) : string := log_template c.

(** A node of the engine's prefix tree ([drain3.drain.Node], declared
    outside [template_miner.py]); the controller reads nothing of it but
    the mapping to its children. *)
#[warnings="-register-all"]
Inductive Node : Type :=
  mkNode { key_to_child_node : dict Node }.

(** The result record of [add_log_message]: a [dict] literal, in the order
    it is written. *)
Inductive PyVal : Type :=
| VStr (s : string)
| VInt (z : Z).

Definition Result := list (string * PyVal).

(** The types the collaborators choose: the attributes of the engine the
    controller never touches, a masking instruction, and the state behind
    a persistence handler (a file, a topic, a buffer). *)
Class Types : Type := {
  DrainRest : Type;
  MaskingInstruction : Type;
  Store : Type
}.

Section Model.
Context {T : Types}.

(** [drain3.drain.Drain], declared outside [template_miner.py]: the
    attributes [load_state] reads and writes, and the rest of the engine
    in one field. *)
Record Drain : Type := mkDrain {
  root_node : Node;
  id_to_cluster : dict LogCluster;
  profiler : ProfRef;
  drain_rest : DrainRest
}.

Definition set_root_children (d : Drain) (m : dict Node) : Drain :=
  mkDrain (mkNode m) (id_to_cluster d) (profiler d) (drain_rest d).
Definition set_id_to_cluster (d : Drain) (m : dict LogCluster) : Drain :=
  mkDrain (root_node d) m (profiler d) (drain_rest d).
Definition set_profiler (d : Drain) (p : ProfRef) : Drain :=
  mkDrain (root_node d) (id_to_cluster d) p (drain_rest d).

(** [drain3.template_miner_config.TemplateMinerConfig], declared outside
    [template_miner.py]: the options the controller reads, under the names
    it reads them by.  A number is held as the rational it denotes;
    [snapshot_interval_minutes] is multiplied as a [float], which for an
    [int] below [2^53 / 60] gives the product of the [int]s. *)
Record TemplateMinerConfig : Type := mkConfig {
  profiling_enabled : bool;
  profiling_report_sec : Z;
  snapshot_interval_minutes : Q;
  snapshot_compress_state : bool;
  drain_sim_th : Q;
  drain_depth : Z;
  drain_max_children : Z;
  drain_max_clusters : option Z;
  drain_extra_delimiters : list string;
  masking_instructions : list MaskingInstruction
}.

(** Modelled from the spec: [drain3.persistence_handler.PersistenceHandler],
    the Persistence Store with "[load() -> optional bytes]; [save(bytes) ->
    void]", whose save may fail.  Both methods act on the store and may
    raise. *)
Record PersistenceHandler : Type := mkHandler {
  ph_load_state : Store -> Outcome (option bytes) * Store;
  ph_save_state : bytes -> Store -> Outcome unit * Store
}.

(** [drain3.masking.LogMasker], declared outside [template_miner.py]: the
    object keeps the instructions it was constructed with. *)
Record LogMasker : Type := mkLogMasker {
  lm_instructions : list MaskingInstruction
}.

(** The engine, the masker, the serialisation libraries and the
    interpreter, given from outside.  [jsonpickle.dumps] follows the
    engine's reference to its profiler, so it reads the heap; a [str] is
    held as its UTF-8 bytes.  [interpreter] is the release of CPython the
    controller runs on; [loaded_config] is what
    [TemplateMinerConfig().load()] yields. *)
Class Collaborators : Type := {
  Drain_init : Q -> Z -> Z -> option Z -> list string -> ProfRef -> Drain;
  Drain_add_log_message : Drain -> string -> (LogCluster * string) * Drain;
  Drain_clusters : Drain -> list LogCluster;
  Drain_get_total_cluster_size : Drain -> Z;
  LogMasker_mask : list MaskingInstruction -> string -> string;
  jsonpickle_dumps : Drain -> list Profiler -> string;
  jsonpickle_loads : bytes -> Outcome Drain;
  zlib_compress : bytes -> bytes;
  zlib_decompress : bytes -> Outcome bytes;
  interpreter : CPython;
  loaded_config : TemplateMinerConfig
}.
Context {C : Collaborators}.

Definition mask (m : LogMasker) (content : string) : string :=
  LogMasker_mask (lm_instructions m) content.

(** The controller object. *)
Record TemplateMiner : Type := mkMiner {
  config : TemplateMinerConfig;
  tm_profiler : ProfRef;
  persistence_handler : option PersistenceHandler;
  drain : Drain;
  masker : LogMasker;
  last_save_time : Q
}.

Definition set_drain (tm : TemplateMiner) (d : Drain) : TemplateMiner :=
  mkMiner (config tm) (tm_profiler tm) (persistence_handler tm) d
          (masker tm) (last_save_time tm).
Definition set_last_save_time (tm : TemplateMiner) (t : Q) : TemplateMiner :=
  mkMiner (config tm) (tm_profiler tm) (persistence_handler tm) (drain tm)
          (masker tm) t.

(** The world outside the controller.  The [n]-th call of [time.time()]
    returns the float whose value is [w_clock n]; [w_saved] lists the
    blobs handed to the handler's [save_state], the latest first, whether
    the handler then failed or not; [w_log] lists the logger's lines, the
    latest first. *)
Record World : Type := mkWorld {
  w_clock : nat -> Q;
  w_ticks : nat;
  w_heap : list Profiler;
  w_store : Store;
  w_log : list string;
  w_saved : list bytes
}.

Record State : Type := mkState {
  self : TemplateMiner;
  world : World
}.

(** *** Computations that read and write a state and may raise *)

Definition M (S A : Type) : Type := S -> Outcome A * S.

Definition ret {S A} (a : A) : M S A := fun s => (Ok a, s).
Definition raise {S A} (e : exn) : M S A := fun s => (Raise e, s).
Definition bind {S A B} (m : M S A) (f : A -> M S B) : M S B :=
  fun s => match m s with
           | (Ok a, s') => f a s'
           | (Raise e, s') => (Raise e, s')
           end.
Definition lift {S A} (o : Outcome A) : M S A := fun s => (o, s).
Definition gets {S A} (f : S -> A) : M S A := fun s => (Ok (f s), s).
Definition modify {S} (f : S -> S) : M S unit := fun s => (Ok tt, f s).

Notation "x <- c1 ;; c2" := (bind c1 (fun x => c2))
  (at level 61, c1 at next level, right associativity).
Notation "c1 ;; c2" := (bind c1 (fun _ => c2))
  (at level 61, right associativity).

(** A computation on the world, run by a method of the controller. *)
Definition in_world {A} (m : M World A) : M State A :=
  fun st => let (r, w) := m (world st) in (r, mkState (self st) w).

(** [time.time()] *)
Definition time_time : M World Q :=
  fun w => (Ok (w_clock w (w_ticks w)),
            mkWorld (w_clock w) (S (w_ticks w)) (w_heap w) (w_store w)
                    (w_log w) (w_saved w)).

Definition set_log (w : World) (l : list string) : World :=
  mkWorld (w_clock w) (w_ticks w) (w_heap w) (w_store w) l (w_saved w).
Definition set_store (w : World) (s : Store) : World :=
  mkWorld (w_clock w) (w_ticks w) (w_heap w) s (w_log w) (w_saved w).
Definition set_heap (w : World) (h : list Profiler) : World :=
  mkWorld (w_clock w) (w_ticks w) h (w_store w) (w_log w) (w_saved w).

(** [logger.info(msg)] *)
Definition logger_info (msg : string) : M World unit :=
  fun w => (Ok tt, set_log w (msg :: w_log w)).

(** A new profiler object *)
Definition new_profiler (p : Profiler) : M World ProfRef :=
  fun w => (Ok (List.length (w_heap w)), set_heap w (w_heap w ++ [p])).

Fixpoint store_at {A} (i : nat) (a : A) (l : list A) : list A :=
  match l, i with
  | [], _ => []
  | _ :: l', O => a :: l'
  | x :: l', S i' => x :: store_at i' a l'
  end.

(** A call of a method of the profiler object at [p]: the no-op variant
    does nothing; the active variant reads the clock and writes its
    journal.  Neither raises. *)
Definition profiler_world (p : ProfRef) (ev : Q -> ProfEvent) (w : World)
  : World :=
  match nth_error (w_heap w) p with
  | Some (SimpleProfiler journal) =>
      mkWorld (w_clock w) (S (w_ticks w))
        (store_at p (SimpleProfiler (journal ++ [ev (w_clock w (w_ticks w))]))
                  (w_heap w))
        (w_store w) (w_log w) (w_saved w)
  | _ => w
  end.

Definition profiler_call (p : ProfRef) (ev : Q -> ProfEvent) : M World unit :=
  fun w => (Ok tt, profiler_world p ev w).

Definition start_section (p : ProfRef) (section_name : string)
  : M World unit := profiler_call p (SectionStarted section_name).
Definition end_section (p : ProfRef) (name : string) : M World unit :=
  profiler_call p (SectionEnded name).
Definition report (p : ProfRef) (period_sec : Z) : M World unit :=
  profiler_call p (ReportChecked period_sec).

(** [self.persistence_handler.load_state()] *)
Definition handler_load (h : PersistenceHandler) : M World (option bytes) :=
  fun w => let (r, s) := ph_load_state h (w_store w) in (r, set_store w s).

(** [self.persistence_handler.save_state(state)] *)
Definition handler_save (h : PersistenceHandler) (state : bytes)
  : M World unit :=
  fun w =>
    let (r, s) := ph_save_state h state (w_store w) in
    (r, mkWorld (w_clock w) (w_ticks w) (w_heap w) s (w_log w)
                (state :: w_saved w)).

Definition no_handler (method : string) : exn :=
  Exn "AttributeError"
      ("'NoneType' object has no attribute '" ++ method ++ "'").

Definition len {A} (l : list A) : Z := Z.of_nat (List.length l).

(** *** [TemplateMiner.load_state] *)

(** Lines 63-64: the stored blob back to the serialised state. *)
Definition decode_state (compress : bool) (state : bytes) : Outcome bytes :=
  if compress then
    match Base64.b64decode state with
    | Ok z => zlib_decompress z
    | Raise e => Raise e
    end
  else Ok state.

(** Lines 70-74: the keys of the root's children are copied into a list,
    then each is popped and stored again under [int(key)]. *)
Definition cast_root_keys (d : Drain) : Outcome unit * Drain :=
  let keys := Py.keys (key_to_child_node (root_node d)) in
  let (r, m) :=
    rekey_list interpreter keys (key_to_child_node (root_node d)) in
  (r, set_root_children d m).

(** Lines 77-79: [keys] is the view [id_to_cluster.keys()] itself; the loop
    pops and stores while it iterates over it. *)
Definition cast_cluster_keys (d : Drain) : Outcome unit * Drain :=
  let (r, m) := rekey_view interpreter (id_to_cluster d) in
  (r, set_id_to_cluster d m).

(** Lines 66-81: from the serialised state to the engine that replaces the
    controller's. *)
Definition restore_drain (live_profiler : ProfRef) (state : bytes)
  : Outcome Drain :=
  match jsonpickle_loads state with
  | Raise e => Raise e
  | Ok d =>
      match cast_root_keys d with
      | (Raise e, _) => Raise e
      | (Ok _, d) =>
          match cast_cluster_keys d with
          | (Raise e, _) => Raise e
          | (Ok _, d) => Ok (set_profiler d live_profiler)
          end
      end
  end.

Definition load_state : M State unit :=
  in_world (logger_info "Checking for saved state") ;;
  h <- gets (fun st => persistence_handler (self st)) ;;
  match h with
  | None => raise (no_handler "load_state")
  | Some h =>
      state <- in_world (handler_load h) ;;
      match state with
      | None => in_world (logger_info "Saved state not found")
      | Some state =>
          compress <-
            gets (fun st => snapshot_compress_state (config (self st))) ;;
          state <- lift (decode_state compress state) ;;
          p <- gets (fun st => tm_profiler (self st)) ;;
          drain <- lift (restore_drain p state) ;;
          modify (fun st => mkState (set_drain (self st) drain) (world st)) ;;
          in_world (logger_info
            ("Restored " ++ str_int (len (Drain_clusters drain))
             ++ " clusters with "
             ++ str_int (Drain_get_total_cluster_size drain) ++ " messages"))
      end
  end.

(** *** [TemplateMiner.__init__] *)

Definition init (handler : option PersistenceHandler)
    (cfg : option TemplateMinerConfig) : M World TemplateMiner :=
  logger_info "Starting Drain3 template miner" ;;
  let config := match cfg with Some c => c | None => loaded_config end in
  p <- new_profiler NullProfiler ;;
  p <- (if profiling_enabled config then new_profiler (SimpleProfiler [])
        else ret p) ;;
  let drain := Drain_init (drain_sim_th config) (drain_depth config)
                 (drain_max_children config) (drain_max_clusters config)
                 (drain_extra_delimiters config) p in
  let masker := mkLogMasker (masking_instructions config) in
  now <- time_time ;;
  let tm := mkMiner config p handler drain masker now in
  match handler with
  | None => ret tm
  | Some _ =>
      fun w => match load_state (mkState tm w) with
               | (Ok _, st) => (Ok (self st), world st)
               | (Raise e, st) => (Raise e, world st)
               end
  end.

(** *** [TemplateMiner.save_state] *)

(** Lines 88-90: the serialised state to the blob handed to the store. *)
Definition encode_state (compress : bool) (state : bytes) : bytes :=
  if compress then Base64.b64encode (zlib_compress state) else state.

(** The line [save_state] logs. *)
Definition saving_message (d : Drain) (state : bytes)
    (snapshot_reason : string) : string :=
  "Saving state of " ++ str_int (len (Drain_clusters d))
  ++ " clusters with " ++ str_int (Drain_get_total_cluster_size d)
  ++ " messages, " ++ str_int (len state) ++ " bytes, reason: "
  ++ snapshot_reason.

(** The blob a snapshot hands to the store. *)
Definition snapshot_blob (tm : TemplateMiner) (heap : list Profiler) : bytes :=
  encode_state (snapshot_compress_state (config tm))
    (list_byte_of_string (jsonpickle_dumps (drain tm) heap)).

Definition save_state (snapshot_reason : string) : M State unit :=
  st <- gets (fun st => st) ;;
  let tm := self st in
  let state := snapshot_blob tm (w_heap (world st)) in
  in_world (logger_info (saving_message (drain tm) state snapshot_reason)) ;;
  match persistence_handler tm with
  | None => raise (no_handler "save_state")
  | Some h => in_world (handler_save h state)
  end.

(** *** [TemplateMiner.get_snapshot_reason] *)

Definition get_snapshot_reason (change_type : string) (cluster_id : Z)
  : M State (option string) :=
  if negb (change_type =? "none") then
    ret (Some (change_type ++ " (" ++ str_int cluster_id ++ ")")%string)
  else
    now <- in_world time_time ;;
    tm <- gets self ;;
    let diff_time_sec := float_sub now (last_save_time tm) in
    if float_ge diff_time_sec
                (float_mul (snapshot_interval_minutes (config tm)) 60)
    then ret (Some "periodic")
    else ret None.

(** *** [TemplateMiner.add_log_message] *)

(** Lines 117-123 *)
Definition result_record (cluster : LogCluster) (change_type : string)
    (d : Drain) : Result :=
  [("change_type", VStr change_type);
   ("cluster_id", VInt (cluster_id cluster));
   ("cluster_size", VInt (size cluster));
   ("template_mined", VStr (get_template cluster));
   ("cluster_count", VInt (len (Drain_clusters d)))].

(** Lines 126-131: the policy is asked, and a snapshot taken when it gives
    a reason. *)
Definition snapshot_if_due (p : ProfRef) (change_type : string)
    (cluster : LogCluster) : M State unit :=
  in_world (start_section p "save_state") ;;
  snapshot_reason <- get_snapshot_reason change_type (cluster_id cluster) ;;
  (if truthy snapshot_reason then
     save_state (match snapshot_reason with Some r => r | None => "" end) ;;
     now <- in_world time_time ;;
     modify (fun st => mkState (set_last_save_time (self st) now) (world st))
   else ret tt) ;;
  in_world (end_section p "").

Definition add_log_message (log_message : string) : M State Result :=
  p <- gets (fun st => tm_profiler (self st)) ;;
  in_world (start_section p "total") ;;
  in_world (start_section p "mask") ;;
  tm <- gets self ;;
  let masked_content := mask (masker tm) log_message in
  in_world (end_section p "") ;;
  in_world (start_section p "drain") ;;
  let '(cluster, change_type, drain') :=
    Drain_add_log_message (drain tm) masked_content in
  modify (fun st => mkState (set_drain (self st) drain') (world st)) ;;
  in_world (end_section p "drain") ;;
  let result := result_record cluster change_type drain' in
  (match persistence_handler tm with
   | None => ret tt
   | Some _ => snapshot_if_due p change_type cluster
   end) ;;
  in_world (end_section p "total") ;;
  report_sec <- gets (fun st => profiling_report_sec (config (self st))) ;;
  in_world (report p report_sec) ;;
  ret result.

(** *** What a call observes *)

(** The engine's answer to a message: the masked line goes to the engine
    the controller holds. *)
Definition engine_step (tm : TemplateMiner) (log_message : string)
  : (LogCluster * string) * Drain :=
  Drain_add_log_message (drain tm) (mask (masker tm) log_message).

(** How many times one call of the profiler at [p] reads the clock. *)
Definition clock_reads (w : World) (p : ProfRef) : nat :=
  match nth_error (w_heap w) p with
  | Some (SimpleProfiler _) => 1
  | _ => 0
  end.

(** The world when the engine has answered (lines 108-116), and the world
    after the closing calls of the profiler (lines 133-134). *)
Definition answered (p : ProfRef) (w : World) : World :=
  profiler_world p (SectionEnded "drain")
    (profiler_world p (SectionStarted "drain")
       (profiler_world p (SectionEnded "")
          (profiler_world p (SectionStarted "mask")
             (profiler_world p (SectionStarted "total") w)))).

Definition closed (p : ProfRef) (report_sec : Z) (w : World) : World :=
  profiler_world p (ReportChecked report_sec)
    (profiler_world p (SectionEnded "total") w).

(** The reason the policy gives when the clock reads [now]. *)
Definition reason_at (tm : TemplateMiner) (change_type : string)
    (cluster : LogCluster) (now : Q) : option string :=
  if negb (change_type =? "none") then
    Some (change_type ++ " (" ++ str_int (cluster_id cluster) ++ ")")%string
  else if float_ge (float_sub now (last_save_time tm))
                   (float_mul (snapshot_interval_minutes (config tm)) 60)
       then Some "periodic"
       else None.

(** The controller and the world when line 51 has run: everything of
    [__init__] but the recovery. *)
Definition built (handler : option PersistenceHandler)
    (cfg : option TemplateMinerConfig) (w : World) : State :=
  let config := match cfg with Some c => c | None => loaded_config end in
  let p0 := List.length (w_heap w) in
  let p := if profiling_enabled config then S p0 else p0 in
  let heap := if profiling_enabled config
              then (w_heap w ++ [NullProfiler]) ++ [SimpleProfiler []]
              else w_heap w ++ [NullProfiler] in
  mkState
    (mkMiner config p handler
       (Drain_init (drain_sim_th config) (drain_depth config)
          (drain_max_children config) (drain_max_clusters config)
          (drain_extra_delimiters config) p)
       (mkLogMasker (masking_instructions config))
       (w_clock w (w_ticks w)))
    (mkWorld (w_clock w) (S (w_ticks w)) heap (w_store w)
             ("Starting Drain3 template miner" :: w_log w) (w_saved w)).

(** A caller that hands the controller one line after the other and goes
    on after an exception. *)
Fixpoint add_log_messages (msgs : list string) (st : State)
  : list (Outcome Result) * State :=
  match msgs with
  | [] => ([], st)
  | m :: msgs' =>
      let (r, st') := add_log_message m st in
      let (rs, st'') := add_log_messages msgs' st' in
      (r :: rs, st'')
  end.

(** Two engines that differ at most in the profiler they refer to. *)
Definition same_engine (d1 d2 : Drain) : Prop :=
  set_profiler d1 0%nat = set_profiler d2 0%nat.

(** An engine that never lets the profiler it refers to decide what it
    answers. *)
Definition profiler_blind : Prop :=
  (forall sim_th depth max_children max_clusters extra_delimiters p,
      same_engine
        (Drain_init sim_th depth max_children max_clusters extra_delimiters p)
        (Drain_init sim_th depth max_children max_clusters extra_delimiters
                    0%nat))
  /\ (forall d1 d2 content,
         same_engine d1 d2 ->
         fst (Drain_add_log_message d1 content)
         = fst (Drain_add_log_message d2 content)
         /\ same_engine (snd (Drain_add_log_message d1 content))
                        (snd (Drain_add_log_message d2 content)))
  /\ (forall d1 d2, same_engine d1 d2 -> Drain_clusters d1 = Drain_clusters d2).

(** Two controllers that answer alike: the same engine up to the profiler,
    the same masker, the same handler. *)
Definition same_controller (tm1 tm2 : TemplateMiner) : Prop :=
  same_engine (drain tm1) (drain tm2)
  /\ masker tm1 = masker tm2
  /\ persistence_handler tm1 = persistence_handler tm2.

(** Two outcomes that do not contradict each other: if both are records,
    they are the same record. *)
Definition agree (o1 o2 : Outcome Result) : Prop :=
  forall r1 r2, o1 = Ok r1 -> o2 = Ok r2 -> r1 = r2.

(** A handler whose [save_state] never raises. *)
Definition never_fails (handler : option PersistenceHandler) : Prop :=
  forall h, handler = Some h ->
  forall blob s, fst (ph_save_state h blob s) = Ok tt.

Definition set_profiling_enabled (cfg : TemplateMinerConfig) (b : bool)
  : TemplateMinerConfig :=
  mkConfig b (profiling_report_sec cfg) (snapshot_interval_minutes cfg)
    (snapshot_compress_state cfg) (drain_sim_th cfg) (drain_depth cfg)
    (drain_max_children cfg) (drain_max_clusters cfg)
    (drain_extra_delimiters cfg) (masking_instructions cfg).

(** *** What a property may ask of the world and of the collaborators *)

(** A clock that never goes backwards. *)
Definition clock_monotone (w : World) : Prop :=
  forall m n, (m <= n)%nat -> (w_clock w m <= w_clock w n)%Q.

(** The time of the last save is a reading the clock gave earlier. *)
Definition last_save_is_a_reading (st : State) : Prop :=
  exists n, (n < w_ticks (world st))%nat
            /\ last_save_time (self st) = w_clock (world st) n.

(** A handler that loads what it saved last. *)
Definition loads_what_it_saved (h : PersistenceHandler) : Prop :=
  forall blob s s',
    ph_save_state h blob s = (Ok tt, s') ->
    fst (ph_load_state h s') = Ok (Some blob).

(** An engine that keeps the profiler it is constructed with. *)
Definition engine_keeps_profiler : Prop :=
  forall sim_th depth max_children max_clusters extra_delimiters p,
    profiler
      (Drain_init sim_th depth max_children max_clusters extra_delimiters p)
    = p.

(** The attributes of the controller that [__init__] sets and no other
    line of the class assigns. *)
Definition fixed_at_construction (tm : TemplateMiner)
  : TemplateMinerConfig * ProfRef * option PersistenceHandler * LogMasker :=
  (config tm, tm_profiler tm, persistence_handler tm, masker tm).

(** The journal of the profiler object at [p], when it is an active one,
    and an entry of a journal without its time. *)
Definition journal (w : World) (p : ProfRef) : option (list ProfEvent) :=
  match nth_error (w_heap w) p with
  | Some (SimpleProfiler j) => Some j
  | _ => None
  end.

Definition without_time (ev : ProfEvent) : ProfEvent :=
  match ev with
  | SectionStarted name _ => SectionStarted name 0
  | SectionEnded name _ => SectionEnded name 0
  | ReportChecked period_sec _ => ReportChecked period_sec 0
  end.


End Model.

(** ** A small instance of the collaborators

    An exact-match clustering engine, a masker without instructions, a
    line-oriented serialiser whose decoder returns every key as a [str]
    (as a JSON object does), a zlib codec that writes stored blocks, and
    handlers over an in-memory buffer.  The examples and the concrete runs
    below use it. *)

Module Demo.

Definition types : Types :=
  {| DrainRest := unit; MaskingInstruction := Empty_set;
     Store := option bytes |}.
#[local] Existing Instance types.

Local Open Scope string_scope.

Fixpoint split_on (sep : ascii) (s : string) : list string :=
  match s with
  | EmptyString => [EmptyString]
  | String c s' =>
      if (c =? sep)%char then EmptyString :: split_on sep s'
      else match split_on sep s' with
           | [] => [String c EmptyString]
           | w :: ws => String c w :: ws
           end
  end.

Definition newline : string := String (ascii_of_nat 10) EmptyString.

(** *** The engine *)

Definition new_engine (sim_th : Q) (depth max_children : Z)
    (max_clusters : option Z) (extra_delimiters : list string)
    (p : ProfRef) : Drain :=
  mkDrain (mkNode empty_dict) empty_dict p tt.

Definition same_template (content : string) (kv : PyKey * LogCluster) : bool :=
  (log_template (snd kv) =? content)%string.

Definition engine_add (py : CPython) (d : Drain) (content : string)
  : (LogCluster * string) * Drain :=
  let m := id_to_cluster d in
  match find (same_template content) (items m) with
  | Some (k, c) =>
      let c' := mkLogCluster (cluster_id c) (size c + 1) (log_template c) in
      ((c', "none"), set_id_to_cluster d (setitem py k c' m))
  | None =>
      let c := mkLogCluster (len (items m) + 1) 1 content in
      let tokens := len (split_on " " content) in
      ((c, "cluster_created"),
       mkDrain
         (mkNode (setitem py (KInt tokens) (mkNode empty_dict)
                          (key_to_child_node (root_node d))))
         (setitem py (KInt (cluster_id c)) c m) (profiler d) tt)
  end.

Definition engine_clusters (d : Drain) : list LogCluster :=
  values (id_to_cluster d).

Definition engine_total (d : Drain) : Z :=
  fold_right (fun c n => size c + n) 0 (engine_clusters d).

(** *** The serialiser *)

Definition key_text (k : PyKey) : string :=
  match k with
  | KInt z => str_int z
  | KStr s => s
  end.

Definition cluster_line (c : LogCluster) : string :=
  str_int (cluster_id c) ++ " " ++ str_int (size c) ++ " "
  ++ log_template c ++ newline.

Definition dumps (d : Drain) (heap : list Profiler) : string :=
  "root"
  ++ String.concat ""
       (map (fun k => " " ++ key_text k)
            (keys (key_to_child_node (root_node d))))
  ++ newline
  ++ String.concat "" (map cluster_line (engine_clusters d)).

Definition JSONDecodeError : exn := Exn "json.decoder.JSONDecodeError" "".

Definition parse_cluster (line : string) : Outcome (PyKey * LogCluster) :=
  match split_on " " line with
  | id :: sz :: template =>
      match int_str id, int_str sz with
      | Ok i, Ok n =>
          Ok (KStr id, mkLogCluster i n (String.concat " " template))
      | _, _ => Raise JSONDecodeError
      end
  | _ => Raise JSONDecodeError
  end.

Fixpoint parse_clusters (lines : list string)
  : Outcome (list (PyKey * LogCluster)) :=
  match lines with
  | [] => Ok []
  | line :: lines' =>
      if (line =? "")%string then parse_clusters lines'
      else match parse_cluster line, parse_clusters lines' with
           | Ok kv, Ok kvs => Ok (kv :: kvs)
           | Raise e, _ => Raise e
           | _, Raise e => Raise e
           end
  end.

(** The reference to the profiler that was serialised with the engine. *)
Definition stale_profiler : ProfRef := 41%nat.

Definition loads (py : CPython) (state : bytes) : Outcome Drain :=
  match split_on (ascii_of_nat 10) (string_of_list_byte state) with
  | first :: lines =>
      match split_on " " first with
      | "root" :: ks =>
          match parse_clusters lines with
          | Ok kvs =>
              Ok (mkDrain
                    (mkNode (dict_of py
                       (map (fun k => (KStr k, mkNode empty_dict)) ks)))
                    (dict_of py kvs) stale_profiler tt)
          | Raise e => Raise e
          end
      | _ => Raise JSONDecodeError
      end
  | [] => Raise JSONDecodeError
  end.

(** *** zlib with stored blocks *)

Definition adler32 (s : bytes) : N :=
  let '(a, b) :=
    fold_left (fun ab x =>
                 let a := ((fst ab + Byte.to_N x) mod 65521)%N in
                 (a, ((snd ab + a) mod 65521)%N))
              s (1%N, 0%N) in
  N.lor (N.shiftl b 16) a.

Definition be32 (n : N) : bytes :=
  map (fun k => Base64.byte_of (N.land (N.shiftr n k) 255)) [24; 16; 8; 0]%N.

Definition le16 (n : N) : bytes :=
  map (fun k => Base64.byte_of (N.land (N.shiftr n k) 255)) [0; 8]%N.

Fixpoint stored_blocks (fuel : nat) (s : bytes) : bytes :=
  match fuel with
  | O => []
  | S fuel' =>
      let chunk := firstn (N.to_nat 65535) s in
      let rest := skipn (N.to_nat 65535) s in
      let n := N.of_nat (List.length chunk) in
      let final := match rest with [] => "001"%byte | _ => "000"%byte end in
      (final :: le16 n ++ le16 (N.lxor n 65535) ++ chunk
         ++ match rest with [] => [] | _ => stored_blocks fuel' rest end)%list
  end.

Definition compress (s : bytes) : bytes :=
  (["x"%byte; "001"%byte] ++ stored_blocks (S (List.length s)) s
   ++ be32 (adler32 s))%list.

Definition zlib_error (msg : string) : exn := Exn "zlib.error" msg.

Fixpoint inflate_stored (fuel : nat) (s : bytes) : Outcome (bytes * bytes) :=
  match fuel, s with
  | S fuel', hd :: l0 :: l1 :: n0 :: n1 :: s' =>
      let n := (Byte.to_N l0 + 256 * Byte.to_N l1)%N in
      let c := (Byte.to_N n0 + 256 * Byte.to_N n1)%N in
      if negb (N.land (Byte.to_N hd) 6 =? 0)%N then
        Raise (zlib_error "Error -3 while decompressing data: invalid block type")
      else if negb (N.lxor n 65535 =? c)%N then
        Raise (zlib_error "Error -3 while decompressing data: invalid stored block lengths")
      else if (List.length s' <? N.to_nat n)%nat then
        Raise (zlib_error "Error -5 while decompressing data: incomplete or truncated stream")
      else
        let chunk := firstn (N.to_nat n) s' in
        let rest := skipn (N.to_nat n) s' in
        if N.testbit (Byte.to_N hd) 0 then Ok (chunk, rest)
        else match inflate_stored fuel' rest with
             | Ok (data, tail) => Ok ((chunk ++ data)%list, tail)
             | Raise e => Raise e
             end
  | _, _ =>
      Raise (zlib_error "Error -5 while decompressing data: incomplete or truncated stream")
  end.

Fixpoint bytes_eqb (a b : bytes) : bool :=
  match a, b with
  | [], [] => true
  | x :: a', y :: b' => Byte.eqb x y && bytes_eqb a' b'
  | _, _ => false
  end.

Definition decompress (s : bytes) : Outcome bytes :=
  match s with
  | cmf :: flg :: s' =>
      if negb (N.land (Byte.to_N cmf) 15 =? 8)%N
         || negb ((256 * Byte.to_N cmf + Byte.to_N flg) mod 31 =? 0)%N
      then Raise (zlib_error "Error -3 while decompressing data: incorrect header check")
      else match inflate_stored (List.length s') s' with
           | Ok (data, tail) =>
               if bytes_eqb tail (be32 (adler32 data)) then Ok data
               else Raise (zlib_error "Error -3 while decompressing data: incorrect data check")
           | Raise e => Raise e
           end
  | _ => Raise (zlib_error "Error -5 while decompressing data: incomplete or truncated stream")
  end.

Definition default_config : TemplateMinerConfig :=
  mkConfig false 60 5 true (4 # 10) 4 100 None [] [].

Definition collaborators (py : CPython) : Collaborators :=
  {| Drain_init := new_engine;
     Drain_add_log_message := engine_add py;
     Drain_clusters := engine_clusters;
     Drain_get_total_cluster_size := engine_total;
     LogMasker_mask := fun _ content => content;
     jsonpickle_dumps := dumps;
     jsonpickle_loads := loads py;
     zlib_compress := compress;
     zlib_decompress := decompress;
     interpreter := py;
     loaded_config := default_config |}.

(** *** Handlers over a buffer in memory *)

Definition memory_buffer : PersistenceHandler :=
  mkHandler (fun s => (Ok s, s)) (fun state _ => (Ok tt, Some state)).

(** A handler whose target cannot be written: nothing to load, and every
    save raises. *)
Definition read_only : PersistenceHandler :=
  mkHandler (fun s => (Ok None, s))
            (fun _ s => (Raise (Exn "PermissionError" "[Errno 13] Permission denied"), s)).

(** A world whose clock advances by [step] seconds at every reading. *)
Definition world_of (step : Q) (stored : option bytes) : World :=
  mkWorld (fun n => (inject_Z (Z.of_nat n) * step)%Q) 0 [] stored [] [].

(** A world whose clock gives the readings of a list, one after the
    other, and the last of them from then on. *)
Definition world_at (readings : list Q) (stored : option bytes) : World :=
  mkWorld (fun n => nth n readings (last readings 0%Q)) 0 [] stored [] [].

Definition config_with (profiling compress : bool) (minutes : Q)
  : TemplateMinerConfig :=
  mkConfig profiling 60 minutes compress (4 # 10) 4 100 None [] [].

(** The controller after [__init__], with what a failed construction
    leaves behind standing in when it raises. *)
Definition started (py : CPython) (handler : option PersistenceHandler)
    (cfg : TemplateMinerConfig) (w : World) : State :=
  match init (C := collaborators py) handler (Some cfg) w with
  | (Ok tm, w') => mkState tm w'
  | (Raise _, w') =>
      mkState (self (built (C := collaborators py) handler (Some cfg) w)) w'
  end.

(** The controller after the lines of a session. *)
Definition session (py : CPython) (handler : option PersistenceHandler)
    (cfg : TemplateMinerConfig) (w : World) (msgs : list string) : State :=
  snd (add_log_messages (C := collaborators py) msgs
         (started py handler cfg w)).

(** The floats 0.3 and 60.3. *)
Definition float_0_3 : Q := 5404319552844595 # 18014398509481984.
Definition float_60_3 : Q := 4243235273913139 # 70368744177664.

(** A session whose last save was at 0.3 and whose next line, one the
    engine knows, comes at 60.3, with an interval of one minute. *)
Definition a_minute_later : State :=
  session Py311 (Some memory_buffer) (config_with false false 1)
    (world_at [0%Q; float_0_3; float_60_3] None) ["a b c"].

(** What a session over six different lines leaves in the buffer, and what
    a session over one line leaves there with compression. *)
Definition six_lines : list string := ["a"; "b b"; "c c c"; "d"; "e"; "f"].

Definition six_clusters : option bytes :=
  w_store (world (session Py311 (Some memory_buffer)
                    (config_with false false 5) (world_of 1 None) six_lines)).

Definition one_cluster : option bytes :=
  w_store (world (session Py311 (Some memory_buffer)
                    (config_with false true 5) (world_of 1 None) ["a b c"])).

(** *** A masker that hides the digits *)

Definition mask_digits (content : string) : string :=
  string_of_list_ascii
    (map (fun c => match digit_of c with Some _ => "#"%char | None => c end)
         (list_ascii_of_string content)).

(** The collaborators with another masker. *)
Definition with_masker (C : Collaborators)
    (f : list MaskingInstruction -> string -> string) : Collaborators :=
  {| Drain_init := Drain_init;
     Drain_add_log_message := Drain_add_log_message;
     Drain_clusters := Drain_clusters;
     Drain_get_total_cluster_size := Drain_get_total_cluster_size;
     LogMasker_mask := f;
     jsonpickle_dumps := jsonpickle_dumps;
     jsonpickle_loads := jsonpickle_loads;
     zlib_compress := zlib_compress;
     zlib_decompress := zlib_decompress;
     interpreter := interpreter;
     loaded_config := loaded_config |}.


End Demo.

(** * Properties *)

(** ** Dictionaries: re-keying over a copy of the keys, and the turns of
    re-keying over the live view *)

Module DictFacts.

Section WithValues.
Context {V : Type}.
Implicit Types (d : dict V) (es : list (option (PyKey * V))) (k s : PyKey).

Lemma key_eqb_eq a b : key_eqb a b = true <-> a = b.
Proof.
  destruct a, b; cbn; try (split; discriminate).
  - rewrite Z.eqb_eq. split; congruence.
  - rewrite String.eqb_eq. split; congruence.
Qed.

Lemma live_some kv es : live (Some kv :: es) = kv :: live es.
Proof. reflexivity. Qed.

Lemma live_none es : live (None :: es) = live es.
Proof. reflexivity. Qed.

#[local] Arguments live : simpl never.

Lemma live_app es1 es2 : live (es1 ++ es2) = live es1 ++ live es2.
Proof. apply flat_map_app. Qed.

Lemma live_map_Some (l : list (PyKey * V)) : live (map Some l) = l.
Proof.
  induction l as [|x l IH]; cbn [map]; [reflexivity|].
  rewrite live_some, IH. reflexivity.
Qed.

Lemma del_entry_length k es :
  List.length (del_entry k es) = List.length es.
Proof.
  induction es as [|e es IH]; cbn; [reflexivity|].
  destruct (holds k e); cbn; congruence.
Qed.

Lemma set_entry_length k (v : V) es :
  List.length (set_entry k v es) = List.length es.
Proof.
  induction es as [|[[k' v']|] es IH]; cbn; try congruence.
  destruct (key_eqb k' k); cbn; congruence.
Qed.

Lemma set_entry_keys k (v : V) es :
  map fst (live (set_entry k v es)) = map fst (live es).
Proof.
  induction es as [|[[k' v']|] es IH]; cbn [set_entry].
  - reflexivity.
  - destruct (key_eqb k' k); rewrite !live_some; cbn [map fst]; congruence.
  - rewrite !live_none. exact IH.
Qed.

Lemma find_holds_live k es e :
  find (holds k) es = Some e -> List.length (live es) <> 0%nat.
Proof.
  induction es as [|[[k2 v2]|] es IH]; cbn [find]; try discriminate.
  cbn [holds]. rewrite live_none. exact IH.
Qed.

(** Deleting the entry of [k] takes one occurrence of [k] out of the keys
    and leaves the other keys alone. *)
Lemma del_entry_keys k es e :
  find (holds k) es = Some e ->
  (forall s,
      count_occ key_eq_dec (map fst (live es)) s
      = (count_occ key_eq_dec (map fst (live (del_entry k es))) s
         + if key_eq_dec k s then 1 else 0)%nat)
  /\ List.length (live (del_entry k es)) = pred (List.length (live es)).
Proof.
  induction es as [|e' es IH]; cbn [find del_entry]; [discriminate|].
  destruct (holds k e') eqn:Hh.
  - intros _. destruct e' as [[k' v']|]; [|discriminate]. cbn in Hh.
    apply key_eqb_eq in Hh. subst k'.
    rewrite live_some, live_none. cbn [map fst count_occ List.length].
    split; [|reflexivity].
    intros s. destruct (key_eq_dec k s); lia.
  - intros Hf. destruct (IH Hf) as [IHc IHl].
    pose proof (find_holds_live _ _ _ Hf) as Hne.
    destruct e' as [[k' v']|].
    + rewrite !live_some. cbn [map fst count_occ List.length]. split.
      * intros s. rewrite (IHc s).
        destruct (key_eq_dec k' s); lia.
      * rewrite IHl. lia.
    + rewrite !live_none. split; assumption.
Qed.

Lemma getitem_find d k (v : V) :
  getitem d k = Some v -> exists e, find (holds k) (dk_entries d) = Some e.
Proof.
  unfold getitem. destruct (find _ _) as [e|]; [eauto | discriminate].
Qed.

(** *** What [pop] and [setitem] do to the keys and to the layout *)

Lemma pop_spec k d (v : V) d1 :
  pop k d = (Ok v, d1) ->
  (forall s,
      count_occ key_eq_dec (keys d) s
      = (count_occ key_eq_dec (keys d1) s
         + if key_eq_dec k s then 1 else 0)%nat)
  /\ ma_used d1 = pred (ma_used d)
  /\ dk_nentries d1 = dk_nentries d
  /\ dk_usable d1 = dk_usable d.
Proof.
  unfold pop. destruct (getitem d k) as [v'|] eqn:Hg; [|discriminate].
  intros H. injection H as <- <-.
  destruct (getitem_find _ _ _ Hg) as [e He].
  destruct (del_entry_keys k _ e He) as [Hc Hl].
  unfold keys, items, ma_used, dk_nentries. cbn.
  repeat apply conj; auto using del_entry_length.
Qed.

Lemma table_size_ge fuel size minsize :
  (1 <= size)%nat -> (minsize <= size + fuel)%nat ->
  (minsize <= table_size fuel size minsize)%nat
  /\ (size <= table_size fuel size minsize)%nat.
Proof.
  revert size. induction fuel as [|fuel IH]; intros size Hs Hm;
    cbn [table_size].
  - lia.
  - destruct (Nat.ltb_spec size minsize).
    + destruct (IH (2 * size)%nat) as [H1 H2]; try lia.
    + lia.
Qed.

Lemma le_lor_l (a b : N) : (a <= N.lor a b)%N.
Proof.
  apply N.ldiff_le. apply N.bits_inj. intros n.
  rewrite N.ldiff_spec, N.lor_spec, N.bits_0.
  destruct (N.testbit a n), (N.testbit b n); reflexivity.
Qed.

Lemma calculate_keysize_ge minsize :
  (minsize <= calculate_keysize minsize)%nat
  /\ (PyDict_MINSIZE <= calculate_keysize minsize)%nat.
Proof.
  unfold calculate_keysize, PyDict_MINSIZE.
  set (m := N.of_nat minsize).
  set (x := N.lor (N.lor m 8 - 1) 7).
  assert (H7 : (7 <= x)%N)
    by (unfold x; rewrite N.lor_comm; apply le_lor_l).
  assert (Hm : (m <= x + 1)%N).
  { pose proof (le_lor_l m 8). pose proof (le_lor_l (N.lor m 8 - 1) 7).
    fold x in H0. lia. }
  assert (Hx : (x < N.shiftl 1 (N.succ (N.log2 x)))%N).
  { rewrite N.shiftl_1_l. apply N.log2_spec. lia. }
  unfold m in Hm. lia.
Qed.

Lemma keysize_ge py minsize :
  (minsize <= keysize py minsize)%nat
  /\ (PyDict_MINSIZE <= keysize py minsize)%nat.
Proof.
  unfold keysize. destruct (has_log2_keysize py).
  - apply calculate_keysize_ge.
  - apply table_size_ge; unfold PyDict_MINSIZE; lia.
Qed.

Lemma usable_after_resize py (u : nat) :
  (u + 1 <= USABLE_FRACTION (keysize py (3 * u)))%nat.
Proof.
  destruct (keysize_ge py (3 * u)) as [H1 H2]. unfold PyDict_MINSIZE in H2.
  unfold USABLE_FRACTION.
  set (t := keysize _ _) in *.
  assert (3 * (u + 1) <= 2 * t + 2)%nat by lia.
  pose proof (Nat.div_mod_eq (2 * t) 3).
  pose proof (Nat.mod_upper_bound (2 * t) 3).
  lia.
Qed.

Lemma insertion_resize_spec py unicode d :
  items (insertion_resize py unicode d) = items d
  /\ capacity (insertion_resize py unicode d)
     = USABLE_FRACTION (keysize py (3 * ma_used d))
  /\ (1 <= dk_usable (insertion_resize py unicode d))%nat.
Proof.
  unfold insertion_resize, GROWTH_RATE, capacity, dk_nentries, ma_used, items.
  cbn [dk_entries dk_usable].
  rewrite live_map_Some, length_map.
  pose proof (usable_after_resize py (List.length (live (dk_entries d)))).
  repeat apply conj; [reflexivity | lia | lia].
Qed.

Lemma setitem_spec py (z : Z) (v : V) d :
  let d' := setitem py (KInt z) v d in
  (forall s, is_int_key s = false ->
             count_occ key_eq_dec (keys d') s
             = count_occ key_eq_dec (keys d) s)
  /\ (capacity d' = capacity d
      \/ capacity d' = USABLE_FRACTION (keysize py (3 * ma_used d))).
Proof.
  assert (Hone : forall s, is_int_key s = false ->
            count_occ key_eq_dec (map fst (live [Some (KInt z, v)])) s = 0%nat).
  { intros s Hs. change (live [Some (KInt z, v)]) with [(KInt z, v)].
    cbn [map fst count_occ].
    destruct (key_eq_dec (KInt z) s) as [<-|]; [discriminate | reflexivity]. }
  unfold setitem.
  match goal with
  | |- context [if ?c then insertion_resize py false d else d] =>
      set (d0 := if c then insertion_resize py false d else d)
  end.
  assert (H0 : items d0 = items d
               /\ (capacity d0 = capacity d
                   \/ capacity d0
                      = USABLE_FRACTION (keysize py (3 * ma_used d)))).
  { unfold d0. destruct (_ && _)%bool.
    - destruct (insertion_resize_spec py false d) as (Hi & Hc & _). auto.
    - auto. }
  destruct H0 as [Hi0 Hc0]. clearbody d0.
  assert (Hk0 : keys d0 = keys d) by (unfold keys; rewrite Hi0; reflexivity).
  assert (Hu0 : ma_used d0 = ma_used d)
    by (unfold ma_used; rewrite Hi0; reflexivity).
  cbv zeta. rewrite <- Hk0.
  destruct (getitem d0 (KInt z)) as [v'|].
  - unfold keys, items, capacity, dk_nentries in *.
    cbn [dk_entries dk_usable].
    rewrite set_entry_keys, set_entry_length.
    split; [reflexivity | exact Hc0].
  - destruct (Nat.eqb_spec (dk_usable d0) 0) as [Hu|Hu].
    + destruct (insertion_resize_spec py true d0) as (Hi & Hc & Hpos).
      rewrite Hu0 in Hc.
      set (d1 := insertion_resize py true d0) in *. clearbody d1.
      unfold keys, items, capacity, dk_nentries in *.
      cbn [dk_entries dk_usable].
      rewrite live_app, map_app, length_app, Hi.
      split.
      * intros s Hs. rewrite count_occ_app, (Hone s Hs). lia.
      * right. cbn [List.length]. lia.
    + unfold keys, items, capacity, dk_nentries in *.
      cbn [dk_entries dk_usable].
      rewrite live_app, map_app, length_app.
      split.
      * intros s Hs. rewrite count_occ_app, (Hone s Hs). lia.
      * cbn [List.length].
        destruct Hc0 as [Hc0|Hc0]; [left | right]; lia.
Qed.

Lemma rekey_spec py k d d2 :
  rekey py k d = (Ok tt, d2) ->
  (forall s, is_int_key s = false ->
             count_occ key_eq_dec (keys d) s
             = (count_occ key_eq_dec (keys d2) s
                + if key_eq_dec k s then 1 else 0)%nat)
  /\ (capacity d2 = capacity d
      \/ capacity d2 = USABLE_FRACTION (keysize py (3 * pred (ma_used d)))).
Proof.
  unfold rekey. destruct (pop k d) as [[v|e] d1] eqn:Hp; [|discriminate].
  destruct (int_key k) as [z|e]; [|discriminate].
  intros H. injection H as <-.
  destruct (pop_spec _ _ _ _ Hp) as (Hc & Hu & Hn & Hus).
  destruct (setitem_spec py z v d1) as [Sc Sl]. cbv zeta in Sc, Sl.
  split.
  - intros s Hs. rewrite (Hc s), (Sc s Hs). reflexivity.
  - unfold capacity in *. rewrite <- Hn, <- Hus, <- Hu. exact Sl.
Qed.

(** *** Re-keying over a copy of the keys (lines 70-74) *)

Lemma rekey_list_counts py (ks : list PyKey) :
  forall d d',
    rekey_list py ks d = (Ok tt, d') ->
    forall s, is_int_key s = false ->
      (count_occ key_eq_dec (keys d') s + count_occ key_eq_dec ks s
       = count_occ key_eq_dec (keys d) s)%nat.
Proof.
  induction ks as [|k ks IH]; intros d d' H s Hs.
  - cbn in H. injection H as <-. cbn. lia.
  - cbn [rekey_list] in H.
    destruct (rekey py k d) as [[[]|e] d2] eqn:Hr; [|discriminate].
    destruct (rekey_spec _ _ _ _ Hr) as [Hc _].
    rewrite (Hc s Hs). specialize (IH _ _ H s Hs). cbn [count_occ].
    destruct (key_eq_dec k s); lia.
Qed.

(** When the loop over the copied keys comes to its end, every key of the
    dictionary is an [int]. *)
Lemma rekey_list_all_int py d d' :
  rekey_list py (keys d) d = (Ok tt, d') ->
  forallb is_int_key (keys d') = true.
Proof.
  intros H. apply forallb_forall. intros s Hin.
  destruct (is_int_key s) eqn:Hs; [reflexivity|].
  pose proof (rekey_list_counts _ _ _ _ H s Hs) as Hc.
  apply (count_occ_In key_eq_dec) in Hin. lia.
Qed.

(** *** Re-keying over the live view (lines 77-79) comes to an end *)

Lemma next_entry_bounds es :
  forall i j k,
    next_entry (V := V) i es = Some (j, k) ->
    (i <= j < i + List.length es)%nat.
Proof.
  induction es as [|[[k' v']|] es IH]; intros i j k H; cbn in H.
  - discriminate.
  - injection H as <- <-. cbn. lia.
  - apply IH in H. cbn. lia.
Qed.

Lemma rekey_loop_bounded py (used bound : nat) :
  (USABLE_FRACTION (keysize py (3 * pred used)) <= bound)%nat ->
  forall fuel it d,
    di_used it = used ->
    (capacity d <= bound)%nat ->
    (di_pos it <= bound)%nat ->
    (bound + 1 <= fuel + di_pos it)%nat ->
    rekey_loop py fuel it d <> None.
Proof.
  intros Hb. induction fuel as [|fuel IH]; intros it d Hu Hd Hp Hf.
  - lia.
  - cbn [rekey_loop]. unfold next.
    destruct (Nat.eqb_spec (di_used it) (ma_used d)) as [Hused|]; cbn [negb];
      [|discriminate].
    destruct (next_entry _ _) as [[i k]|] eqn:Hn; [|discriminate].
    destruct (has_keys_guard py && (di_len it =? 0)%nat); [discriminate|].
    destruct (rekey py k d) as [[[]|e] d2] eqn:Hr; [|discriminate].
    apply next_entry_bounds in Hn. rewrite length_skipn in Hn.
    destruct (rekey_spec _ _ _ _ Hr) as [_ Hl].
    unfold capacity, dk_nentries in *.
    apply IH; cbn [di_used di_pos]; try assumption; try lia.
    destruct Hl as [Hl|Hl]; [lia|].
    rewrite <- Hused, Hu in Hl. lia.
Qed.

(** The turns [rekey_view] allows are enough: its loop never stops for
    lack of them. *)
Lemma rekey_loop_terminates py d :
  rekey_loop py (rekey_turns py d) (iter d) d <> None.
Proof.
  unfold rekey_turns.
  set (bound := Nat.max _ _).
  assert (Hb : (USABLE_FRACTION (keysize py (3 * pred (ma_used d)))
                <= bound)%nat).
  { replace (pred (ma_used d)) with (ma_used d - 1)%nat by lia.
    apply Nat.le_max_r. }
  assert (Hd : (capacity d <= bound)%nat) by apply Nat.le_max_l.
  apply (rekey_loop_bounded py (ma_used d) bound Hb);
    cbn [iter di_used di_pos]; try assumption; try reflexivity; lia.
Qed.

(** *** The items after [pop] and [setitem] *)

Lemma getitem_in d k : In k (keys d) <-> exists v : V, getitem d k = Some v.
Proof.
  unfold getitem, keys, items.
  induction (dk_entries d) as [|[[k' v']|] es IH]; cbn [find holds].
  - cbn. split; [intros [] | intros [v H]; discriminate].
  - rewrite live_some. cbn [map fst In].
    destruct (key_eqb k' k) eqn:E.
    + apply key_eqb_eq in E. split; eauto.
    + split.
      * intros [H|H]; [|apply IH, H].
        apply key_eqb_eq in H. congruence.
      * intros H. right. apply IH, H.
  - rewrite live_none. exact IH.
Qed.

Lemma getitem_absent d k : ~ In k (keys d) -> getitem (V := V) d k = None.
Proof.
  intros H. destruct (getitem d k) as [v|] eqn:E; [|reflexivity].
  exfalso. apply H, getitem_in. eauto.
Qed.

(** Deleting the first key of the dictionary. *)
Lemma del_entry_first k (v : V) es l :
  live es = (k, v) :: l ->
  find (holds k) es = Some (Some (k, v)) /\ live (del_entry k es) = l.
Proof.
  induction es as [|[[k' v']|] es IH]; cbn [find del_entry holds].
  - discriminate.
  - rewrite live_some. intros H. injection H as -> -> <-.
    rewrite (proj2 (key_eqb_eq k k) eq_refl). rewrite live_none.
    split; reflexivity.
  - rewrite !live_none. exact IH.
Qed.

Lemma pop_first k (v : V) d l :
  items d = (k, v) :: l ->
  exists d1, pop k d = (Ok v, d1) /\ items d1 = l.
Proof.
  unfold items, pop, getitem. intros H.
  destruct (del_entry_first _ _ _ _ H) as [Hf Hd]. rewrite Hf.
  eexists. split; [reflexivity | exact Hd].
Qed.

(** A key that is not in the dictionary goes behind the others. *)
Lemma setitem_absent py k (v : V) d :
  ~ In k (keys d) -> items (setitem py k v d) = items d ++ [(k, v)].
Proof.
  intros Hk. unfold setitem.
  match goal with
  | |- context [if ?c then insertion_resize py false d else d] =>
      set (d0 := if c then insertion_resize py false d else d)
  end.
  assert (H0 : items d0 = items d).
  { unfold d0. destruct (_ && _)%bool; [|reflexivity].
    apply insertion_resize_spec. }
  clearbody d0.
  rewrite getitem_absent by (unfold keys; rewrite H0; exact Hk).
  destruct (dk_usable d0 =? 0)%nat.
  - destruct (insertion_resize_spec py true d0) as (Hi & _).
    unfold items in *. cbn [dk_entries]. rewrite live_app, Hi, H0.
    reflexivity.
  - unfold items in *. cbn [dk_entries]. rewrite live_app, H0. reflexivity.
Qed.

(** A key that is in the dictionary keeps its place. *)
Lemma setitem_present py k (v : V) d :
  In k (keys d) -> keys (setitem py k v d) = keys d.
Proof.
  intros Hin. unfold setitem.
  match goal with
  | |- context [if ?c then insertion_resize py false d else d] =>
      set (d0 := if c then insertion_resize py false d else d)
  end.
  assert (H0 : items d0 = items d).
  { unfold d0. destruct (_ && _)%bool; [|reflexivity].
    apply insertion_resize_spec. }
  clearbody d0.
  assert (Hin0 : In k (keys d0)) by (unfold keys; rewrite H0; exact Hin).
  apply getitem_in in Hin0. destruct Hin0 as [v0 ->].
  unfold keys, items in *. cbn [dk_entries].
  rewrite set_entry_keys, H0. reflexivity.
Qed.

(** A store never takes a key out of the dictionary. *)
Lemma setitem_keys py k (v : V) d :
  keys (setitem py k v d) = keys d \/ keys (setitem py k v d) = keys d ++ [k].
Proof.
  destruct (in_dec key_eq_dec k (keys d)) as [Hin|Hout].
  - left. apply setitem_present, Hin.
  - right. unfold keys. rewrite setitem_absent by exact Hout.
    rewrite map_app. reflexivity.
Qed.

Lemma setitem_counts py k (v : V) d s :
  (count_occ key_eq_dec (keys d) s
   <= count_occ key_eq_dec (keys (setitem py k v d)) s)%nat.
Proof.
  destruct (setitem_keys py k v d) as [-> | ->]; [lia|].
  rewrite count_occ_app. lia.
Qed.

(** *** Re-keying over a copy of the keys: when it raises, and what it
    leaves *)

(** No turn of the loop misses its key, so the loop raises only where
    [int(key)] does. *)
Lemma rekey_list_outcome py (ks : list PyKey) :
  forall d,
    (forall s, (count_occ key_eq_dec ks s
                <= count_occ key_eq_dec (keys d) s)%nat) ->
    match fst (rekey_list py ks d) with
    | Ok _ => forall k, In k ks -> exists z, int_key k = Ok z
    | Raise e => exists k, In k ks /\ int_key k = Raise e
    end.
Proof.
  induction ks as [|k ks IH]; intros d Hc.
  - cbn. intros k [].
  - cbn [rekey_list]. unfold rekey.
    assert (Hin : In k (keys d)).
    { apply (count_occ_In key_eq_dec). specialize (Hc k).
      rewrite count_occ_cons_eq in Hc by reflexivity. lia. }
    apply getitem_in in Hin. destruct Hin as [v Hv].
    destruct (pop k d) as [[v'|e] d1] eqn:Hp;
      [|unfold pop in Hp; rewrite Hv in Hp; discriminate].
    destruct (pop_spec _ _ _ _ Hp) as (Hc1 & _).
    destruct (int_key k) as [z|e] eqn:Hz.
    + assert (Hc2 : forall s,
                 (count_occ key_eq_dec ks s
                  <= count_occ key_eq_dec
                       (keys (setitem py (KInt z) v' d1)) s)%nat).
      { intros s. pose proof (setitem_counts py (KInt z) v' d1 s).
        specialize (Hc s). rewrite (Hc1 s) in Hc. cbn [count_occ] in Hc.
        destruct (key_eq_dec k s); lia. }
      specialize (IH _ Hc2).
      destruct (fst (rekey_list py ks (setitem py (KInt z) v' d1)))
        as [[]|e].
      * intros k' [<-|Hk']; [eauto | apply IH, Hk'].
      * destruct IH as (k' & Hk' & He). exists k'. split; [right|]; assumption.
    + cbn. exists k. split; [left; reflexivity | exact Hz].
Qed.

Lemma int_key_in (l : list (PyKey * V)) :
  forall zs z,
    map int_key (map fst l) = map Ok zs ->
    In (KInt z) (map fst l) -> In z zs.
Proof.
  induction l as [|[k v] l IH]; intros [|z' zs] z H; cbn in *;
    try discriminate; try tauto.
  injection H as Hk Hl. intros [->|Hin].
  - cbn in Hk. injection Hk as ->. left. reflexivity.
  - right. eapply IH; eassumption.
Qed.

(** Keys whose [int]s differ from one another are re-keyed one after the
    other, each going behind the ones done before it. *)
Lemma rekey_list_in_order py (l : list (PyKey * V)) :
  forall zs done d,
    items d = l ++ done ->
    map int_key (map fst l) = map Ok zs ->
    NoDup zs ->
    (forall z, In z zs -> ~ In (KInt z) (map fst done)) ->
    exists d',
      rekey_list py (map fst l) d = (Ok tt, d')
      /\ items d' = done ++ combine (map KInt zs) (map snd l).
Proof.
  induction l as [|[k v] l IH]; intros zs done d Hi Hz Hnd Hdone.
  - destruct zs; [|discriminate]. exists d. cbn.
    rewrite app_nil_r. split; [reflexivity | exact Hi].
  - destruct zs as [|z zs]; [discriminate|].
    cbn [map fst] in Hz. injection Hz as Hk Hz.
    cbn [map fst snd rekey_list]. unfold rekey.
    destruct (pop_first k v d (l ++ done) Hi) as (d1 & -> & Hi1).
    rewrite Hk.
    apply NoDup_cons_iff in Hnd. destruct Hnd as [Hz1 Hnd].
    assert (Hout : ~ In (KInt z) (keys d1)).
    { unfold keys. rewrite Hi1, map_app, in_app_iff. intros [H|H].
      - apply Hz1. eapply int_key_in; eassumption.
      - apply (Hdone z); [left; reflexivity | exact H]. }
    destruct (IH zs (done ++ [(KInt z, v)]) (setitem py (KInt z) v d1))
      as (d' & Hr & Hi').
    + rewrite setitem_absent by exact Hout. rewrite Hi1, app_assoc.
      reflexivity.
    + exact Hz.
    + exact Hnd.
    + intros z' Hz'. rewrite map_app, in_app_iff. cbn.
      intros [H|[H|[]]].
      * apply (Hdone z'); [right; exact Hz' | exact H].
      * injection H as ->. contradiction.
    + exists d'. split; [exact Hr|].
      rewrite Hi', <- app_assoc. reflexivity.
Qed.

(** *** Re-keying over the live view: more turns than [rekey_turns] allows
    change nothing *)

Lemma rekey_loop_more_fuel py (extra : nat) :
  forall fuel it d r,
    rekey_loop py fuel it d = Some r ->
    rekey_loop py (fuel + extra) it d = Some r.
Proof.
  induction fuel as [|fuel IH]; intros it d r H; [discriminate|].
  cbn [rekey_loop Nat.add] in *.
  destruct (next py it d) as [k it'| |e]; try exact H.
  destruct (rekey py k d) as [[[]|e] d']; [|exact H].
  apply IH, H.
Qed.

(** X4.  The loop of lines 77-79 stores into the dictionary it iterates
    over, and yet it always comes to an end: [rekey_turns] turns are enough on
    every release of the interpreter, and allowing more turns changes
    nothing of its result. *)
Theorem rekeying_the_live_view_comes_to_an_end py d (extra : nat) :
  rekey_loop py (rekey_turns py d + extra)%nat (iter d) d
  = Some (rekey_view py d).
Proof.
  apply rekey_loop_more_fuel. unfold rekey_view.
  pose proof (rekey_loop_terminates py d) as H.
  destruct (rekey_loop py (rekey_turns py d) (iter d) d) as [r|];
    [reflexivity | contradiction].
Qed.

(** *** Re-keying over the live view: what it raises and what it keeps *)

Lemma next_entry_in es :
  forall i j k,
    next_entry (V := V) i es = Some (j, k) -> In k (map fst (live es)).
Proof.
  induction es as [|[[k' v']|] es IH]; intros i j k H; cbn in H.
  - discriminate.
  - injection H as _ <-. rewrite live_some. left. reflexivity.
  - rewrite live_none. eapply IH, H.
Qed.

Lemma live_skipn_incl (n : nat) es (kv : PyKey * V) :
  In kv (live (skipn n es)) -> In kv (live es).
Proof.
  revert es. induction n as [|n IH]; intros es; [auto|].
  destruct es as [|[kv'|] es]; cbn [skipn]; [auto | |].
  - rewrite live_some. intros H. right. apply IH, H.
  - rewrite live_none. apply IH.
Qed.

(** The key the iterator yields is a key of the dictionary. *)
Lemma next_yields_a_key py it d k it' :
  next py it d = Yield k it' -> In k (keys d).
Proof.
  unfold next. destruct (negb _); [discriminate|].
  destruct (next_entry _ _) as [[i k']|] eqn:Hn; [|discriminate].
  destruct (_ && _)%bool; [discriminate|].
  intros H. injection H as <- _.
  apply next_entry_in in Hn. apply in_map_iff in Hn.
  destruct Hn as (kv & <- & Hin). unfold keys, items.
  apply in_map. eapply live_skipn_incl, Hin.
Qed.

Lemma next_error py it d e :
  next py it d = IterError e -> exists msg, e = Exn "RuntimeError" msg.
Proof.
  unfold next. destruct (negb _); [intros H; injection H as <-; eauto|].
  destruct (next_entry _ _) as [[i k']|]; [|discriminate].
  destruct (_ && _)%bool; [|discriminate].
  intros H. injection H as <-. eauto.
Qed.

Lemma next_yield_size py it d k it' :
  next py it d = Yield k it' ->
  di_used it = ma_used d /\ di_used it' = di_used it.
Proof.
  unfold next. destruct (Nat.eqb_spec (di_used it) (ma_used d)) as [E|E];
    cbn [negb]; [|discriminate].
  destruct (next_entry _ _) as [[i k']|]; [|discriminate].
  destruct (_ && _)%bool; [discriminate|].
  intros H. injection H as _ <-. split; [exact E | reflexivity].
Qed.

Lemma next_stop_size py it d :
  next py it d = StopIteration -> di_used it = ma_used d.
Proof.
  unfold next. destruct (Nat.eqb_spec (di_used it) (ma_used d)) as [E|E];
    cbn [negb]; [intros _; exact E | discriminate].
Qed.

Lemma rekey_loop_ok_size py fuel it d d' :
  rekey_loop py fuel it d = Some (Ok tt, d') -> di_used it = ma_used d.
Proof.
  destruct fuel as [|fuel]; [discriminate|]. cbn [rekey_loop].
  destruct (next py it d) as [k it'| |e] eqn:Hn.
  - intros _. apply (next_yield_size _ _ _ _ _ Hn).
  - intros _. apply (next_stop_size _ _ _ Hn).
  - discriminate.
Qed.

(** A turn of a re-keying loop for a key of the dictionary raises only
    where [int(key)] does. *)
Lemma rekey_raises py k d e d' :
  In k (keys d) -> rekey py k d = (Raise e, d') -> int_key k = Raise e.
Proof.
  intros Hin. unfold rekey. apply getitem_in in Hin. destruct Hin as [v Hv].
  unfold pop. rewrite Hv.
  destruct (int_key k) as [z|e0]; [discriminate|].
  intros H. injection H as <- _. reflexivity.
Qed.

Lemma rekey_loop_raises py :
  forall fuel it d e d',
    rekey_loop py fuel it d = Some (Raise e, d') ->
    (exists msg, e = Exn "RuntimeError" msg)
    \/ exists k, int_key k = Raise e.
Proof.
  induction fuel as [|fuel IH]; intros it d e d' H; [discriminate|].
  cbn [rekey_loop] in H.
  destruct (next py it d) as [k it'| |e0] eqn:Hn.
  - destruct (rekey py k d) as [[[]|e1] d1] eqn:Hr.
    + eapply IH, H.
    + injection H as <- <-. right. exists k.
      eapply rekey_raises; [eapply next_yields_a_key, Hn | exact Hr].
  - discriminate.
  - injection H as <- <-. left. eapply next_error, Hn.
Qed.

Lemma del_entry_permutation k es e :
  find (holds k) es = Some e ->
  exists v : V,
    e = Some (k, v)
    /\ Permutation (live es) ((k, v) :: live (del_entry k es)).
Proof.
  induction es as [|[[k' v']|] es IH]; cbn [find del_entry holds].
  - discriminate.
  - destruct (key_eqb k' k) eqn:E.
    + apply key_eqb_eq in E. subst k'. intros H. injection H as <-.
      exists v'. rewrite live_some, live_none. split; reflexivity.
    + intros H. destruct (IH H) as (v & -> & Hp). exists v.
      rewrite !live_some. split; [reflexivity|].
      rewrite Hp. apply perm_swap.
  - intros H. destruct (IH H) as (v & -> & Hp). exists v.
    rewrite !live_none. split; [reflexivity | exact Hp].
Qed.

Lemma pop_permutation k d (v : V) d1 :
  pop k d = (Ok v, d1) -> Permutation (items d) ((k, v) :: items d1).
Proof.
  unfold pop, getitem.
  destruct (find (holds k) (dk_entries d)) as [e|] eqn:Hf; [|discriminate].
  destruct (del_entry_permutation _ _ _ Hf) as (v' & -> & Hp).
  intros H. injection H as <- <-. exact Hp.
Qed.

(** A turn that leaves the size of the dictionary as it was has moved one
    value from its key to the [int] of its key. *)
Lemma rekey_same_size py k d d2 :
  rekey py k d = (Ok tt, d2) ->
  ma_used d2 = ma_used d ->
  exists z (v : V) rest,
    int_key k = Ok z
    /\ Permutation (items d) ((k, v) :: rest)
    /\ Permutation (items d2) ((KInt z, v) :: rest).
Proof.
  unfold rekey. destruct (pop k d) as [[v|e] d1] eqn:Hp; [|discriminate].
  destruct (int_key k) as [z|e]; [|discriminate].
  intros H Hsize. injection H as <-.
  destruct (pop_spec _ _ _ _ Hp) as (_ & Hu & _).
  pose proof (pop_permutation _ _ _ _ Hp) as Hperm.
  assert (Hpos : ma_used d <> 0%nat).
  { unfold ma_used. intros E. apply Permutation_length in Hperm.
    rewrite E in Hperm. discriminate. }
  exists z, v, (items d1). split; [reflexivity|]. split; [exact Hperm|].
  destruct (in_dec key_eq_dec (KInt z) (keys d1)) as [Hin|Hout].
  - exfalso. pose proof (setitem_present py (KInt z) v d1 Hin) as E.
    unfold ma_used, keys in *.
    apply (f_equal (@List.length _)) in E. rewrite !length_map in E. lia.
  - rewrite setitem_absent by exact Hout.
    symmetry. apply Permutation_cons_append.
Qed.

Lemma rekeyed_refl (l : list (PyKey * V)) : Forall2 rekeyed l l.
Proof.
  induction l as [|x l IH]; constructor; [|exact IH].
  split; [reflexivity | left; reflexivity].
Qed.

(** When the loop over the live view returns, every turn has left the size
    of the dictionary as it was, or the iterator would have raised: the
    items are the ones the dictionary had, some of them under the [int] of
    their key. *)
Lemma rekey_loop_items py :
  forall fuel it d d',
    rekey_loop py fuel it d = Some (Ok tt, d') ->
    exists l, Permutation l (items d) /\ Forall2 rekeyed (items d') l.
Proof.
  induction fuel as [|fuel IH]; intros it d d' H; [discriminate|].
  cbn [rekey_loop] in H.
  destruct (next py it d) as [k it'| |e] eqn:Hn; [| |discriminate].
  2:{ injection H as <-. exists (items d).
      split; [reflexivity | apply rekeyed_refl]. }
  destruct (rekey py k d) as [[[]|e] d1] eqn:Hr; [|discriminate].
  destruct (next_yield_size _ _ _ _ _ Hn) as [Hs Hs'].
  pose proof (rekey_loop_ok_size _ _ _ _ _ H) as Hs1.
  destruct (rekey_same_size _ _ _ _ Hr ltac:(congruence))
    as (z & v & rest & Hz & Hp & Hp1).
  destruct (IH _ _ _ H) as (l1 & Hl1 & Hf).
  assert (Hin : In (KInt z, v) l1).
  { eapply Permutation_in; [symmetry; etransitivity; eassumption|].
    left. reflexivity. }
  apply in_split in Hin. destruct Hin as (la & lb & ->).
  exists (la ++ (k, v) :: lb). split.
  - rewrite Hp. symmetry. apply Permutation_cons_app.
    apply (Permutation_cons_app_inv la lb (a := (KInt z, v))).
    rewrite <- Hp1. symmetry. exact Hl1.
  - apply Forall2_app_inv_r in Hf.
    destruct Hf as (a & xb & Ha & Hxb & ->).
    inversion Hxb as [|x y b lb' Hx Hb]; subst.
    apply Forall2_app; [exact Ha|]. constructor; [|exact Hb].
    destruct Hx as [Hv Hk]. cbn [fst snd] in *. split; [exact Hv|].
    right. exists z. split; [exact Hz|].
    destruct Hk as [Hk | (z' & Hz' & Hk)]; [exact Hk|].
    cbn in Hz'. injection Hz' as <-. exact Hk.
Qed.

End WithValues.

End DictFacts.

(** ** [int]: what it raises *)

Module IntFacts.

(** [int(s)] raises nothing but [ValueError]. *)
Lemma int_str_raises (s : string) (e : exn) :
  int_str s = Raise e -> exists msg, e = Exn "ValueError" msg.
Proof.
  unfold int_str. intros H.
  repeat match type of H with
         | context [match ?x with _ => _ end] => destruct x
         end;
    try discriminate; injection H as <-; eauto.
Qed.

End IntFacts.


(** ** [float]: rounding keeps the order *)

Module FloatFacts.

Ltac compared H :=
  first [apply (proj2 (Qlt_alt _ _)) in H
        | apply (proj2 (Qgt_alt _ _)) in H
        | apply (proj2 (Qeq_alt _ _)) in H].

Lemma round_half_even_bounds (x : Q) :
  Qfloor x <= round_half_even x <= Qfloor x + 1.
Proof.
  unfold round_half_even.
  destruct (_ ?= _)%Q; [destruct (Z.even _)|..]; lia.
Qed.

Lemma round_half_even_le (x y : Q) :
  (x <= y)%Q -> round_half_even x <= round_half_even y.
Proof.
  intros H. pose proof (Qfloor_resp_le x y H) as Hf.
  pose proof (round_half_even_bounds x) as Bx.
  pose proof (round_half_even_bounds y) as By.
  destruct (Z.eq_dec (Qfloor x) (Qfloor y)) as [E|N]; [|lia].
  unfold round_half_even in *. rewrite <- E in *.
  destruct (x - inject_Z (Qfloor x) ?= 1 # 2)%Q eqn:Cx;
    destruct (y - inject_Z (Qfloor x) ?= 1 # 2)%Q eqn:Cy;
    try (destruct (Z.even (Qfloor x))); try lia;
    compared Cx; compared Cy; lra.
Qed.

Lemma pow2_pos (e : Z) : (0 < pow2 e)%Q.
Proof. apply Qpower_0_lt. reflexivity. Qed.

Lemma pow2_le (e k : Z) : e <= k -> (pow2 e <= pow2 k)%Q.
Proof. intros H. apply Qpower_le_compat_l; [exact H | discriminate]. Qed.

Lemma pow2_add (e k : Z) : (pow2 (e + k) == pow2 e * pow2 k)%Q.
Proof. apply Qpower_plus. discriminate. Qed.

Lemma pow2_Z (n : Z) : 0 <= n -> (pow2 n == inject_Z (2 ^ n))%Q.
Proof.
  intros H. unfold pow2. rewrite Zpower_Qpower by exact H. reflexivity.
Qed.

Lemma pow2_quot (e k : Z) :
  e <= k -> (pow2 k / pow2 e == inject_Z (2 ^ (k - e)))%Q.
Proof.
  intros H. rewrite <- pow2_Z by lia.
  replace k with (e + (k - e)) at 1 by lia. rewrite pow2_add.
  pose proof (pow2_pos e). field. lra.
Qed.

(** [floor_log2] finds the binade of a positive rational. *)
Lemma floor_log2_spec (a : Q) :
  (0 < a)%Q ->
  (pow2 (floor_log2 a) <= a < pow2 (floor_log2 a + 1))%Q.
Proof.
  intros Ha. destruct a as [n d]. unfold floor_log2. cbn [Qnum Qden].
  assert (Hn : 0 < n) by (unfold Qlt in Ha; cbn in Ha; lia).
  pose proof (Z.log2_spec n Hn) as [N1 N2].
  pose proof (Z.log2_spec (Z.pos d) (Pos2Z.is_pos d)) as [D1 D2].
  pose proof (Z.log2_nonneg n) as Ln.
  pose proof (Z.log2_nonneg (Z.pos d)) as Ld.
  set (a := Z.log2 n) in *. set (b := Z.log2 (Z.pos d)) in *.
  assert (Q1 : (pow2 a <= inject_Z n)%Q).
  { rewrite pow2_Z by lia. rewrite <- Zle_Qle. exact N1. }
  assert (Q2 : (inject_Z n < pow2 (a + 1))%Q).
  { rewrite pow2_Z by lia. rewrite <- Zlt_Qlt. exact N2. }
  assert (Q3 : (pow2 b <= inject_Z (Z.pos d))%Q).
  { rewrite pow2_Z by lia. rewrite <- Zle_Qle. exact D1. }
  assert (Q4 : (inject_Z (Z.pos d) < pow2 (b + 1))%Q).
  { rewrite pow2_Z by lia. rewrite <- Zlt_Qlt. exact D2. }
  assert (Hq : (inject_Z n == (n # d) * inject_Z (Z.pos d))%Q).
  { unfold Qeq, Qmult, inject_Z. cbn. lia. }
  assert (Hd : (0 < inject_Z (Z.pos d))%Q) by (unfold Qlt; cbn; lia).
  pose proof (pow2_pos b) as Pb. pose proof (pow2_pos (a - b)) as Pk.
  pose proof (pow2_pos (a - b - 1)) as Pk1.
  assert (A1 : (pow2 a == pow2 (a - b) * pow2 b)%Q).
  { rewrite <- pow2_add. replace (a - b + b) with a by lia. reflexivity. }
  assert (A2 : (pow2 (a + 1) == pow2 (a - b + 1) * pow2 b)%Q).
  { rewrite <- pow2_add. replace (a - b + 1 + b) with (a + 1) by lia.
    reflexivity. }
  assert (A3 : (pow2 a == pow2 (a - b - 1) * pow2 (b + 1))%Q).
  { rewrite <- pow2_add. replace (a - b - 1 + (b + 1)) with a by lia.
    reflexivity. }
  destruct (Qle_bool (pow2 (a - b)) (n # d)) eqn:E.
  - apply Qle_bool_iff in E. split; [exact E|].
    apply Qnot_le_lt. intros N.
    assert ((pow2 (a - b + 1) * pow2 b <= (n # d) * inject_Z (Z.pos d))%Q).
    { apply Qle_trans with ((n # d) * pow2 b)%Q.
      - apply Qmult_le_compat_r; [exact N | lra].
      - rewrite (Qmult_comm (n # d)), (Qmult_comm (n # d)).
        apply Qmult_le_compat_r; [exact Q3 | lra]. }
    lra.
  - replace (a - b - 1 + 1) with (a - b) by lia.
    assert (L : ((n # d) < pow2 (a - b))%Q).
    { apply Qnot_le_lt. intros N. apply Qle_bool_iff in N. congruence. }
    split; [|exact L].
    apply Qnot_lt_le. intros N.
    assert (((n # d) * inject_Z (Z.pos d)
             < pow2 (a - b - 1) * pow2 (b + 1))%Q).
    { apply Qle_lt_trans with (pow2 (a - b - 1) * inject_Z (Z.pos d))%Q.
      - apply Qmult_le_compat_r; lra.
      - rewrite (Qmult_comm _ (inject_Z _)), (Qmult_comm _ (pow2 (b + 1))).
        apply Qmult_lt_compat_r; [lra | exact Q4]. }
    lra.
Qed.

Lemma floor_log2_le (a b : Q) :
  (0 < a)%Q -> (a <= b)%Q -> floor_log2 a <= floor_log2 b.
Proof.
  intros Ha Hab.
  destruct (floor_log2_spec a Ha) as [A1 _].
  destruct (floor_log2_spec b ltac:(lra)) as [_ B2].
  destruct (Z_le_gt_dec (floor_log2 a) (floor_log2 b)) as [L|G]; [exact L|].
  pose proof (pow2_le (floor_log2 b + 1) (floor_log2 a) ltac:(lia)). lra.
Qed.

Lemma on_grid_le (e : Z) (a b : Q) :
  (a <= b)%Q -> (on_grid e a <= on_grid e b)%Q.
Proof.
  intros H. unfold on_grid. pose proof (pow2_pos e) as P.
  apply Qmult_le_compat_r; [|lra].
  rewrite <- Zle_Qle. apply round_half_even_le.
  apply Qmult_le_compat_r; [exact H|].
  apply Qlt_le_weak, Qinv_lt_0_compat, P.
Qed.

(** A power of two at or above the last place is on the grid. *)
Lemma on_grid_pow2 (e k : Z) : e <= k -> (on_grid e (pow2 k) == pow2 k)%Q.
Proof.
  intros H. unfold on_grid.
  assert (R : round_half_even (pow2 k / pow2 e) = 2 ^ (k - e)).
  { unfold round_half_even.
    rewrite (Qfloor_comp _ _ (pow2_quot e k H)), Qfloor_Z.
    assert (C : (pow2 k / pow2 e - inject_Z (2 ^ (k - e)) ?= 1 # 2)%Q = Lt).
    { apply (proj1 (Qlt_alt _ _)). rewrite (pow2_quot e k H). lra. }
    rewrite C. reflexivity. }
  rewrite R, <- (pow2_quot e k H). pose proof (pow2_pos e). field. lra.
Qed.

Lemma on_grid_0 (e : Z) : (on_grid e 0 == 0)%Q.
Proof.
  unfold on_grid.
  assert (R : round_half_even (0 / pow2 e) = 0).
  { unfold round_half_even.
    assert (Z0 : (0 / pow2 e == inject_Z 0)%Q)
      by (unfold Qdiv; rewrite Qmult_0_l; reflexivity).
    rewrite (Qfloor_comp _ _ Z0), Qfloor_Z.
    assert (C : (0 / pow2 e - inject_Z 0 ?= 1 # 2)%Q = Lt).
    { apply (proj1 (Qlt_alt _ _)). rewrite Z0. reflexivity. }
    rewrite C. reflexivity. }
  rewrite R. apply Qmult_0_l.
Qed.

(** Across two binades the power of two between them is a float of
    both. *)
Lemma nearest_le (a b : Q) :
  (0 < a)%Q -> (a <= b)%Q -> (nearest a <= nearest b)%Q.
Proof.
  intros Ha Hab. unfold nearest.
  pose proof (floor_log2_le a b Ha Hab) as Hl.
  destruct (Z.eq_dec (ulp_exponent a) (ulp_exponent b)) as [E|N].
  - rewrite E. apply on_grid_le, Hab.
  - destruct (floor_log2_spec a Ha) as [_ A2].
    destruct (floor_log2_spec b ltac:(lra)) as [B1 _].
    unfold ulp_exponent in *.
    set (la := floor_log2 a) in *. set (lb := floor_log2 b) in *.
    pose proof (pow2_le (la + 1) lb ltac:(lia)) as P.
    apply Qle_trans with (pow2 lb).
    + rewrite <- (on_grid_pow2 (Z.max (la - 52) (-1074)) lb) by lia.
      apply on_grid_le. lra.
    + rewrite <- (on_grid_pow2 (Z.max (lb - 52) (-1074)) lb) at 1 by lia.
      apply on_grid_le. exact B1.
Qed.

Lemma nearest_nonneg (a : Q) : (0 <= a)%Q -> (0 <= nearest a)%Q.
Proof.
  intros Ha. unfold nearest.
  rewrite <- (on_grid_0 (ulp_exponent a)). apply on_grid_le, Ha.
Qed.

Lemma float_le_refl (a : float) : float_le a a = true.
Proof.
  destruct a as [q|[]]; cbn; [apply Qle_bool_iff; lra | reflexivity..].
Qed.

Lemma float_le_trans (a b c : float) :
  float_le a b = true -> float_le b c = true -> float_le a c = true.
Proof.
  destruct a as [x|[]], b as [y|[]], c as [z|[]]; cbn; try congruence.
  rewrite !Qle_bool_iff. lra.
Qed.

Lemma in_range_le (r1 r2 : Q) :
  (r1 <= r2)%Q ->
  float_le (in_range false r1) (in_range false r2) = true
  /\ float_le (in_range true r2) (in_range true r1) = true.
Proof.
  intros H. unfold in_range.
  destruct (Qle_bool (pow2 1024) r1) eqn:E1;
    destruct (Qle_bool (pow2 1024) r2) eqn:E2; cbn;
    rewrite ?Qle_bool_iff; try (split; (reflexivity || lra)).
  apply Qle_bool_iff in E1.
  assert (Qle_bool (pow2 1024) r2 = true) by (apply Qle_bool_iff; lra).
  congruence.
Qed.

Lemma in_range_sign (r : Q) :
  (0 <= r)%Q ->
  float_le (Finite 0) (in_range false r) = true
  /\ float_le (in_range true r) (Finite 0) = true.
Proof.
  intros H. unfold in_range.
  destruct (Qle_bool (pow2 1024) r); cbn; rewrite ?Qle_bool_iff;
    split; (reflexivity || lra).
Qed.

(** Rounding to the nearest float keeps the order of the exact results,
    also where it overflows. *)
Lemma float_of_le (p q : Q) :
  (p <= q)%Q -> float_le (float_of p) (float_of q) = true.
Proof.
  intros H. unfold float_of.
  destruct (p ?= 0)%Q eqn:Cp; destruct (q ?= 0)%Q eqn:Cq;
    compared Cp; compared Cq; try lra.
  - apply float_le_refl.
  - apply in_range_sign, nearest_nonneg. lra.
  - apply in_range_sign, nearest_nonneg. lra.
  - apply in_range_le, nearest_le; lra.
  - eapply float_le_trans; [apply in_range_sign | apply in_range_sign];
      apply nearest_nonneg; lra.
  - apply in_range_le, nearest_le; lra.
Qed.

End FloatFacts.


(** ** Base64: decoding what was encoded *)

Module Base64Facts.
Import Base64.

Lemma forall_byte (P : byte -> bool) :
  forallb P all_bytes = true -> forall b, P b = true.
Proof.
  intros H b. rewrite forallb_forall in H. apply H.
  unfold all_bytes. apply in_map_iff. exists (Byte.to_nat b). split.
  - unfold byte_of. rewrite <- Byte.to_N_via_nat, Byte.of_to_N. reflexivity.
  - apply in_seq. pose proof (Byte.to_nat_bounded b). lia.
Qed.

Lemma forall_byte2 (P : byte -> byte -> bool) :
  forallb (fun a => forallb (P a) all_bytes) all_bytes = true ->
  forall a b, P a b = true.
Proof.
  intros H a b.
  apply (forall_byte (P a)). apply (forall_byte _ H).
Qed.

Lemma forall_sextet (P : N -> bool) :
  forallb P all_sextets = true -> forall n, (n < 64)%N -> P n = true.
Proof.
  intros H n Hn. rewrite forallb_forall in H. apply H.
  unfold all_sextets. apply in_map_iff. exists (N.to_nat n). split.
  - apply N2Nat.id.
  - apply in_seq. lia.
Qed.

Lemma same_shift_eq x y : same_shift x y = true -> x = y.
Proof.
  destruct x as [[[a|] c] n], y as [[[b|] d] m]; cbn; try discriminate;
    rewrite ?andb_true_iff, ?N.eqb_eq; intros H.
  - destruct H as [[H1 H2] H3]. apply Byte.byte_dec_bl in H1. congruence.
  - destruct H as [H2 H3]. congruence.
Qed.

Lemma reads_back_all n : (n < 64)%N -> reads_back n = true.
Proof. apply forall_sextet. vm_compute. reflexivity. Qed.

(** One character of the table in front of the input. *)
Lemma a2b_base64_char (n quad_pos leftchar leftbits bin_len : N)
    (s : bytes) :
  (n < 64)%N ->
  a2b_base64 quad_pos leftchar leftbits bin_len (b2a n :: s) =
  match shift_in leftchar leftbits n with
  | (Some b, leftchar', leftbits') =>
      emit b (a2b_base64 (N.land (quad_pos + 1) 3) leftchar' leftbits'
                         (bin_len + 1) s)
  | (None, leftchar', leftbits') =>
      a2b_base64 (N.land (quad_pos + 1) 3) leftchar' leftbits' bin_len s
  end.
Proof.
  intros Hn. pose proof (reads_back_all n Hn) as H. unfold reads_back in H.
  rewrite !andb_true_iff, !negb_true_iff in H. destruct H as [[H1 H2] H3].
  cbn [a2b_base64]. rewrite H2, H3.
  destruct (a2b (b2a n)) as [m|]; [|discriminate].
  apply N.eqb_eq in H1. subst m. reflexivity.
Qed.

Lemma sextet1_lt a : (sextet1 a < 64)%N.
Proof.
  apply N.ltb_lt. revert a. apply forall_byte. vm_compute. reflexivity.
Qed.

Lemma sextet2_lt a b : (sextet2 a b < 64)%N.
Proof.
  apply N.ltb_lt. revert a b.
  apply (forall_byte2 (fun a b => (sextet2 a b <? 64)%N)).
  vm_compute. reflexivity.
Qed.

Lemma sextet3_lt b c : (sextet3 b c < 64)%N.
Proof.
  apply N.ltb_lt. revert b c.
  apply (forall_byte2 (fun b c => (sextet3 b c <? 64)%N)).
  vm_compute. reflexivity.
Qed.

Lemma sextet4_lt c : (sextet4 c < 64)%N.
Proof.
  apply N.ltb_lt. revert c. apply forall_byte. vm_compute. reflexivity.
Qed.

Lemma tail1_lt a : (N.shiftl (N.land (Byte.to_N a) 3) 4 < 64)%N.
Proof.
  apply N.ltb_lt. revert a. apply forall_byte. vm_compute. reflexivity.
Qed.

Lemma tail2_lt b : (N.shiftl (N.land (Byte.to_N b) 15) 2 < 64)%N.
Proof.
  apply N.ltb_lt. revert b. apply forall_byte. vm_compute. reflexivity.
Qed.

(** The four characters of a group, shifted in one after the other. *)
Lemma shift_first a : shift_in 0 0 (sextet1 a) = (None, sextet1 a, 6%N).
Proof.
  apply same_shift_eq. revert a. apply forall_byte. vm_compute. reflexivity.
Qed.

Lemma shift_second a b :
  shift_in (sextet1 a) 6 (sextet2 a b)
  = (Some a, N.shiftr (Byte.to_N b) 4, 4%N).
Proof.
  apply same_shift_eq. revert a b.
  apply (forall_byte2
           (fun a b => same_shift (shift_in (sextet1 a) 6 (sextet2 a b))
                                  (Some a, N.shiftr (Byte.to_N b) 4, 4%N))).
  vm_compute. reflexivity.
Qed.

Lemma shift_third b c :
  shift_in (N.shiftr (Byte.to_N b) 4) 4 (sextet3 b c)
  = (Some b, N.shiftr (Byte.to_N c) 6, 2%N).
Proof.
  apply same_shift_eq. revert b c.
  apply (forall_byte2
           (fun b c => same_shift
                         (shift_in (N.shiftr (Byte.to_N b) 4) 4 (sextet3 b c))
                         (Some b, N.shiftr (Byte.to_N c) 6, 2%N))).
  vm_compute. reflexivity.
Qed.

Lemma shift_fourth c :
  shift_in (N.shiftr (Byte.to_N c) 6) 2 (sextet4 c) = (Some c, 0%N, 0%N).
Proof.
  apply same_shift_eq. revert c. apply forall_byte. vm_compute. reflexivity.
Qed.

Lemma shift_tail1 a :
  shift_in (sextet1 a) 6 (N.shiftl (N.land (Byte.to_N a) 3) 4)
  = (Some a, 0%N, 4%N).
Proof.
  apply same_shift_eq. revert a. apply forall_byte. vm_compute. reflexivity.
Qed.

Lemma shift_tail2 b :
  shift_in (N.shiftr (Byte.to_N b) 4) 4 (N.shiftl (N.land (Byte.to_N b) 15) 2)
  = (Some b, 0%N, 2%N).
Proof.
  apply same_shift_eq. revert b. apply forall_byte. vm_compute. reflexivity.
Qed.

Lemma a2b_base64_b64encode_upto (n : nat) (s : bytes) :
  (List.length s <= n)%nat ->
  forall bin_len, a2b_base64 0 0 0 bin_len (b64encode s) = Ok s.
Proof.
  revert s.
  induction n as [|n IH]; intros s Hlen bl.
  - destruct s; [reflexivity | cbn in Hlen; lia].
  - destruct s as [|a [|b [|c rest]]].
    + reflexivity.
    + cbn [b64encode].
      rewrite a2b_base64_char by apply sextet1_lt. rewrite shift_first.
      rewrite a2b_base64_char by apply tail1_lt. rewrite shift_tail1.
      reflexivity.
    + cbn [b64encode].
      rewrite a2b_base64_char by apply sextet1_lt. rewrite shift_first.
      rewrite a2b_base64_char by apply sextet2_lt. rewrite shift_second.
      rewrite a2b_base64_char by apply tail2_lt. rewrite shift_tail2.
      reflexivity.
    + cbn [b64encode].
      rewrite a2b_base64_char by apply sextet1_lt. rewrite shift_first.
      rewrite a2b_base64_char by apply sextet2_lt. rewrite shift_second.
      rewrite a2b_base64_char by apply sextet3_lt. rewrite shift_third.
      rewrite a2b_base64_char by apply sextet4_lt. rewrite shift_fourth.
      change (N.land (N.land (N.land (N.land (0 + 1) 3 + 1) 3 + 1) 3 + 1) 3)
        with 0%N.
      rewrite IH by (cbn in Hlen; lia). reflexivity.
Qed.

(** [b64decode(b64encode(s)) == s] *)
Lemma b64decode_b64encode (s : bytes) : b64decode (b64encode s) = Ok s.
Proof. apply (a2b_base64_b64encode_upto (List.length s)). lia. Qed.


(** *** The text the encoder writes *)

Lemma b2a_b64_char n : (n < 64)%N -> b64_char (b2a n) = true.
Proof.
  revert n. apply (forall_sextet (fun n => b64_char (b2a n))).
  vm_compute. reflexivity.
Qed.

Lemma b64encode_text_upto (n : nat) (s : bytes) :
  (List.length s <= n)%nat ->
  forallb b64_char (b64encode s) = true
  /\ List.length (b64encode s) = (4 * ((List.length s + 2) / 3))%nat.
Proof.
  revert s. induction n as [|n IH]; intros s Hlen.
  - destruct s; [split; reflexivity | cbn in Hlen; lia].
  - destruct s as [|a [|b [|c rest]]]; cbn [b64encode forallb].
    + split; reflexivity.
    + rewrite !b2a_b64_char by auto using sextet1_lt, tail1_lt.
      split; reflexivity.
    + rewrite !b2a_b64_char by auto using sextet1_lt, sextet2_lt, tail2_lt.
      split; reflexivity.
    + rewrite !b2a_b64_char
        by auto using sextet1_lt, sextet2_lt, sextet3_lt, sextet4_lt.
      destruct (IH rest) as [H1 H2]; [cbn in Hlen; lia|].
      split; [exact H1|]. cbn [List.length]. rewrite H2.
      replace (S (S (S (List.length rest))) + 2)%nat
        with (1 * 3 + (List.length rest + 2))%nat by lia.
      rewrite Nat.div_add_l by lia. lia.
Qed.

(** *** Characters the decoder steps over *)

Lemma reads_alike_all c : reads_alike c = true.
Proof. revert c. apply forall_byte. vm_compute. reflexivity. Qed.

Lemma next_valid_is_pad_filter (s : bytes) :
  next_valid_is_pad (filter b64_char s) = next_valid_is_pad s.
Proof.
  induction s as [|c s IH]; [reflexivity|].
  cbn [filter next_valid_is_pad]. set (fs := filter b64_char s) in *.
  unfold b64_char.
  pose proof (reads_alike_all c) as Hc. unfold reads_alike, in_table in *.
  destruct (Byte.eqb c BASE64_PAD) eqn:Ep; cbn [orb].
  - cbn [next_valid_is_pad]. rewrite Ep. reflexivity.
  - destruct (a2b c) as [v|] eqn:Ea; cbn [orb].
    + cbn [next_valid_is_pad]. rewrite Ep, Ea.
      rewrite !andb_true_iff in Hc. destruct Hc as [[_ ->] _]. reflexivity.
    + rewrite IH. destruct (Byte.to_N c <=? 127)%N; reflexivity.
Qed.

(** The decoder reads a text as it reads the text without the characters
    it has no use for. *)
Lemma a2b_base64_filter (s : bytes) :
  forall quad_pos leftchar leftbits bin_len,
    a2b_base64 quad_pos leftchar leftbits bin_len (filter b64_char s)
    = a2b_base64 quad_pos leftchar leftbits bin_len s.
Proof.
  induction s as [|c s IH]; intros q lc lb bl; [reflexivity|].
  cbn [filter a2b_base64]. rewrite <- (next_valid_is_pad_filter s).
  set (fs := filter b64_char s) in *. unfold b64_char.
  pose proof (reads_alike_all c) as Hc. unfold reads_alike, in_table in *.
  destruct (Byte.eqb c BASE64_PAD) eqn:Ep; cbn [orb].
  - assert (Hs : skipped c = false).
    { apply Byte.byte_dec_bl in Ep. subst c. reflexivity. }
    cbn [a2b_base64]. rewrite Hs, Ep, IH. reflexivity.
  - destruct (a2b c) as [v|] eqn:Ea; cbn [orb].
    + rewrite !andb_true_iff, !negb_true_iff in Hc.
      destruct Hc as [[Hs _] _].
      cbn [a2b_base64]. rewrite Hs, Ep, Ea.
      destruct (shift_in lc lb v) as [[[b|] lc'] lb']; rewrite IH;
        reflexivity.
    + rewrite IH. destruct (skipped c); reflexivity.
Qed.

(** *** A text without pad characters *)

Lemma data_chars_cons_table c s :
  in_table c = true -> data_chars (c :: s) = c :: data_chars s.
Proof. intros H. unfold data_chars. cbn [filter]. rewrite H. reflexivity. Qed.

Lemma data_chars_cons_other c s :
  in_table c = false -> data_chars (c :: s) = data_chars s.
Proof. intros H. unfold data_chars. cbn [filter]. rewrite H. reflexivity. Qed.

Lemma shift_in_pending leftchar v :
  (exists c, shift_in leftchar 0 v = (None, c, 6%N))
  /\ (exists b c, shift_in leftchar 6 v = (Some b, c, 4%N))
  /\ (exists b c, shift_in leftchar 4 v = (Some b, c, 2%N))
  /\ (exists b c, shift_in leftchar 2 v = (Some b, c, 0%N)).
Proof. unfold shift_in. repeat split; eexists; try eexists; reflexivity. Qed.

(** Without a pad character the decoder ends in the state its data
    characters leave it in: [p] of them are pending. *)
Lemma a2b_base64_unpadded (s : bytes) :
  forallb (fun c => negb (Byte.eqb c BASE64_PAD)) s = true ->
  forall (p : nat) quad_pos leftchar bin_len,
    (p < 4)%nat ->
    match a2b_base64 quad_pos leftchar (nth p [0; 6; 4; 2]%N 0%N) bin_len s
    with
    | Ok z =>
        ((List.length (data_chars s) + p) mod 4 = 0
         /\ 4 * (List.length z + nth p [0; 0; 1; 2] 0)
            = 3 * (List.length (data_chars s) + p))%nat
    | Raise e =>
        ((List.length (data_chars s) + p) mod 4 <> 0)%nat
        /\ exists msg, e = binascii_Error msg
    end.
Proof.
  induction s as [|c s IH]; intros Hpad p q lc bl Hp.
  - destruct p as [|[|[|[|p]]]]; try lia; cbn; repeat split;
      try discriminate; eauto.
  - cbn [forallb] in Hpad. apply andb_true_iff in Hpad.
    destruct Hpad as [Hc Hpad]. apply negb_true_iff in Hc.
    specialize (IH Hpad).
    pose proof (reads_alike_all c) as Hr. unfold reads_alike in Hr.
    cbn [a2b_base64]. rewrite Hc.
    destruct (in_table c) eqn:Et.
    + rewrite !andb_true_iff, !negb_true_iff in Hr.
      destruct Hr as [[Hs _] _]. rewrite Hs.
      rewrite data_chars_cons_table by exact Et.
      unfold in_table in Et. destruct (a2b c) as [v|]; [|discriminate].
      destruct (shift_in_pending lc v)
        as ((c0 & E0) & (b1 & c1 & E1) & (b2 & c2 & E2) & (b3 & c3 & E3)).
      destruct p as [|[|[|[|p]]]]; try lia; cbn [nth];
        [ rewrite E0; specialize (IH 1%nat (N.land (q + 1) 3) c0 bl)
        | rewrite E1; specialize (IH 2%nat (N.land (q + 1) 3) c1 (bl + 1)%N)
        | rewrite E2; specialize (IH 3%nat (N.land (q + 1) 3) c2 (bl + 1)%N)
        | rewrite E3; specialize (IH 0%nat (N.land (q + 1) 3) c3 (bl + 1)%N) ];
        cbn [nth] in IH;
        match goal with
        | |- context [a2b_base64 ?a ?b ?c ?d s] =>
            destruct (a2b_base64 a b c d s) as [z|e]
        end; cbn [emit List.length];
        (destruct IH as [H1 H2]; [lia|]); (split; [|first [lia | exact H2]]).
      all: try (replace (S (List.length (data_chars s)) + 3)%nat
                  with (List.length (data_chars s) + 0 + 1 * 4)%nat by lia;
                rewrite Nat.Div0.mod_add; exact H1).
      all: match goal with
           | |- context [(S ?n + ?k)%nat] =>
               replace (S n + k)%nat with (n + S k)%nat by lia; exact H1
           end.
    + rewrite data_chars_cons_other by exact Et.
      unfold in_table in Et. destruct (a2b c); [discriminate|].
      specialize (IH p q lc bl Hp).
      destruct (skipped c); exact IH.
Qed.

(** [b64decode] of a text without pad characters. *)
Lemma b64decode_unpadded (s : bytes) :
  ~ In BASE64_PAD s ->
  match b64decode s with
  | Ok z =>
      (List.length (data_chars s) mod 4 = 0
       /\ 4 * List.length z = 3 * List.length (data_chars s))%nat
  | Raise e =>
      (List.length (data_chars s) mod 4 <> 0)%nat
      /\ exists msg, e = binascii_Error msg
  end.
Proof.
  intros Hpad.
  assert (H : forallb (fun c => negb (Byte.eqb c BASE64_PAD)) s = true).
  { apply forallb_forall. intros c Hc. apply negb_true_iff.
    destruct (Byte.eqb c BASE64_PAD) eqn:E; [|reflexivity].
    apply Byte.byte_dec_bl in E. subst c. contradiction. }
  pose proof (a2b_base64_unpadded s H 0%nat 0%N 0%N 0%N ltac:(lia)) as R.
  cbn [nth] in R. unfold b64decode.
  destruct (a2b_base64 0 0 0 0 s) as [z|e]; rewrite ?Nat.add_0_r in R;
    exact R.
Qed.

(** *** What the decoder raises, and what it does not read *)

Lemma a2b_base64_raises (s : bytes) :
  forall quad_pos leftchar leftbits bin_len e,
    a2b_base64 quad_pos leftchar leftbits bin_len s = Raise e ->
    exists msg, e = binascii_Error msg.
Proof.
  induction s as [|c s IH]; intros q lc lb bl e; cbn [a2b_base64].
  - destruct (lb =? 0)%N; [discriminate|].
    destruct (lb =? 6)%N; intros H; injection H as <-; eauto.
  - destruct (skipped c); [apply IH|].
    destruct (Byte.eqb c BASE64_PAD).
    + destruct (_ || _)%bool; [apply IH | discriminate].
    + destruct (a2b c) as [v|]; [|apply IH].
      destruct (shift_in lc lb v) as [[[b|] lc'] lb']; [|apply IH].
      destruct (a2b_base64 _ lc' lb' _ s) as [z|e'] eqn:E; [discriminate|].
      cbn [emit]. intros H. injection H as <-. eapply IH, E.
Qed.

(** After the pad that completes the last group the decoder reads no
    further. *)
Lemma a2b_base64_padded_upto (n : nat) (s t : bytes) :
  (List.length s <= n)%nat ->
  (List.length s mod 3 <> 0)%nat ->
  forall bin_len, a2b_base64 0 0 0 bin_len (b64encode s ++ t) = Ok s.
Proof.
  revert s.
  induction n as [|n IH]; intros s Hlen Hmod bl.
  - destruct s; [contradiction Hmod; reflexivity | cbn in Hlen; lia].
  - destruct s as [|a [|b [|c rest]]].
    + contradiction Hmod; reflexivity.
    + cbn [b64encode app].
      rewrite a2b_base64_char by apply sextet1_lt. rewrite shift_first.
      rewrite a2b_base64_char by apply tail1_lt. rewrite shift_tail1.
      reflexivity.
    + cbn [b64encode app].
      rewrite a2b_base64_char by apply sextet1_lt. rewrite shift_first.
      rewrite a2b_base64_char by apply sextet2_lt. rewrite shift_second.
      rewrite a2b_base64_char by apply tail2_lt. rewrite shift_tail2.
      reflexivity.
    + cbn [b64encode app].
      rewrite a2b_base64_char by apply sextet1_lt. rewrite shift_first.
      rewrite a2b_base64_char by apply sextet2_lt. rewrite shift_second.
      rewrite a2b_base64_char by apply sextet3_lt. rewrite shift_third.
      rewrite a2b_base64_char by apply sextet4_lt. rewrite shift_fourth.
      change (N.land (N.land (N.land (N.land (0 + 1) 3 + 1) 3 + 1) 3 + 1) 3)
        with 0%N.
      rewrite IH; [reflexivity | cbn in Hlen; lia |].
      cbn [List.length] in Hmod.
      replace (S (S (S (List.length rest))))
        with (List.length rest + 1 * 3)%nat in Hmod by lia.
      rewrite Nat.Div0.mod_add in Hmod. exact Hmod.
Qed.

Lemma b64decode_padded (s t : bytes) :
  (List.length s mod 3 <> 0)%nat -> b64decode (b64encode s ++ t) = Ok s.
Proof.
  intros H. apply (a2b_base64_padded_upto (List.length s)); [lia | exact H].
Qed.

End Base64Facts.


Section Facts.
Context {T : Types} {C : Collaborators}.

(** ** The profiler's calls touch nothing but the clock's counter and the
    heap *)

Lemma profiler_world_clock p ev (w : World) :
  w_clock (profiler_world p ev w) = w_clock w.
Proof. unfold profiler_world. destruct (nth_error _ _) as [[|j]|]; reflexivity. Qed.

Lemma profiler_world_store p ev (w : World) :
  w_store (profiler_world p ev w) = w_store w.
Proof. unfold profiler_world. destruct (nth_error _ _) as [[|j]|]; reflexivity. Qed.

Lemma profiler_world_log p ev (w : World) :
  w_log (profiler_world p ev w) = w_log w.
Proof. unfold profiler_world. destruct (nth_error _ _) as [[|j]|]; reflexivity. Qed.

Lemma profiler_world_saved p ev (w : World) :
  w_saved (profiler_world p ev w) = w_saved w.
Proof. unfold profiler_world. destruct (nth_error _ _) as [[|j]|]; reflexivity. Qed.

Lemma profiler_world_ticks p ev (w : World) :
  w_ticks (profiler_world p ev w) = (w_ticks w + clock_reads w p)%nat.
Proof.
  unfold profiler_world, clock_reads.
  destruct (nth_error _ _) as [[|j]|]; cbn; lia.
Qed.

Lemma nth_error_store_at {A} (l : list A) i (a x : A) :
  nth_error l i = Some x -> nth_error (store_at i a l) i = Some a.
Proof.
  revert i. induction l as [|y l IH]; intros [|i] H; cbn in *;
    try discriminate; auto.
Qed.

Lemma profiler_world_reads p ev (w : World) :
  clock_reads (profiler_world p ev w) p = clock_reads w p.
Proof.
  unfold profiler_world, clock_reads.
  destruct (nth_error (w_heap w) p) as [[|j]|] eqn:E; cbn; rewrite ?E; auto.
  erewrite nth_error_store_at by eassumption. reflexivity.
Qed.

Create Rewrite HintDb world.
#[local] Hint Rewrite profiler_world_clock profiler_world_store
  profiler_world_log profiler_world_saved profiler_world_ticks
  profiler_world_reads : world.

Lemma truthy_change_reason (ct rest : string) :
  truthy (Some (ct ++ String " " rest)%string) = true.
Proof. destruct ct; reflexivity. Qed.

(** ** One call of [add_log_message], step by step *)

Ltac run_m :=
  unfold bind, ret, raise, lift, gets, modify, in_world, time_time,
    logger_info, handler_save, handler_load, profiler_call, start_section,
    end_section, report;
  cbn.

#[local] Arguments snapshot_if_due : simpl never.
#[local] Arguments profiler_world : simpl never.
#[local] Arguments truthy : simpl never.
#[local] Arguments saving_message : simpl never.
#[local] Arguments snapshot_blob : simpl never.

Lemma add_log_message_run (st : State) (msg : string) :
  let tm := self st in
  let p := tm_profiler tm in
  let '(cluster, change_type, d') := engine_step tm msg in
  let st1 := mkState (set_drain tm d') (answered p (world st)) in
  let finish st2 :=
    (Ok (result_record cluster change_type d'),
     mkState (self st2)
             (closed p (profiling_report_sec (config (self st2)))
                     (world st2))) in
  add_log_message msg st =
  match persistence_handler tm with
  | None => finish st1
  | Some _ =>
      match snapshot_if_due p change_type cluster st1 with
      | (Ok _, st2) => finish st2
      | (Raise e, st2) => (Raise e, st2)
      end
  end.
Proof.
  unfold engine_step, add_log_message, answered, closed. cbn.
  destruct (Drain_add_log_message _ _) as [[cluster ct] d']. cbn.
  destruct (persistence_handler (self st)) as [h|]; cbn.
  - unfold bind at 1.
    destruct (snapshot_if_due _ _ _ _) as [[[]|e] st2]; reflexivity.
  - reflexivity.
Qed.

Lemma snapshot_if_due_run (p : ProfRef) (ct : string) (c : LogCluster)
    (st : State) :
  let tm := self st in
  let w0 := profiler_world p (SectionStarted "save_state") (world st) in
  let now := w_clock w0 (w_ticks w0) in
  let w1 := if negb (ct =? "none")%string then w0
            else mkWorld (w_clock w0) (S (w_ticks w0)) (w_heap w0)
                         (w_store w0) (w_log w0) (w_saved w0) in
  snapshot_if_due p ct c st =
  match reason_at tm ct c now with
  | None => (Ok tt, mkState tm (profiler_world p (SectionEnded "") w1))
  | Some reason =>
      let blob := snapshot_blob tm (w_heap w1) in
      let line := saving_message (drain tm) blob reason in
      match persistence_handler tm with
      | None =>
          (Raise (no_handler "save_state"),
           mkState tm (mkWorld (w_clock w1) (w_ticks w1) (w_heap w1)
                               (w_store w1) (line :: w_log w1) (w_saved w1)))
      | Some h =>
          match ph_save_state h blob (w_store w1) with
          | (Ok _, s) =>
              (Ok tt,
               mkState (set_last_save_time tm (w_clock w1 (w_ticks w1)))
                 (profiler_world p (SectionEnded "")
                    (mkWorld (w_clock w1) (S (w_ticks w1)) (w_heap w1) s
                             (line :: w_log w1) (blob :: w_saved w1))))
          | (Raise e, s) =>
              (Raise e,
               mkState tm (mkWorld (w_clock w1) (w_ticks w1) (w_heap w1) s
                                   (line :: w_log w1) (blob :: w_saved w1)))
          end
      end
  end.
Proof.
  destruct st as [[cfg pr ph d mk lst] w].
  unfold snapshot_if_due, get_snapshot_reason, reason_at, save_state.
  run_m.
  destruct (negb (ct =? "none")%string) eqn:Ect; run_m.
  - rewrite truthy_change_reason.
    destruct ph as [h|]; run_m; [|reflexivity].
    destruct (ph_save_state h _ _) as [[[]|e] s]; reflexivity.
  - destruct (float_ge _ _); unfold truthy; run_m; [|reflexivity].
    destruct ph as [h|]; run_m; [|reflexivity].
    destruct (ph_save_state h _ _) as [[[]|e] s]; reflexivity.
Qed.

(** ** [load_state], step by step *)

Lemma load_state_run (st : State) :
  let tm := self st in
  let w0 := set_log (world st) ("Checking for saved state" :: w_log (world st)) in
  load_state st =
  match persistence_handler tm with
  | None => (Raise (no_handler "load_state"), mkState tm w0)
  | Some h =>
      let ws := set_store w0 (snd (ph_load_state h (w_store (world st)))) in
      match fst (ph_load_state h (w_store (world st))) with
      | Raise e => (Raise e, mkState tm ws)
      | Ok None =>
          (Ok tt, mkState tm (set_log ws ("Saved state not found" :: w_log ws)))
      | Ok (Some blob) =>
          match decode_state (snapshot_compress_state (config tm)) blob with
          | Raise e => (Raise e, mkState tm ws)
          | Ok state =>
              match restore_drain (tm_profiler tm) state with
              | Raise e => (Raise e, mkState tm ws)
              | Ok d =>
                  (Ok tt,
                   mkState (set_drain tm d)
                     (set_log ws
                        (("Restored " ++ str_int (len (Drain_clusters d))
                          ++ " clusters with "
                          ++ str_int (Drain_get_total_cluster_size d)
                          ++ " messages")%string :: w_log ws)))
              end
          end
      end
  end.
Proof.
  destruct st as [[cfg p ph d mk lst] w].
  unfold load_state. run_m.
  destruct ph as [h|]; run_m; [|reflexivity].
  destruct (ph_load_state h (w_store w)) as [[[blob|]|e] s]; run_m;
    reflexivity.
Qed.

Lemma init_run (handler : option PersistenceHandler)
    (cfg : option TemplateMinerConfig) (w : World) :
  init handler cfg w =
  match handler with
  | None => (Ok (self (built handler cfg w)), world (built handler cfg w))
  | Some _ =>
      match load_state (built handler cfg w) with
      | (Ok _, st) => (Ok (self st), world st)
      | (Raise e, st) => (Raise e, world st)
      end
  end.
Proof.
  unfold init, built. run_m. unfold new_profiler. cbn.
  destruct (profiling_enabled _); cbn; rewrite ?length_app; cbn;
    rewrite ?Nat.add_1_r; destruct handler; reflexivity.
Qed.

Lemma answered_facts p (w : World) :
  w_clock (answered p w) = w_clock w
  /\ w_store (answered p w) = w_store w
  /\ w_log (answered p w) = w_log w
  /\ w_saved (answered p w) = w_saved w
  /\ w_ticks (answered p w) = (w_ticks w + 5 * clock_reads w p)%nat
  /\ clock_reads (answered p w) p = clock_reads w p.
Proof.
  unfold answered. autorewrite with world. repeat split; try reflexivity. lia.
Qed.

Lemma closed_facts p n (w : World) :
  w_clock (closed p n w) = w_clock w
  /\ w_store (closed p n w) = w_store w
  /\ w_log (closed p n w) = w_log w
  /\ w_saved (closed p n w) = w_saved w
  /\ w_ticks (closed p n w) = (w_ticks w + 2 * clock_reads w p)%nat.
Proof.
  unfold closed. autorewrite with world. repeat split; try reflexivity. lia.
Qed.

(** ** What one call does to the store, the log and the time of the last
    save *)

Lemma add_log_message_without_store (st : State) (msg : string)
    (cluster : LogCluster) (ct : string) (d' : Drain) :
  persistence_handler (self st) = None ->
  engine_step (self st) msg = (cluster, ct, d') ->
  let r := add_log_message msg st in
  fst r = Ok (result_record cluster ct d')
  /\ drain (self (snd r)) = d'
  /\ w_saved (world (snd r)) = w_saved (world st)
  /\ w_log (world (snd r)) = w_log (world st)
  /\ w_store (world (snd r)) = w_store (world st)
  /\ last_save_time (self (snd r)) = last_save_time (self st).
Proof.
  intros Eh Hstep.
  pose proof (add_log_message_run st msg) as R. cbv zeta in R.
  rewrite Hstep, Eh in R. cbv zeta. rewrite R. clear R. cbn.
  destruct (closed_facts (tm_profiler (self st))
              (profiling_report_sec (config (self st)))
              (answered (tm_profiler (self st)) (world st)))
    as (_ & -> & -> & -> & _).
  destruct (answered_facts (tm_profiler (self st)) (world st))
    as (_ & -> & -> & -> & _).
  repeat split; reflexivity.
Qed.

Lemma add_log_message_with_store (st : State) (msg : string)
    (h : PersistenceHandler) (cluster : LogCluster) (ct : string)
    (d' : Drain) :
  persistence_handler (self st) = Some h ->
  engine_step (self st) msg = (cluster, ct, d') ->
  let w := world st in
  let asked := (w_ticks w + 6 * clock_reads w (tm_profiler (self st)))%nat in
  let r := add_log_message msg st in
  drain (self (snd r)) = d'
  /\ match reason_at (self st) ct cluster (w_clock w asked) with
     | None =>
         fst r = Ok (result_record cluster ct d')
         /\ w_saved (world (snd r)) = w_saved w
         /\ w_log (world (snd r)) = w_log w
         /\ w_store (world (snd r)) = w_store w
         /\ last_save_time (self (snd r)) = last_save_time (self st)
     | Some reason =>
         exists blob,
           w_saved (world (snd r)) = blob :: w_saved w
           /\ w_log (world (snd r)) = saving_message d' blob reason :: w_log w
           /\ w_store (world (snd r)) = snd (ph_save_state h blob (w_store w))
           /\ match fst (ph_save_state h blob (w_store w)) with
              | Ok _ =>
                  fst r = Ok (result_record cluster ct d')
                  /\ exists n, (asked <= n < w_ticks (world (snd r)))%nat
                       /\ last_save_time (self (snd r)) = w_clock w n
              | Raise e =>
                  fst r = Raise e
                  /\ last_save_time (self (snd r)) = last_save_time (self st)
              end
     end.
Proof.
  destruct st as [[cfg p ph d mk lst] w].
  cbn [self world persistence_handler tm_profiler last_save_time].
  intros -> Hstep.
  set (asked := (w_ticks w + 6 * clock_reads w p)%nat).
  pose proof (add_log_message_run
                (mkState (mkMiner cfg p (Some h) d mk lst) w) msg) as R.
  cbv zeta in R. cbn [self world persistence_handler tm_profiler] in R.
  rewrite Hstep in R. rewrite R. clear R.
  rewrite snapshot_if_due_run. cbv zeta.
  cbn [self world persistence_handler tm_profiler set_drain].
  destruct (answered_facts p w) as (Ac & As & Al & Asv & At & Ar).
  assert (Hnow :
    w_clock (profiler_world p (SectionStarted "save_state") (answered p w))
            (w_ticks (profiler_world p (SectionStarted "save_state")
                                     (answered p w)))
    = w_clock w asked).
  { autorewrite with world. rewrite Ac, At, Ar. unfold asked. f_equal. lia. }
  rewrite Hnow. clear Hnow.
  change (reason_at (mkMiner cfg p (Some h) d' mk lst) ct cluster
                    (w_clock w asked))
    with (reason_at (mkMiner cfg p (Some h) d mk lst) ct cluster
                    (w_clock w asked)).
  match goal with
  | |- context [snapshot_blob _ (w_heap ?x)] => set (w1 := x)
  end.
  assert (W1 : w_clock w1 = w_clock w /\ w_store w1 = w_store w
               /\ w_log w1 = w_log w /\ w_saved w1 = w_saved w
               /\ (asked <= w_ticks w1)%nat).
  { unfold w1. destruct (negb (ct =? "none")%string); cbn;
      autorewrite with world; rewrite ?Ac, ?As, ?Al, ?Asv, ?At, ?Ar;
      repeat apply conj; try reflexivity; unfold asked; lia. }
  destruct W1 as (Wc & Ws & Wl & Wsv & Wt). clearbody w1.
  destruct (reason_at _ ct cluster (w_clock w asked)) as [reason|].
  2:{ cbn.
      match goal with
      | |- context [closed ?a ?b ?c] =>
          destruct (closed_facts a b c) as (_ & -> & -> & -> & _)
      end; autorewrite with world.
      rewrite Ws, Wl, Wsv. repeat apply conj; reflexivity. }
  match goal with
  | |- context [ph_save_state h ?b _] => set (blob := b)
  end.
  rewrite Ws.
  destruct (ph_save_state h blob (w_store w)) as [[[]|e] s'] eqn:Es; cbn;
    (split; [reflexivity|]); exists blob; rewrite Es; cbn.
  - match goal with
    | |- context [closed ?a ?b ?c] =>
        destruct (closed_facts a b c) as (_ & -> & -> & -> & Ct)
    end. autorewrite with world. cbn. rewrite Ct. autorewrite with world. cbn.
    rewrite Wl, Wsv, Wc.
    repeat apply conj; try reflexivity.
    exists (w_ticks w1). split; [lia | reflexivity].
  - rewrite Wl, Wsv. repeat apply conj; reflexivity.
Qed.


(** ** What one call returns and what it keeps *)

Lemma add_log_message_outcome (st : State) (msg : string)
    (cluster : LogCluster) (ct : string) (d' : Drain) :
  engine_step (self st) msg = (cluster, ct, d') ->
  let r := add_log_message msg st in
  self (snd r)
  = set_last_save_time (set_drain (self st) d') (last_save_time (self (snd r)))
  /\ (fst r = Ok (result_record cluster ct d')
      \/ exists h blob e,
           persistence_handler (self st) = Some h
           /\ fst (ph_save_state h blob (w_store (world st))) = Raise e
           /\ fst r = Raise e).
Proof.
  intros Hstep.
  pose proof (add_log_message_run st msg) as R. cbv zeta in R.
  rewrite Hstep in R. cbv zeta. rewrite R. clear R.
  destruct (persistence_handler (self st)) as [h|] eqn:Eh.
  2:{ cbn. split; [reflexivity | left; reflexivity]. }
  rewrite snapshot_if_due_run. cbv zeta. cbn [self world].
  destruct (reason_at _ _ _ _) as [reason|].
  2:{ cbn. split; [reflexivity | left; reflexivity]. }
  cbn [persistence_handler set_drain]. rewrite Eh.
  match goal with
  | |- context [ph_save_state h ?b ?s] =>
      destruct (ph_save_state h b s) as [[[]|e] s'] eqn:Es
  end.
  - cbn. split; [reflexivity | left; reflexivity].
  - cbn. split; [reflexivity|]. right. eexists h, _, e.
    split; [reflexivity|]. split; [|reflexivity].
    destruct (negb (ct =? "none")%string); cbn in Es;
      autorewrite with world in Es;
      rewrite (proj1 (proj2 (answered_facts _ _))) in Es;
      rewrite Es; reflexivity.
Qed.

(** ** C8 *)

(** C8.  [add_log_message] returns the record with exactly the five fields
    [change_type], [cluster_id], [cluster_size], [template_mined] and
    [cluster_count], taken from the cluster the engine answered with and
    from the engine as this message left it; the only other way out of the
    call is the exception of the store's [save_state]. *)
Theorem add_log_message_returns_result_record (st : State) (msg : string)
    (cluster : LogCluster) (change_type : string) (d' : Drain) :
  engine_step (self st) msg = (cluster, change_type, d') ->
  drain (self (snd (add_log_message msg st))) = d'
  /\ (fst (add_log_message msg st)
      = Ok [("change_type", VStr change_type);
            ("cluster_id", VInt (cluster_id cluster));
            ("cluster_size", VInt (size cluster));
            ("template_mined", VStr (get_template cluster));
            ("cluster_count", VInt (len (Drain_clusters d')))]
      \/ exists h blob e,
           persistence_handler (self st) = Some h
           /\ fst (ph_save_state h blob (w_store (world st))) = Raise e
           /\ fst (add_log_message msg st) = Raise e).
Proof.
  intros Hstep.
  destruct (add_log_message_outcome st msg cluster change_type d' Hstep)
    as [Hself Hout].
  split; [rewrite Hself; reflexivity | exact Hout].
Qed.

(** ** C1 *)

(** C1.  When the engine answers a message with a change type other than
    ["none"], the policy's reason is ["<change_type> (<cluster_id>)"] in
    every state, whatever the clock and the time of the last save, and the
    call of a controller with a persistence handler, the only one to ask
    the policy, hands exactly one blob to the store and logs that
    reason. *)
Theorem structural_change_snapshots_at_once (st : State) (msg : string)
    (h : PersistenceHandler) (cluster : LogCluster) (change_type : string)
    (d' : Drain) :
  persistence_handler (self st) = Some h ->
  engine_step (self st) msg = (cluster, change_type, d') ->
  change_type <> "none" ->
  let reason :=
    (change_type ++ " (" ++ str_int (cluster_id cluster) ++ ")")%string in
  (forall st0 : State,
      get_snapshot_reason change_type (cluster_id cluster) st0
      = (Ok (Some reason), st0))
  /\ exists blob,
       w_saved (world (snd (add_log_message msg st)))
       = blob :: w_saved (world st)
       /\ w_log (world (snd (add_log_message msg st)))
          = saving_message d' blob reason :: w_log (world st).
Proof.
  intros Eh Hstep Hct reason.
  apply String.eqb_neq in Hct.
  split.
  - intros st0. unfold get_snapshot_reason. rewrite Hct. reflexivity.
  - destruct (add_log_message_with_store st msg h cluster change_type d' Eh Hstep)
      as [_ H].
    unfold reason_at in H. rewrite Hct in H. cbn [negb] in H.
    destruct H as (blob & Hs & Hl & _). exists blob. split; assumption.
Qed.

(** ** C2 *)

Lemma add_log_message_asks_the_clock (st : State) (msg : string)
    (h : PersistenceHandler) (cluster : LogCluster) (d' : Drain) :
  persistence_handler (self st) = Some h ->
  engine_step (self st) msg = (cluster, "none", d') ->
  (w_ticks (world st) + 6 * clock_reads (world st) (tm_profiler (self st))
   < w_ticks (world (snd (add_log_message msg st))))%nat.
Proof.
  destruct st as [[cfg p ph d mk lst] w].
  cbn [self world persistence_handler tm_profiler].
  intros -> Hstep.
  pose proof (add_log_message_run
                (mkState (mkMiner cfg p (Some h) d mk lst) w) msg) as R.
  cbv zeta in R. cbn [self world persistence_handler tm_profiler] in R.
  rewrite Hstep in R. rewrite R. clear R.
  rewrite snapshot_if_due_run. cbv zeta.
  cbn [self world persistence_handler tm_profiler set_drain
       String.eqb Ascii.eqb Bool.eqb negb].
  destruct (answered_facts p w) as (_ & _ & _ & _ & At & Ar).
  match goal with
  | |- context [snapshot_blob _ (w_heap ?x)] => set (w1 := x)
  end.
  assert (Wt : (w_ticks w + 6 * clock_reads w p < w_ticks w1)%nat).
  { unfold w1. cbn [w_ticks]. autorewrite with world. rewrite At, Ar. lia. }
  clearbody w1.
  destruct (reason_at _ _ cluster _) as [reason|].
  2:{ cbn [fst snd world self config].
      match goal with
      | |- context [closed ?a ?b ?c] =>
          destruct (closed_facts a b c) as (_ & _ & _ & _ & ->)
      end. autorewrite with world. lia. }
  destruct (ph_save_state h _ _) as [[[]|e] s']; cbn [fst snd world self config].
  - match goal with
    | |- context [closed ?a ?b ?c] =>
        destruct (closed_facts a b c) as (_ & _ & _ & _ & ->)
    end. autorewrite with world. cbn. lia.
  - cbn. lia.
Qed.

(** C2, as amended.  When a persistence handler is configured and the
    engine answers ["none"], the policy reads the clock once, during the
    call and after the engine has answered: it is the first reading of
    the call when the profiler is the no-op one.  The call hands a blob
    to the store exactly when that reading minus the time of the last
    save, as the float subtraction gives it, is at least the float
    [snapshot_interval_minutes * 60]; the reason logged is then
    ["periodic"], and otherwise nothing is handed over or logged. *)
Theorem periodic_snapshot_when_due (st : State) (msg : string)
    (h : PersistenceHandler) (cluster : LogCluster) (d' : Drain) :
  persistence_handler (self st) = Some h ->
  engine_step (self st) msg = (cluster, "none", d') ->
  let w := world st in
  let st' := snd (add_log_message msg st) in
  exists asked : nat,
    (w_ticks w <= asked < w_ticks (world st'))%nat
    /\ (clock_reads w (tm_profiler (self st)) = 0%nat -> asked = w_ticks w)
    /\ let now := w_clock w asked in
       let diff_time_sec := float_sub now (last_save_time (self st)) in
       let due :=
         float_ge diff_time_sec
                  (float_mul (snapshot_interval_minutes (config (self st))) 60)
         = true in
       (due ->
        exists blob,
          w_saved (world st') = blob :: w_saved w
          /\ w_log (world st') = saving_message d' blob "periodic" :: w_log w)
       /\ (~ due ->
           w_saved (world st') = w_saved w /\ w_log (world st') = w_log w).
Proof.
  intros Eh Hstep. cbv zeta.
  exists (w_ticks (world st)
          + 6 * clock_reads (world st) (tm_profiler (self st)))%nat.
  pose proof (add_log_message_asks_the_clock st msg h cluster d' Eh Hstep)
    as Hlt.
  split; [lia|]. split; [intros ->; lia|].
  destruct (add_log_message_with_store st msg h cluster "none" d' Eh Hstep)
    as [_ H].
  cbv zeta in H. unfold reason_at in H.
  cbn [String.eqb Ascii.eqb Bool.eqb negb] in H.
  destruct (float_ge _ _).
  - split; [|intros N; contradiction N; reflexivity].
    intros _. destruct H as (blob & Hs & Hl & _). exists blob. split; assumption.
  - split; [discriminate|].
    intros _. destruct H as (_ & Hs & Hl & _). split; assumption.
Qed.

(** ** C4 *)

(** C4.  With compression configured, what [load_state] does to the stored
    blob undoes what [save_state] did to the serialised state: for every
    byte sequence that zlib gives back from its own compression, decoding
    the encoded blob yields the sequence again. *)
Theorem decode_state_encode_state (s : bytes) :
  zlib_decompress (zlib_compress s) = Ok s ->
  decode_state true (encode_state true s) = Ok s.
Proof.
  intros Hz. unfold decode_state, encode_state.
  rewrite Base64Facts.b64decode_b64encode. exact Hz.
Qed.

(** ** C6 *)

(** C6.  When the store returns a blob and base64-decoding it,
    decompressing it or deserialising it raises, [load_state] raises the
    same exception and leaves the controller as it was, and [__init__]
    raises it too: no controller comes out of the construction. *)
Theorem corrupt_snapshot_is_fatal (h : PersistenceHandler)
    (cfg : TemplateMinerConfig) (w : World) (blob : bytes) (e : exn) :
  fst (ph_load_state h (w_store w)) = Ok (Some blob) ->
  (snapshot_compress_state cfg = true /\ Base64.b64decode blob = Raise e)
  \/ (snapshot_compress_state cfg = true
      /\ exists z, Base64.b64decode blob = Ok z /\ zlib_decompress z = Raise e)
  \/ (exists state,
        decode_state (snapshot_compress_state cfg) blob = Ok state
        /\ jsonpickle_loads state = Raise e) ->
  let st := built (Some h) (Some cfg) w in
  fst (load_state st) = Raise e
  /\ self (snd (load_state st)) = self st
  /\ fst (init (Some h) (Some cfg) w) = Raise e.
Proof.
  intros Hload Hbad st.
  assert (L : fst (load_state st) = Raise e
              /\ self (snd (load_state st)) = self st).
  { rewrite load_state_run. cbv zeta.
    unfold st, built. cbn [self world persistence_handler config w_store].
    rewrite Hload.
    destruct Hbad as [[Hc Hb] | [[Hc (z & Hb & Hz)] | (state & Hd & Hj)]].
    - unfold decode_state. rewrite Hc, Hb. split; reflexivity.
    - unfold decode_state. rewrite Hc, Hb, Hz. split; reflexivity.
    - rewrite Hd. unfold restore_drain. rewrite Hj. split; reflexivity. }
  destruct L as [L1 L2]. repeat apply conj; try assumption.
  rewrite init_run. fold st.
  destruct (load_state st) as [[[]|e'] st']; cbn in L1; [discriminate|].
  cbn. injection L1 as ->. reflexivity.
Qed.

(** ** C7 *)

(** C7.  [load_state], [save_state] and [get_snapshot_reason] never write
    [last_save_time].  A call of [add_log_message] that raises leaves it as
    it was, and the exception is the one the handler's [save_state] raised
    on the blob of the snapshot; a call that returns either attempted no
    snapshot and leaves it as it was, or made a save that succeeded and
    sets it to a reading of the clock taken during the call. *)
Theorem last_save_time_follows_successful_saves (st : State) (msg : string)
    (reason change_type : string) (id : Z) :
  last_save_time (self (snd (load_state st))) = last_save_time (self st)
  /\ last_save_time (self (snd (save_state reason st)))
     = last_save_time (self st)
  /\ last_save_time (self (snd (get_snapshot_reason change_type id st)))
     = last_save_time (self st)
  /\ let r := add_log_message msg st in
     let saved_by h blob :=
       w_saved (world (snd r)) = blob :: w_saved (world st)
       /\ persistence_handler (self st) = Some h in
     match fst r with
     | Raise e =>
         last_save_time (self (snd r)) = last_save_time (self st)
         /\ exists h blob,
              saved_by h blob
              /\ fst (ph_save_state h blob (w_store (world st))) = Raise e
     | Ok _ =>
         (w_saved (world (snd r)) = w_saved (world st)
          /\ last_save_time (self (snd r)) = last_save_time (self st))
         \/ exists h blob n,
              saved_by h blob
              /\ fst (ph_save_state h blob (w_store (world st))) = Ok tt
              /\ (w_ticks (world st) <= n < w_ticks (world (snd r)))%nat
              /\ last_save_time (self (snd r)) = w_clock (world st) n
     end.
Proof.
  repeat apply conj.
  - rewrite load_state_run. cbv zeta.
    destruct (persistence_handler (self st)) as [h|]; [|reflexivity].
    destruct (fst (ph_load_state h _)) as [[blob|]|e]; try reflexivity.
    destruct (decode_state _ blob) as [state|e]; [|reflexivity].
    destruct (restore_drain _ state) as [d|e]; reflexivity.
  - destruct st as [[cfg p ph d mk lst] w]. unfold save_state. run_m.
    destruct ph as [h|]; run_m; [|reflexivity].
    destruct (ph_save_state h _ _) as [[[]|e] s]; reflexivity.
  - destruct st as [[cfg p ph d mk lst] w]. unfold get_snapshot_reason.
    destruct (negb _); run_m; [reflexivity|].
    destruct (float_ge _ _); reflexivity.
  - cbv zeta.
    destruct (engine_step (self st) msg) as [[cluster ct] d'] eqn:Hstep.
    destruct (persistence_handler (self st)) as [h|] eqn:Eh.
    + destruct (add_log_message_with_store st msg h cluster ct d' Eh Hstep)
        as [_ H]. cbv zeta in H.
      destruct (reason_at _ _ _ _) as [rsn|].
      * destruct H as (blob & Hs & _ & _ & H).
        destruct (fst (ph_save_state h blob (w_store (world st))))
          as [[]|e] eqn:Es.
        -- destruct H as (-> & n & Hn & Ht). right. exists h, blob, n.
           repeat apply conj; try assumption; try reflexivity; lia.
        -- destruct H as (-> & Ht). split; [assumption|].
           exists h, blob. repeat apply conj; try assumption; reflexivity.
      * destruct H as (-> & Hs & _ & _ & Ht). left. split; assumption.
    + destruct (add_log_message_without_store st msg cluster ct d' Eh Hstep)
        as (-> & _ & Hs & _ & _ & Ht).
      left. split; assumption.
Qed.

(** ** C3: the part of the key normalisation that holds *)

(** After a successful restore every key of the root's children is an
    [int]: lines 70-74 loop over a copy of the keys. *)
Lemma restored_root_keys_are_int (p : ProfRef) (state : bytes) (d : Drain) :
  restore_drain p state = Ok d ->
  forallb is_int_key (keys (key_to_child_node (root_node d))) = true.
Proof.
  unfold restore_drain.
  destruct (jsonpickle_loads state) as [d0|e]; [|discriminate].
  unfold cast_root_keys.
  destruct (rekey_list _ _ _) as [[[]|e] m] eqn:Hm; [|discriminate].
  unfold cast_cluster_keys. cbn [id_to_cluster set_root_children].
  destruct (rekey_view _ _) as [[[]|e] m2]; [|discriminate].
  intros H. injection H as <-. cbn.
  exact (DictFacts.rekey_list_all_int _ _ _ Hm).
Qed.

(** ** C9 *)

(** C9.  When [load_state] restores a snapshot, the engine it installs
    refers to the profiler of the controller, whatever profiler the
    deserialised engine referred to, and the controller's own profiler is
    the one it had. *)
Theorem restored_engine_refers_to_live_profiler (st st' : State)
    (h : PersistenceHandler) (blob : bytes) :
  persistence_handler (self st) = Some h ->
  fst (ph_load_state h (w_store (world st))) = Ok (Some blob) ->
  load_state st = (Ok tt, st') ->
  tm_profiler (self st') = tm_profiler (self st)
  /\ profiler (drain (self st')) = tm_profiler (self st)
  /\ exists state deserialised,
       decode_state (snapshot_compress_state (config (self st))) blob
       = Ok state
       /\ jsonpickle_loads state = Ok deserialised
       /\ set_profiler (drain (self st')) (profiler deserialised)
          = snd (cast_cluster_keys (snd (cast_root_keys deserialised))).
Proof.
  intros Eh Hload Hrun.
  rewrite load_state_run in Hrun. cbv zeta in Hrun.
  rewrite Eh, Hload in Hrun.
  destruct (decode_state _ blob) as [state|e] eqn:Ed; [|discriminate].
  unfold restore_drain in Hrun.
  destruct (jsonpickle_loads state) as [d0|e] eqn:Ej; [|discriminate].
  destruct (cast_root_keys d0) as [[[]|e] d1] eqn:E1; [|discriminate].
  destruct (cast_cluster_keys d1) as [[[]|e] d2] eqn:E2; [|discriminate].
  injection Hrun as <-. cbn.
  repeat apply conj; try reflexivity.
  exists state, d0. repeat apply conj; try assumption; try reflexivity.
  rewrite E1. cbn [snd]. rewrite E2. cbn. unfold cast_cluster_keys in E2.
  destruct (rekey_view _ _) as [r m] eqn:Em. injection E2 as _ <-.
  unfold cast_root_keys in E1.
  destruct (rekey_list _ _) as [r1 m1] eqn:Em1. injection E1 as _ <-.
  reflexivity.
Qed.

(** ** C5 *)

(** C5, as amended.  When the store has nothing to load, [load_state]
    returns and leaves the controller as it was, so the construction
    succeeds with the engine a controller without a store gets; that engine
    has no cluster when a new engine has none.  The first message leaves
    the same engine in both controllers, and returns the same record unless
    the store's [save_state] raises, in which case the call raises. *)
Theorem empty_store_startup (h : PersistenceHandler)
    (cfg : option TemplateMinerConfig) (w : World) (msg : string) :
  fst (ph_load_state h (w_store w)) = Ok None ->
  (forall sim_th depth max_children max_clusters extra_delimiters p,
      Drain_clusters
        (Drain_init sim_th depth max_children max_clusters extra_delimiters p)
      = []) ->
  let st := built (Some h) cfg w in
  fst (load_state st) = Ok tt
  /\ self (snd (load_state st)) = self st
  /\ exists tm w' tm0 w0,
       init (Some h) cfg w = (Ok tm, w')
       /\ init None cfg w = (Ok tm0, w0)
       /\ drain tm = drain tm0
       /\ len (Drain_clusters (drain tm)) = 0
       /\ let r := add_log_message msg (mkState tm w') in
          let r0 := add_log_message msg (mkState tm0 w0) in
          drain (self (snd r)) = drain (self (snd r0))
          /\ (fst r = fst r0
              \/ exists blob e,
                   fst (ph_save_state h blob (w_store w')) = Raise e
                   /\ fst r = Raise e).
Proof.
  intros Hload Hempty st.
  assert (L : fst (load_state st) = Ok tt
              /\ self (snd (load_state st)) = self st).
  { rewrite load_state_run. cbv zeta. unfold st.
    cbn [built self world persistence_handler w_store]. rewrite Hload.
    split; reflexivity. }
  destruct L as [L1 L2]. split; [exact L1|]. split; [exact L2|].
  rewrite !init_run. fold st.
  destruct (load_state st) as [[[]|e] [tm1 w1]]; cbn in L1, L2;
    [|discriminate].
  subst tm1.
  exists (self st), w1, (self (built None cfg w)), (world (built None cfg w)).
  split; [reflexivity|]. split; [reflexivity|].
  split; [reflexivity|].
  split; [unfold st, built; cbn; rewrite Hempty; reflexivity|].
  cbv zeta.
  destruct (engine_step (self st) msg) as [[cluster ct] d'] eqn:Hstep.
  assert (Hstep0 : engine_step (self (built None cfg w)) msg = (cluster, ct, d'))
    by exact Hstep.
  destruct (add_log_message_outcome (mkState (self st) w1) msg cluster ct d'
              Hstep) as [Hself Hout].
  destruct (add_log_message_without_store
              (mkState (self (built None cfg w)) (world (built None cfg w)))
              msg cluster ct d' eq_refl Hstep0) as (Hr0 & Hd0 & _).
  cbv zeta in Hself, Hout. cbn [self world] in Hself, Hout.
  split.
  - rewrite Hself, Hd0. reflexivity.
  - destruct Hout as [Hok | (h' & blob & e & Eh & Hs & Hr)].
    + left. rewrite Hok, Hr0. reflexivity.
    + right. exists blob, e. injection Eh as ->. split; assumption.
Qed.

(** ** C10 *)

Lemma engine_step_related (tm1 tm2 : TemplateMiner) (msg : string) :
  profiler_blind -> same_controller tm1 tm2 ->
  fst (engine_step tm1 msg) = fst (engine_step tm2 msg)
  /\ same_engine (snd (engine_step tm1 msg)) (snd (engine_step tm2 msg))
  /\ Drain_clusters (snd (engine_step tm1 msg))
     = Drain_clusters (snd (engine_step tm2 msg)).
Proof.
  intros (_ & Hadd & Hcl) (Hd & Hm & _). unfold engine_step. rewrite Hm.
  destruct (Hadd _ _ (mask (masker tm2) msg) Hd) as [H1 H2].
  repeat apply conj; auto.
Qed.

Lemma add_log_message_related (st1 st2 : State) (msg : string) :
  profiler_blind -> same_controller (self st1) (self st2) ->
  let r1 := add_log_message msg st1 in
  let r2 := add_log_message msg st2 in
  same_controller (self (snd r1)) (self (snd r2))
  /\ agree (fst r1) (fst r2)
  /\ (never_fails (persistence_handler (self st1)) ->
      fst r1 = fst r2 /\ exists r, fst r1 = Ok r).
Proof.
  intros Hblind Hrel.
  destruct (engine_step_related _ _ msg Hblind Hrel) as (Hf & Hs & Hc).
  destruct (engine_step (self st1) msg) as [[c1 ct1] d1] eqn:E1.
  destruct (engine_step (self st2) msg) as [[c2 ct2] d2] eqn:E2.
  cbn [fst snd] in Hf, Hs, Hc. injection Hf as -> ->.
  destruct (add_log_message_outcome st1 msg c2 ct2 d1 E1) as [S1 O1].
  destruct (add_log_message_outcome st2 msg c2 ct2 d2 E2) as [S2 O2].
  cbv zeta in *.
  assert (Hrec : result_record c2 ct2 d1 = result_record c2 ct2 d2)
    by (unfold result_record; rewrite Hc; reflexivity).
  destruct Hrel as (_ & Hm & Hh).
  repeat apply conj.
  - rewrite S1, S2. cbn. exact Hs.
  - rewrite S1, S2. cbn. exact Hm.
  - rewrite S1, S2. cbn. exact Hh.
  - intros r1 r2 H1 H2.
    destruct O1 as [O1 | (? & ? & ? & _ & _ & O1)]; [|congruence].
    destruct O2 as [O2 | (? & ? & ? & _ & _ & O2)]; [|congruence].
    congruence.
  - intros H.
    destruct O1 as [O1 | (h & blob & e & Eh & Es & _)];
      [|rewrite (H h Eh) in Es; discriminate].
    destruct O2 as [O2 | (h & blob & e & Eh & Es & _)];
      [|rewrite <- Hh in Eh; rewrite (H h Eh) in Es; discriminate].
    split; [congruence | eexists; exact O1].
Qed.

Lemma add_log_messages_related (msgs : list string) :
  profiler_blind ->
  forall st1 st2, same_controller (self st1) (self st2) ->
  Forall2 agree (fst (add_log_messages msgs st1))
                (fst (add_log_messages msgs st2))
  /\ (never_fails (persistence_handler (self st1)) ->
      fst (add_log_messages msgs st1) = fst (add_log_messages msgs st2)
      /\ Forall (fun o => exists r, o = Ok r)
                (fst (add_log_messages msgs st1))).
Proof.
  intros Hblind. induction msgs as [|m msgs IH]; intros st1 st2 Hrel.
  - cbn. split; [constructor | intros _; split; constructor].
  - destruct (add_log_message_related st1 st2 m Hblind Hrel)
      as (Hrel' & Hag & Hsafe).
    cbn [add_log_messages].
    destruct (add_log_message m st1) as [r1 st1'] eqn:E1.
    destruct (add_log_message m st2) as [r2 st2'] eqn:E2.
    cbn [fst snd] in Hrel', Hag, Hsafe.
    destruct (IH st1' st2' Hrel') as [IHa IHs].
    destruct (add_log_messages msgs st1') as [rs1 st1''].
    destruct (add_log_messages msgs st2') as [rs2 st2''].
    cbn [fst] in *.
    split; [constructor; assumption|].
    intros Hnf. destruct (Hsafe Hnf) as [-> Hok].
    assert (Hkeep : persistence_handler (self st1')
                    = persistence_handler (self st1)).
    { destruct (engine_step (self st1) m) as [[c ct] d] eqn:Es.
      destruct (add_log_message_outcome st1 m c ct d Es) as [S1 _].
      cbv zeta in S1. rewrite E1 in S1. cbn [snd] in S1. rewrite S1.
      reflexivity. }
    rewrite Hkeep in IHs. destruct (IHs Hnf) as [-> Hall].
    split; [reflexivity | constructor; assumption].
Qed.

Lemma restore_drain_related (p1 p2 : ProfRef) (state : bytes) :
  match restore_drain p1 state, restore_drain p2 state with
  | Ok d1, Ok d2 => same_engine d1 d2
  | Raise e1, Raise e2 => e1 = e2
  | _, _ => False
  end.
Proof.
  unfold restore_drain.
  destruct (jsonpickle_loads state) as [d|e]; [|reflexivity].
  destruct (cast_root_keys d) as [[[]|e] d1]; [|reflexivity].
  destruct (cast_cluster_keys d1) as [[[]|e] d2]; reflexivity.
Qed.

Lemma init_related (handler : option PersistenceHandler)
    (cfg : TemplateMinerConfig) (w1 w2 : World) :
  profiler_blind -> w_store w1 = w_store w2 ->
  match init handler (Some (set_profiling_enabled cfg false)) w1,
        init handler (Some (set_profiling_enabled cfg true)) w2 with
  | (Ok tm1, _), (Ok tm2, _) =>
      same_controller tm1 tm2 /\ persistence_handler tm1 = handler
  | (Raise e1, _), (Raise e2, _) => e1 = e2
  | _, _ => False
  end.
Proof.
  intros Hblind Hstore. rewrite !init_run.
  assert (Hb : same_controller
                 (self (built handler (Some (set_profiling_enabled cfg false)) w1))
                 (self (built handler (Some (set_profiling_enabled cfg true)) w2))).
  { destruct Hblind as (Hinit & _). unfold built, same_controller. cbn.
    repeat apply conj; try reflexivity.
    unfold same_engine in *. rewrite Hinit. symmetry. rewrite Hinit.
    reflexivity. }
  destruct handler as [h|]; [|split; [exact Hb | reflexivity]].
  rewrite !load_state_run. cbv zeta.
  set (b1 := built _ _ w1) in *. set (b2 := built _ _ w2) in *.
  replace (persistence_handler (self b1)) with (Some h) by reflexivity.
  replace (persistence_handler (self b2)) with (Some h) by reflexivity.
  replace (w_store (world b1)) with (w_store w1) by reflexivity.
  replace (w_store (world b2)) with (w_store w2) by reflexivity.
  rewrite <- Hstore.
  destruct (fst (ph_load_state h (w_store w1))) as [[blob|]|e];
    [| split; [exact Hb | reflexivity] | reflexivity].
  replace (snapshot_compress_state (config (self b1)))
    with (snapshot_compress_state cfg) by reflexivity.
  replace (snapshot_compress_state (config (self b2)))
    with (snapshot_compress_state cfg) by reflexivity.
  destruct (decode_state _ blob) as [state|e]; [|reflexivity].
  pose proof (restore_drain_related (tm_profiler (self b1))
                (tm_profiler (self b2)) state) as Hr.
  destruct (restore_drain (tm_profiler (self b1)) state) as [d1|e1],
           (restore_drain (tm_profiler (self b2)) state) as [d2|e2];
    try contradiction; [|exact Hr].
  destruct Hb as (_ & Hm & Hh).
  cbn. repeat apply conj; try assumption; reflexivity.
Qed.

(** C10.  Two controllers built from the same handler, the same store
    content and configurations that differ in [profiling_enabled] only,
    over an engine that never lets its profiler decide what it answers,
    are both constructed or both fail with the same exception; fed the
    same messages, they never return different records for a message, and
    when the handler's [save_state] never raises (or there is no handler)
    every message gets the same record from both. *)
Theorem result_records_independent_of_profiling
    (handler : option PersistenceHandler) (cfg : TemplateMinerConfig)
    (w1 w2 : World) (msgs : list string) :
  profiler_blind -> w_store w1 = w_store w2 ->
  match init handler (Some (set_profiling_enabled cfg false)) w1,
        init handler (Some (set_profiling_enabled cfg true)) w2 with
  | (Ok tm1, w1'), (Ok tm2, w2') =>
      let out1 := fst (add_log_messages msgs (mkState tm1 w1')) in
      let out2 := fst (add_log_messages msgs (mkState tm2 w2')) in
      Forall2 agree out1 out2
      /\ (never_fails handler ->
          out1 = out2 /\ Forall (fun o => exists r, o = Ok r) out1)
  | (Raise e1, _), (Raise e2, _) => e1 = e2
  | _, _ => False
  end.
Proof.
  intros Hblind Hstore.
  pose proof (init_related handler cfg w1 w2 Hblind Hstore) as Hi.
  destruct (init handler (Some (set_profiling_enabled cfg false)) w1)
    as [[tm1|e1] w1'],
    (init handler (Some (set_profiling_enabled cfg true)) w2)
    as [[tm2|e2] w2']; try exact Hi.
  destruct Hi as [Hrel Hh]. cbv zeta.
  destruct (add_log_messages_related msgs Hblind (mkState tm1 w1')
              (mkState tm2 w2') Hrel) as [Ha Hs].
  cbn [self] in Hs. rewrite Hh in Hs. split; assumption.
Qed.

(** ** Further properties of the controller *)

(** *** The clock and the fixed attributes over one call *)

Lemma add_log_message_clock (st : State) (msg : string) :
  let w := world st in
  let r := add_log_message msg st in
  w_clock (world (snd r)) = w_clock w
  /\ (w_ticks w + 6 * clock_reads w (tm_profiler (self st))
      <= w_ticks (world (snd r)))%nat.
Proof.
  destruct st as [[cfg p ph d mk lst] w].
  cbn [self world tm_profiler]. cbv zeta.
  pose proof (add_log_message_run
                (mkState (mkMiner cfg p ph d mk lst) w) msg) as R.
  cbv zeta in R. cbn [self world persistence_handler tm_profiler] in R.
  destruct (engine_step _ msg) as [[cluster ct] d'].
  rewrite R. clear R.
  destruct (answered_facts p w) as (Ac & As & Al & Asv & At & Ar).
  destruct ph as [h|].
  2:{ cbn [fst snd world self config].
      match goal with
      | |- context [closed ?a ?b ?c] =>
          destruct (closed_facts a b c) as (-> & _ & _ & _ & ->)
      end. rewrite Ac, At. split; [reflexivity | lia]. }
  rewrite snapshot_if_due_run. cbv zeta.
  cbn [self world persistence_handler tm_profiler set_drain].
  match goal with
  | |- context [snapshot_blob _ (w_heap ?x)] => set (w1 := x)
  end.
  assert (W1 : w_clock w1 = w_clock w
               /\ (w_ticks w + 6 * clock_reads w p <= w_ticks w1)%nat).
  { unfold w1. destruct (negb (ct =? "none")%string); cbn;
      autorewrite with world; rewrite ?Ac, ?At, ?Ar; split;
      try reflexivity; lia. }
  destruct W1 as (Wc & Wt). clearbody w1.
  destruct (reason_at _ ct cluster _) as [reason|].
  2:{ cbn [fst snd world self config].
      match goal with
      | |- context [closed ?a ?b ?c] =>
          destruct (closed_facts a b c) as (-> & _ & _ & _ & ->)
      end. autorewrite with world. split; [exact Wc | lia]. }
  destruct (ph_save_state h _ _) as [[[]|e] s']; cbn [fst snd world self config].
  - match goal with
    | |- context [closed ?a ?b ?c] =>
        destruct (closed_facts a b c) as (-> & _ & _ & _ & ->)
    end. autorewrite with world. cbn. split; [exact Wc | lia].
  - cbn. split; [exact Wc | lia].
Qed.

Lemma add_log_message_fixed (st : State) (msg : string) :
  fixed_at_construction (self (snd (add_log_message msg st)))
  = fixed_at_construction (self st).
Proof.
  destruct (engine_step (self st) msg) as [[cluster ct] d'] eqn:Hstep.
  destruct (add_log_message_outcome st msg cluster ct d' Hstep) as [Hself _].
  cbv zeta in Hself. rewrite Hself. reflexivity.
Qed.

(** *** [load_state]: what it leaves alone *)

Lemma restore_drain_profiler (p : ProfRef) (state : bytes) (d : Drain) :
  restore_drain p state = Ok d -> profiler d = p.
Proof.
  unfold restore_drain.
  destruct (jsonpickle_loads state) as [d0|e]; [|discriminate].
  destruct (cast_root_keys d0) as [[[]|e] d1]; [|discriminate].
  destruct (cast_cluster_keys d1) as [[[]|e] d2]; [|discriminate].
  intros H. injection H as <-. reflexivity.
Qed.

Lemma load_state_frame (st : State) :
  let r := load_state st in
  w_clock (world (snd r)) = w_clock (world st)
  /\ w_ticks (world (snd r)) = w_ticks (world st)
  /\ w_heap (world (snd r)) = w_heap (world st)
  /\ w_saved (world (snd r)) = w_saved (world st)
  /\ match fst r with
     | Raise _ => self (snd r) = self st
     | Ok _ =>
         self (snd r) = self st
         \/ exists state d,
              restore_drain (tm_profiler (self st)) state = Ok d
              /\ self (snd r) = set_drain (self st) d
     end.
Proof.
  cbv zeta. rewrite load_state_run. cbv zeta.
  destruct (persistence_handler (self st)) as [h|];
    [|repeat split; reflexivity].
  destruct (fst (ph_load_state h _)) as [[blob|]|e];
    try (repeat split; try reflexivity; left; reflexivity).
  destruct (decode_state _ blob) as [state|e];
    [|repeat split; reflexivity].
  destruct (restore_drain _ state) as [d|e] eqn:Hd;
    [|repeat split; reflexivity].
  repeat split; try reflexivity. right. exists state, d. split; [exact Hd|].
  reflexivity.
Qed.

(** X21.  [load_state] assigns [self.drain] at line 83 only, after the
    handler's load, the decoding, [jsonpickle.loads] and the two loops
    over the keys: when one of these raises, [load_state] raises what it
    raised and the controller is as it was, with the engine it had.  When
    [load_state] returns it has either left the controller alone or
    replaced its engine by the restored one, and nothing else.  It
    touches no profiler object and hands nothing to the store.  What
    lines 84-85 read from the restored engine for their log line, after
    the assignment, is the engine's own code and is taken to return. *)
Theorem load_state_installs_an_engine_or_changes_nothing (st : State) :
  let r := load_state st in
  let tm := self st in
  let compress := snapshot_compress_state (config tm) in
  match fst r with
  | Raise e =>
      self (snd r) = tm
      /\ (persistence_handler tm = None
          \/ exists h,
               persistence_handler tm = Some h
               /\ (fst (ph_load_state h (w_store (world st))) = Raise e
                   \/ exists blob,
                        fst (ph_load_state h (w_store (world st)))
                        = Ok (Some blob)
                        /\ (decode_state compress blob = Raise e
                            \/ exists state,
                                 decode_state compress blob = Ok state
                                 /\ restore_drain (tm_profiler tm) state
                                    = Raise e)))
  | Ok _ =>
      self (snd r) = tm
      \/ exists state d,
           restore_drain (tm_profiler tm) state = Ok d
           /\ self (snd r) = set_drain tm d
  end
  /\ w_heap (world (snd r)) = w_heap (world st)
  /\ w_saved (world (snd r)) = w_saved (world st).
Proof.
  destruct (load_state_frame st) as (_ & _ & H3 & H4 & H5).
  cbv zeta in *. split; [|split; assumption].
  clear H3 H4. revert H5. rewrite load_state_run. cbv zeta.
  destruct (persistence_handler (self st)) as [h|];
    [|intros H; split; [exact H | left; reflexivity]].
  destruct (fst (ph_load_state h _)) as [[blob|]|e] eqn:Hl;
    cbn [fst snd self]; [| intros H; exact H |].
  2:{ intros _. split; [reflexivity|]. right. exists h.
      split; [reflexivity|]. left. exact Hl. }
  destruct (decode_state _ blob) as [state|e] eqn:Hd; cbn [fst snd self].
  2:{ intros _. split; [reflexivity|]. right. exists h.
      split; [reflexivity|]. right. exists blob.
      split; [exact Hl|]. left. exact Hd. }
  destruct (restore_drain _ state) as [d|e] eqn:Hr; cbn [fst snd self];
    [intros H; exact H|].
  intros _. split; [reflexivity|]. right. exists h.
  split; [reflexivity|]. right. exists blob. split; [exact Hl|].
  right. exists state. split; assumption.
Qed.

(** *** The attributes no method assigns *)

(** X16.  [config], [profiler], [persistence_handler] and [masker] are
    assigned in [__init__] only: [add_log_message], [load_state],
    [save_state] and [get_snapshot_reason] leave them as they are, whether
    they return or raise. *)
Theorem methods_keep_what_construction_fixed (st : State)
    (msg reason change_type : string) (id : Z) :
  fixed_at_construction (self (snd (add_log_message msg st)))
  = fixed_at_construction (self st)
  /\ fixed_at_construction (self (snd (load_state st)))
     = fixed_at_construction (self st)
  /\ fixed_at_construction (self (snd (save_state reason st)))
     = fixed_at_construction (self st)
  /\ fixed_at_construction
       (self (snd (get_snapshot_reason change_type id st)))
     = fixed_at_construction (self st).
Proof.
  repeat apply conj.
  - apply add_log_message_fixed.
  - destruct (load_state_frame st) as (_ & _ & _ & _ & H). cbv zeta in H.
    destruct (fst (load_state st)).
    + destruct H as [-> | (state & d & _ & ->)]; reflexivity.
    + rewrite H. reflexivity.
  - destruct st as [[cfg p ph d mk lst] w]. unfold save_state. run_m.
    destruct ph as [h|]; run_m; [|reflexivity].
    destruct (ph_save_state h _ _) as [[[]|e] s]; reflexivity.
  - destruct st as [[cfg p ph d mk lst] w]. unfold get_snapshot_reason.
    destruct (negb _); run_m; [reflexivity|].
    destruct (float_ge _ _); reflexivity.
Qed.

(** *** The policy and the truth value of its reason *)

(** X9.  [get_snapshot_reason] never raises and returns [None] or a text
    that is not empty, also for an empty change type: the test [if
    snapshot_reason:] of line 128 succeeds exactly when the policy gave a
    reason. *)
Theorem snapshot_reason_is_none_or_not_empty (change_type : string) (id : Z)
    (st : State) :
  exists reason,
    fst (get_snapshot_reason change_type id st) = Ok reason
    /\ reason <> Some ""
    /\ (truthy reason = true <-> reason <> None).
Proof.
  destruct st as [[cfg p ph d mk lst] w]. unfold get_snapshot_reason.
  destruct (negb _); run_m.
  - eexists. split; [reflexivity|]. split.
    + destruct change_type; discriminate.
    + rewrite truthy_change_reason. split; [discriminate | reflexivity].
  - destruct (float_ge _ _); eexists; (split; [reflexivity|]);
      (split; [discriminate|]); unfold truthy; cbn;
      split; congruence.
Qed.

(** *** The methods that need a handler, called without one *)

(** X13.  On a controller without a persistence handler, [load_state] and
    [save_state] raise [AttributeError] when they reach the handler: each
    has logged its line by then, and nothing else has changed. *)
Theorem methods_that_need_a_handler_raise_without_one (st : State)
    (reason : string) :
  persistence_handler (self st) = None ->
  load_state st
  = (Raise (Exn "AttributeError"
                "'NoneType' object has no attribute 'load_state'"),
     mkState (self st)
             (set_log (world st)
                      ("Checking for saved state" :: w_log (world st))))
  /\ save_state reason st
     = (Raise (Exn "AttributeError"
                   "'NoneType' object has no attribute 'save_state'"),
        mkState (self st)
          (set_log (world st)
             (saving_message (drain (self st))
                (snapshot_blob (self st) (w_heap (world st))) reason
              :: w_log (world st)))).
Proof.
  intros Hh. split.
  - rewrite load_state_run. cbv zeta. rewrite Hh. reflexivity.
  - destruct st as [[cfg p ph d mk lst] w]. cbn in Hh. subst ph.
    unfold save_state. run_m. reflexivity.
Qed.

(** *** [__init__] *)

Lemma init_outcome (handler : option PersistenceHandler)
    (cfg : option TemplateMinerConfig) (w : World) (tm : TemplateMiner)
    (w' : World) :
  init handler cfg w = (Ok tm, w') ->
  let b := built handler cfg w in
  (tm = self b
   \/ exists state d,
        restore_drain (tm_profiler (self b)) state = Ok d
        /\ tm = set_drain (self b) d)
  /\ w_clock w' = w_clock w
  /\ w_ticks w' = S (w_ticks w)
  /\ w_heap w' = w_heap (world b)
  /\ w_saved w' = w_saved w.
Proof.
  rewrite init_run. cbv zeta. destruct handler as [h|].
  - destruct (load_state_frame (built (Some h) cfg w))
      as (Hc & Ht & Hh & Hs & Hself).
    cbv zeta in *.
    destruct (load_state (built (Some h) cfg w)) as [[[]|e] st'];
      [|discriminate].
    intros H. injection H as <- <-. cbn [fst snd] in *.
    rewrite Hc, Ht, Hh, Hs. repeat apply conj; try reflexivity.
    exact Hself.
  - intros H. injection H as <- <-.
    repeat apply conj; try reflexivity. left. reflexivity.
Qed.

(** X18.  After a construction that succeeds, [last_save_time] is a
    reading of the clock taken during that construction (line 51), also
    when a snapshot was restored: the restored state brings no time of its
    own, so the interval to the first periodic snapshot counts from the
    construction.  The construction hands nothing to the store. *)
Theorem construction_takes_last_save_time_from_the_clock
    (handler : option PersistenceHandler) (cfg : option TemplateMinerConfig)
    (w : World) (tm : TemplateMiner) (w' : World) :
  init handler cfg w = (Ok tm, w') ->
  (exists n, (w_ticks w <= n < w_ticks w')%nat
             /\ last_save_time tm = w_clock w n)
  /\ w_clock w' = w_clock w
  /\ w_saved w' = w_saved w.
Proof.
  intros H. destruct (init_outcome _ _ _ _ _ H) as (Hs & Hc & Ht & _ & Hsv).
  repeat apply conj; try assumption.
  exists (w_ticks w). split; [lia|].
  destruct Hs as [-> | (state & d & _ & ->)]; reflexivity.
Qed.

(** X17.  After a construction that succeeds, over an engine that keeps
    the profiler it is given, the engine and the controller refer to one
    profiler object, on the path of line 48 and on the path of line 81
    alike; that object was made by this construction, it is an active
    profiler that has timed nothing yet when profiling is enabled and the
    no-op one otherwise, and the profiler objects that existed before are
    as they were. *)
Theorem construction_shares_one_new_profiler
    (handler : option PersistenceHandler) (cfg : option TemplateMinerConfig)
    (w : World) (tm : TemplateMiner) (w' : World) :
  engine_keeps_profiler ->
  init handler cfg w = (Ok tm, w') ->
  profiler (drain tm) = tm_profiler tm
  /\ (List.length (w_heap w) <= tm_profiler tm)%nat
  /\ nth_error (w_heap w') (tm_profiler tm)
     = Some (if profiling_enabled (config tm)
             then SimpleProfiler [] else NullProfiler)
  /\ firstn (List.length (w_heap w)) (w_heap w') = w_heap w.
Proof.
  intros Hkeep H.
  destruct (init_outcome _ _ _ _ _ H) as (Hs & _ & _ & Hh & _).
  cbv zeta in *. rewrite Hh. clear Hh H.
  assert (Hb : forall tm0,
             tm0 = self (built handler cfg w)
             \/ (exists state d,
                   restore_drain (tm_profiler (self (built handler cfg w)))
                                 state = Ok d
                   /\ tm0 = set_drain (self (built handler cfg w)) d) ->
             profiler (drain tm0) = tm_profiler tm0
             /\ tm_profiler tm0 = tm_profiler (self (built handler cfg w))
             /\ config tm0 = config (self (built handler cfg w))).
  { intros tm0 [-> | (state & d & Hd & ->)].
    - repeat split. unfold built. cbn. apply Hkeep.
    - repeat split. cbn [drain set_drain tm_profiler].
      apply (restore_drain_profiler _ _ _ Hd). }
  destruct (Hb tm Hs) as (H1 & H2 & H3). rewrite H2, H3.
  split; [congruence|]. clear.
  unfold built. cbn [self world tm_profiler config w_heap].
  destruct (profiling_enabled _).
  - repeat apply conj.
    + lia.
    + rewrite nth_error_app2 by (rewrite length_app; cbn; lia).
      rewrite length_app. cbn [List.length].
      replace (S (List.length (w_heap w)) - (List.length (w_heap w) + 1))%nat
        with 0%nat by lia. reflexivity.
    + rewrite <- app_assoc. rewrite firstn_app, Nat.sub_diag, firstn_all.
      cbn. apply app_nil_r.
  - repeat apply conj.
    + lia.
    + rewrite nth_error_app2 by lia. rewrite Nat.sub_diag. reflexivity.
    + rewrite firstn_app, Nat.sub_diag, firstn_all. cbn. apply app_nil_r.
Qed.

(** *** The time of the last save over a session *)

Lemma add_log_message_keeps_reading (st : State) (msg : string) :
  last_save_is_a_reading st ->
  last_save_is_a_reading (snd (add_log_message msg st)).
Proof.
  intros (n0 & Hn0 & Hl0). unfold last_save_is_a_reading.
  destruct (add_log_message_clock st msg) as [Hc Ht]. cbv zeta in Hc, Ht.
  rewrite Hc.
  assert (Hkeep :
    last_save_time (self (snd (add_log_message msg st)))
    = last_save_time (self st) ->
    exists n, (n < w_ticks (world (snd (add_log_message msg st))))%nat
              /\ last_save_time (self (snd (add_log_message msg st)))
                 = w_clock (world st) n).
  { intros ->. exists n0. split; [lia | exact Hl0]. }
  destruct (engine_step (self st) msg) as [[cluster ct] d'] eqn:Hstep.
  destruct (persistence_handler (self st)) as [h|] eqn:Eh.
  - destruct (add_log_message_with_store st msg h cluster ct d' Eh Hstep)
      as [_ H]. cbv zeta in H.
    destruct (reason_at _ _ _ _) as [reason|].
    + destruct H as (blob & _ & _ & _ & H).
      destruct (fst (ph_save_state h blob _)) as [[]|e].
      * destruct H as (_ & n & Hn & Hl). exists n. split; [lia | exact Hl].
      * apply Hkeep, H.
    + apply Hkeep, H.
  - apply Hkeep.
    apply (add_log_message_without_store st msg cluster ct d' Eh Hstep).
Qed.

Lemma init_reading (handler : option PersistenceHandler)
    (cfg : option TemplateMinerConfig) (w : World) (tm : TemplateMiner)
    (w' : World) :
  init handler cfg w = (Ok tm, w') -> last_save_is_a_reading (mkState tm w').
Proof.
  intros H. destruct (init_outcome _ _ _ _ _ H) as (Hs & Hc & Ht & _).
  exists (w_ticks w). cbn [self world]. rewrite Hc, Ht. split; [lia|].
  destruct Hs as [-> | (state & d & _ & ->)]; reflexivity.
Qed.

Lemma add_log_messages_keep_reading (msgs : list string) :
  forall st,
    last_save_is_a_reading st ->
    last_save_is_a_reading (snd (add_log_messages msgs st)).
Proof.
  induction msgs as [|m msgs IH]; intros st H; [exact H|].
  cbn [add_log_messages].
  pose proof (add_log_message_keeps_reading st m H) as H1.
  destruct (add_log_message m st) as [r st1]. cbn [snd] in H1.
  specialize (IH st1 H1).
  destruct (add_log_messages msgs st1) as [rs st2]. exact IH.
Qed.

(** X10.  Throughout a session that began with a successful construction,
    [last_save_time] is a reading the clock gave earlier, whichever calls
    returned and whichever raised: the time elapsed since the last save is
    measured between two readings of the same clock. *)
Theorem last_save_time_is_an_earlier_reading
    (handler : option PersistenceHandler) (cfg : option TemplateMinerConfig)
    (w : World) (tm : TemplateMiner) (w' : World) (msgs : list string) :
  init handler cfg w = (Ok tm, w') ->
  last_save_is_a_reading (snd (add_log_messages msgs (mkState tm w'))).
Proof.
  intros H. apply add_log_messages_keep_reading, (init_reading _ _ _ _ _ H).
Qed.

(** *** An interval that is not positive *)

Lemma add_log_message_saves_without_interval (st : State) (msg : string)
    (h : PersistenceHandler) :
  persistence_handler (self st) = Some h ->
  clock_monotone (world st) ->
  (snapshot_interval_minutes (config (self st)) <= 0)%Q ->
  last_save_is_a_reading st ->
  exists blob,
    w_saved (world (snd (add_log_message msg st)))
    = blob :: w_saved (world st).
Proof.
  intros Eh Hmono Hint (n0 & Hn0 & Hl0).
  destruct (engine_step (self st) msg) as [[cluster ct] d'] eqn:Hstep.
  destruct (add_log_message_with_store st msg h cluster ct d' Eh Hstep)
    as [_ H]. cbv zeta in H.
  unfold reason_at in H.
  destruct (negb (ct =? "none")%string).
  - destruct H as (blob & Hs & _). eauto.
  - match type of H with
    | context [float_ge ?a ?b] => assert (Hdue : float_ge a b = true)
    end.
    { apply FloatFacts.float_of_le. rewrite Hl0.
      pose proof (Hmono n0 (w_ticks (world st)
                            + 6 * clock_reads (world st)
                                    (tm_profiler (self st)))%nat
                        ltac:(lia)) as Hle.
      lra. }
    rewrite Hdue in H. destruct H as (blob & Hs & _). eauto.
Qed.

Lemma add_log_messages_save_without_interval (msgs : list string)
    (h : PersistenceHandler) :
  forall st,
    persistence_handler (self st) = Some h ->
    clock_monotone (world st) ->
    (snapshot_interval_minutes (config (self st)) <= 0)%Q ->
    last_save_is_a_reading st ->
    List.length (w_saved (world (snd (add_log_messages msgs st))))
    = (List.length (w_saved (world st)) + List.length msgs)%nat.
Proof.
  induction msgs as [|m msgs IH]; intros st Eh Hmono Hint Hread.
  - cbn. lia.
  - cbn [add_log_messages List.length].
    destruct (add_log_message_saves_without_interval st m h Eh Hmono Hint
                Hread) as [blob Hs].
    pose proof (add_log_message_keeps_reading st m Hread) as Hread1.
    pose proof (add_log_message_fixed st m) as Hfix.
    destruct (add_log_message_clock st m) as [Hc _]. cbv zeta in Hc.
    destruct (add_log_message m st) as [r st1]. cbn [snd] in *.
    unfold fixed_at_construction in Hfix. injection Hfix as Hcfg _ Hh _.
    specialize (IH st1).
    destruct (add_log_messages msgs st1) as [rs st2]. cbn [snd] in *.
    rewrite IH, Hs.
    + cbn [List.length]. lia.
    + congruence.
    + unfold clock_monotone. rewrite Hc. exact Hmono.
    + rewrite Hcfg. exact Hint.
    + exact Hread1.
Qed.

(** X11.  With a persistence handler, profiling disabled, an interval of
    zero minutes or less and a clock that never goes backwards, every
    message is followed by an attempt to save, whether the attempts
    succeed or not: a session of [n] messages hands [n] blobs to the
    store. *)
Theorem interval_not_positive_saves_at_every_message
    (h : PersistenceHandler) (cfg : option TemplateMinerConfig)
    (w : World) (tm : TemplateMiner) (w' : World) (msgs : list string) :
  init (Some h) cfg w = (Ok tm, w') ->
  profiling_enabled (config tm) = false ->
  clock_monotone w ->
  (snapshot_interval_minutes (config tm) <= 0)%Q ->
  List.length (w_saved (world (snd (add_log_messages msgs (mkState tm w')))))
  = (List.length (w_saved w) + List.length msgs)%nat.
Proof.
  intros H _ Hmono Hint.
  destruct (init_outcome _ _ _ _ _ H) as (Hs & Hc & _ & _ & Hsv).
  rewrite <- Hsv.
  apply (add_log_messages_save_without_interval msgs h (mkState tm w')).
  - destruct Hs as [-> | (state & d & _ & ->)]; reflexivity.
  - unfold clock_monotone. cbn [world]. rewrite Hc. exact Hmono.
  - exact Hint.
  - exact (init_reading _ _ _ _ _ H).
Qed.

(** *** A save that failed *)

(** X12.  When a message that changed nothing was due for a periodic
    snapshot and the handler's [save_state] raised, [last_save_time] has
    not moved: with the no-op profiler and over a clock that never goes
    backwards, the next message, whatever it is, is followed by a new
    attempt to save. *)
Theorem failed_periodic_save_is_tried_again (st : State) (m1 m2 : string)
    (h : PersistenceHandler) (cluster : LogCluster) (d' : Drain) (e : exn) :
  persistence_handler (self st) = Some h ->
  nth_error (w_heap (world st)) (tm_profiler (self st)) = Some NullProfiler ->
  clock_monotone (world st) ->
  engine_step (self st) m1 = (cluster, "none", d') ->
  fst (add_log_message m1 st) = Raise e ->
  let st1 := snd (add_log_message m1 st) in
  exists blob,
    w_saved (world (snd (add_log_message m2 st1)))
    = blob :: w_saved (world st1).
Proof.
  intros Eh _ Hmono Hstep Hraise. cbv zeta.
  destruct (add_log_message_with_store st m1 h cluster "none" d' Eh Hstep)
    as [_ H]. cbv zeta in H.
  destruct (add_log_message_clock st m1) as [Hc Ht]. cbv zeta in Hc, Ht.
  pose proof (add_log_message_fixed st m1) as Hfix.
  unfold fixed_at_construction in Hfix. injection Hfix as Hcfg _ Hh _.
  unfold reason_at in H. cbn [String.eqb Ascii.eqb Bool.eqb negb] in H.
  destruct (float_ge _ _) eqn:Hdue;
    [|destruct H as (H & _); rewrite H in Hraise; discriminate].
  destruct H as (blob & _ & _ & _ & H).
  destruct (fst (ph_save_state h blob _)) as [[]|e'];
    [destruct H as (H & _); rewrite H in Hraise; discriminate|].
  destruct H as (_ & Hl).
  set (st1 := snd (add_log_message m1 st)) in *.
  destruct (engine_step (self st1) m2) as [[c2 ct2] d2] eqn:Hstep2.
  assert (Eh1 : persistence_handler (self st1) = Some h) by congruence.
  destruct (add_log_message_with_store st1 m2 h c2 ct2 d2 Eh1 Hstep2)
    as [_ H2]. cbv zeta in H2.
  unfold reason_at in H2.
  destruct (negb (ct2 =? "none")%string).
  - destruct H2 as (blob2 & Hs & _). eauto.
  - match type of H2 with
    | context [float_ge ?a ?b] => assert (Hdue2 : float_ge a b = true)
    end.
    { rewrite Hl, Hcfg, Hc.
      pose proof (Hmono (w_ticks (world st)
                         + 6 * clock_reads (world st) (tm_profiler (self st)))%nat
                        (w_ticks (world st1)
                         + 6 * clock_reads (world st1)
                                 (tm_profiler (self st1)))%nat
                        ltac:(lia)) as Hle.
      unfold float_ge in *.
      eapply FloatFacts.float_le_trans; [exact Hdue|].
      apply FloatFacts.float_of_le. lra. }
    rewrite Hdue2 in H2. destruct H2 as (blob2 & Hs & _). eauto.
Qed.

(** *** What a call saves and logs *)

(** X15.  Whatever a call of [add_log_message] hands to the store, it is
    the encoding of the engine as this call's message left it: the
    snapshot is taken after the engine has processed the message, never
    before. *)
Theorem snapshot_holds_the_engine_after_the_message (st : State)
    (msg : string) (cluster : LogCluster) (change_type : string)
    (d' : Drain) :
  engine_step (self st) msg = (cluster, change_type, d') ->
  let st' := snd (add_log_message msg st) in
  w_saved (world st') = w_saved (world st)
  \/ exists heap,
       w_saved (world st')
       = encode_state (snapshot_compress_state (config (self st)))
           (list_byte_of_string (jsonpickle_dumps d' heap))
         :: w_saved (world st).
Proof.
  destruct st as [[cfg p ph d mk lst] w].
  cbn [self world config]. intros Hstep. cbv zeta.
  pose proof (add_log_message_run
                (mkState (mkMiner cfg p ph d mk lst) w) msg) as R.
  cbv zeta in R. cbn [self world persistence_handler tm_profiler] in R.
  rewrite Hstep in R. rewrite R. clear R.
  destruct (answered_facts p w) as (_ & _ & _ & Asv & _).
  destruct ph as [h|].
  2:{ left. cbn [fst snd world self config].
      match goal with
      | |- context [closed ?a ?b ?c] =>
          destruct (closed_facts a b c) as (_ & _ & _ & -> & _)
      end. exact Asv. }
  rewrite snapshot_if_due_run. cbv zeta.
  cbn [self world persistence_handler tm_profiler set_drain].
  match goal with
  | |- context [snapshot_blob _ (w_heap ?x)] => set (w1 := x)
  end.
  assert (W1 : w_saved w1 = w_saved w).
  { unfold w1. destruct (negb (change_type =? "none")%string); cbn;
      autorewrite with world; exact Asv. }
  clearbody w1.
  destruct (reason_at _ change_type cluster _) as [reason|].
  2:{ left. cbn [fst snd world self config].
      match goal with
      | |- context [closed ?a ?b ?c] =>
          destruct (closed_facts a b c) as (_ & _ & _ & -> & _)
      end. autorewrite with world. exact W1. }
  right. exists (w_heap w1).
  destruct (ph_save_state h _ _) as [[[]|e] s'];
    cbn [fst snd world self config].
  - match goal with
    | |- context [closed ?a ?b ?c] =>
        destruct (closed_facts a b c) as (_ & _ & _ & -> & _)
    end. autorewrite with world. cbn. rewrite W1. reflexivity.
  - cbn. rewrite W1. reflexivity.
Qed.

Lemma add_log_message_saved_and_logged (st : State) (msg : string) :
  let st' := snd (add_log_message msg st) in
  (w_saved (world st') = w_saved (world st)
   /\ w_log (world st') = w_log (world st))
  \/ exists blob line,
       w_saved (world st') = blob :: w_saved (world st)
       /\ w_log (world st') = line :: w_log (world st).
Proof.
  cbv zeta.
  destruct (engine_step (self st) msg) as [[cluster ct] d'] eqn:Hstep.
  destruct (persistence_handler (self st)) as [h|] eqn:Eh.
  - destruct (add_log_message_with_store st msg h cluster ct d' Eh Hstep)
      as [_ H]. cbv zeta in H.
    destruct (reason_at _ _ _ _) as [reason|].
    + destruct H as (blob & Hs & Hl & _). right. eauto.
    + destruct H as (_ & Hs & Hl & _). left. split; assumption.
  - destruct (add_log_message_without_store st msg cluster ct d' Eh Hstep)
      as (_ & _ & Hs & Hl & _).
    left. split; assumption.
Qed.

(** X19.  Over a session, the blobs handed to the store and the lines
    logged go together, one of each for every attempt to save and at most
    one attempt for every message; what was saved and logged before stays
    in place. *)
Theorem a_session_logs_one_line_for_every_attempt (msgs : list string) :
  forall st : State,
    let st' := snd (add_log_messages msgs st) in
    exists blobs lines,
      w_saved (world st') = blobs ++ w_saved (world st)
      /\ w_log (world st') = lines ++ w_log (world st)
      /\ List.length blobs = List.length lines
      /\ (List.length blobs <= List.length msgs)%nat.
Proof.
  induction msgs as [|m msgs IH]; intros st; cbv zeta.
  - exists [], []. repeat split. cbn. lia.
  - cbn [add_log_messages].
    pose proof (add_log_message_saved_and_logged st m) as H1.
    cbv zeta in H1.
    destruct (add_log_message m st) as [r st1]. cbn [snd] in H1.
    specialize (IH st1). cbv zeta in IH.
    destruct (add_log_messages msgs st1) as [rs st2]. cbn [snd] in *.
    destruct IH as (blobs & lines & Hs & Hl & Hlen & Hle).
    destruct H1 as [[Hs1 Hl1] | (blob & line & Hs1 & Hl1)].
    + exists blobs, lines. rewrite Hs, Hl, Hs1, Hl1.
      repeat split; try assumption. cbn. lia.
    + exists (blobs ++ [blob]), (lines ++ [line]).
      rewrite Hs, Hl, Hs1, Hl1, <- !app_assoc, !length_app. cbn.
      repeat split; lia.
Qed.

(** X20.  A controller without a persistence handler returns a result
    record for every message of a session; it saves nothing, logs nothing
    and leaves the store and [last_save_time] as they were. *)
Theorem without_a_handler_every_message_is_answered (msgs : list string) :
  forall st : State,
    persistence_handler (self st) = None ->
    let r := add_log_messages msgs st in
    List.length (fst r) = List.length msgs
    /\ Forall (fun o => exists record, o = Ok record) (fst r)
    /\ w_saved (world (snd r)) = w_saved (world st)
    /\ w_log (world (snd r)) = w_log (world st)
    /\ w_store (world (snd r)) = w_store (world st)
    /\ last_save_time (self (snd r)) = last_save_time (self st).
Proof.
  induction msgs as [|m msgs IH]; intros st Eh; cbv zeta.
  - cbn. repeat split. constructor.
  - cbn [add_log_messages].
    destruct (engine_step (self st) m) as [[cluster ct] d'] eqn:Hstep.
    destruct (add_log_message_without_store st m cluster ct d' Eh Hstep)
      as (Hr & _ & Hs & Hl & Hst & Ht).
    pose proof (add_log_message_fixed st m) as Hfix.
    unfold fixed_at_construction in Hfix. injection Hfix as _ _ Hh _.
    cbv zeta in *.
    destruct (add_log_message m st) as [r st1]. cbn [fst snd] in *.
    specialize (IH st1 ltac:(congruence)). cbv zeta in IH.
    destruct (add_log_messages msgs st1) as [rs st2]. cbn [fst snd] in *.
    destruct IH as (I1 & I2 & I3 & I4 & I5 & I6).
    repeat apply conj; try congruence.
    + cbn. lia.
    + constructor; [eauto | exact I2].
Qed.

(** *** From [save_state] to [load_state] *)

(** X14.  What [save_state] wrote, [load_state] reads: over a handler that
    loads what it saved last, with the same setting of
    [snapshot_compress_state] on both sides and a zlib that gives back
    what it compressed, a controller that loads after a successful
    [save_state] hands to the deserialiser the very text the serialiser
    produced, and installs the engine restored from it. *)
Theorem load_state_reads_what_save_state_wrote (st st' st2 : State)
    (h : PersistenceHandler) (reason : string) :
  let text :=
    list_byte_of_string
      (jsonpickle_dumps (drain (self st)) (w_heap (world st))) in
  persistence_handler (self st) = Some h ->
  loads_what_it_saved h ->
  (snapshot_compress_state (config (self st)) = true ->
   zlib_decompress (zlib_compress text) = Ok text) ->
  save_state reason st = (Ok tt, st') ->
  persistence_handler (self st2) = Some h ->
  snapshot_compress_state (config (self st2))
  = snapshot_compress_state (config (self st)) ->
  w_store (world st2) = w_store (world st') ->
  match restore_drain (tm_profiler (self st2)) text with
  | Ok d =>
      fst (load_state st2) = Ok tt
      /\ self (snd (load_state st2)) = set_drain (self st2) d
  | Raise e =>
      fst (load_state st2) = Raise e
      /\ self (snd (load_state st2)) = self st2
  end.
Proof.
  cbv zeta. intros Eh Hlaw Hz Hsave Eh2 Hcomp Hstore.
  destruct st as [[cfg p ph d mk lst] w].
  cbn [self world persistence_handler config drain] in *. subst ph.
  unfold save_state, bind, gets, in_world, handler_save, logger_info
    in Hsave.
  cbn in Hsave.
  destruct (ph_save_state h _ (w_store w)) as [[[]|e] s'] eqn:Es;
    [|discriminate].
  injection Hsave as <-. cbn [world w_store] in Hstore.
  pose proof (Hlaw _ _ _ Es) as Hload.
  assert (Hd : decode_state (snapshot_compress_state cfg)
                 (snapshot_blob (mkMiner cfg p (Some h) d mk lst) (w_heap w))
               = Ok (list_byte_of_string (jsonpickle_dumps d (w_heap w)))).
  { unfold snapshot_blob, decode_state, encode_state. cbn [config drain].
    destruct (snapshot_compress_state cfg); [|reflexivity].
    rewrite Base64Facts.b64decode_b64encode. exact (Hz eq_refl). }
  pose proof (load_state_run st2) as R. cbv zeta in R.
  rewrite Eh2, Hstore, Hload, Hcomp, Hd in R.
  destruct (restore_drain _ _) as [d2|e]; rewrite R; split; reflexivity.
Qed.

(** *** The keys of the root's children (lines 70-74) *)

(** X1.  The loop over the copied keys never misses a key: it raises only
    where [int(key)] raises for one of the keys, and that is a
    [ValueError] for a [str] that is no literal of an [int]; when it
    returns, every key was an [int] or such a literal. *)
Theorem cast_root_keys_raises_only_int_s_error (d : Drain) :
  let ks := keys (key_to_child_node (root_node d)) in
  match fst (cast_root_keys d) with
  | Ok _ => forall k, In k ks -> exists z, int_key k = Ok z
  | Raise e =>
      exists s msg,
        In (KStr s) ks /\ int_str s = Raise e /\ e = Exn "ValueError" msg
  end.
Proof.
  cbv zeta. unfold cast_root_keys.
  pose proof (DictFacts.rekey_list_outcome interpreter
                (keys (key_to_child_node (root_node d)))
                (key_to_child_node (root_node d))
                (fun s => le_n _)) as H.
  destruct (rekey_list _ _ _) as [[[]|e] m]; cbn [fst] in *.
  - exact H.
  - destruct H as ([z|s] & Hin & He); [discriminate|].
    cbn [int_key] in He.
    destruct (IntFacts.int_str_raises s e He) as [msg ->].
    exists s, msg. repeat split; assumption.
Qed.

Lemma map_combine {A B : Type} (l : list A) :
  forall l' : list B,
    List.length l = List.length l' ->
    map fst (combine l l') = l /\ map snd (combine l l') = l'.
Proof.
  induction l as [|a l IH]; intros [|b l'] H; cbn in *; try discriminate;
    [split; reflexivity|].
  destruct (IH l') as [H1 H2]; [congruence|].
  rewrite H1, H2. split; reflexivity.
Qed.

(** X2.  When every key of the root's children is an [int] or the literal
    of one, and these [int]s differ from one another, the loop returns and
    the root maps the [int]s to the same children in the same order;
    nothing else of the engine is touched. *)
Theorem cast_root_keys_keeps_the_children_in_order (d : Drain)
    (zs : list Z) :
  map int_key (keys (key_to_child_node (root_node d))) = map Ok zs ->
  NoDup zs ->
  exists m,
    cast_root_keys d = (Ok tt, set_root_children d m)
    /\ keys m = map KInt zs
    /\ values m = values (key_to_child_node (root_node d)).
Proof.
  intros Hz Hnd. unfold cast_root_keys, keys in *.
  destruct (DictFacts.rekey_list_in_order interpreter
              (items (key_to_child_node (root_node d))) zs []
              (key_to_child_node (root_node d)))
    as (m & Hr & Hi).
  - rewrite app_nil_r. reflexivity.
  - exact Hz.
  - exact Hnd.
  - intros z _ [].
  - exists m. rewrite Hr. split; [reflexivity|].
    assert (Hlen : List.length (map KInt zs)
                   = List.length (map snd (items (key_to_child_node
                                                    (root_node d))))).
    { rewrite !length_map.
      apply (f_equal (@List.length _)) in Hz. rewrite !length_map in Hz.
      symmetry. exact Hz. }
    unfold values. rewrite Hi. cbn [app].
    exact (map_combine _ _ Hlen).
Qed.

(** X3.  Whenever [load_state] returns after the handler gave it a stored
    state, every key of the root's children in the engine it installed is
    an [int]. *)
Theorem load_state_installs_int_keys_at_the_root (st st' : State)
    (h : PersistenceHandler) (blob : bytes) :
  persistence_handler (self st) = Some h ->
  fst (ph_load_state h (w_store (world st))) = Ok (Some blob) ->
  load_state st = (Ok tt, st') ->
  forallb is_int_key
    (keys (key_to_child_node (root_node (drain (self st'))))) = true.
Proof.
  intros Eh Hload Hrun.
  rewrite load_state_run in Hrun. cbv zeta in Hrun.
  rewrite Eh, Hload in Hrun.
  destruct (decode_state _ blob) as [state|e]; [|discriminate].
  destruct (restore_drain _ state) as [d|e] eqn:Hd; [|discriminate].
  injection Hrun as <-. cbn [self drain set_drain].
  unfold restore_drain in Hd.
  destruct (jsonpickle_loads state) as [d0|e]; [|discriminate].
  unfold cast_root_keys in Hd.
  destruct (rekey_list _ _ _) as [[[]|e] m] eqn:Hm; [|discriminate].
  unfold cast_cluster_keys in Hd. cbn [id_to_cluster set_root_children] in Hd.
  destruct (rekey_view _ _) as [[[]|e] m2]; [|discriminate].
  injection Hd as <-. cbn.
  exact (DictFacts.rekey_list_all_int _ _ _ Hm).
Qed.

(** *** The stored text of a compressed snapshot *)

(** X6.  With compression, what [save_state] hands to the store is base64
    text: every byte is a character of the table or the pad, and there are
    four of them for every three bytes zlib wrote, the last group filled
    up. *)
Theorem compressed_snapshot_is_base64_text (state : bytes) :
  forallb Base64.b64_char (encode_state true state) = true
  /\ List.length (encode_state true state)
     = (4 * ((List.length (zlib_compress state) + 2) / 3))%nat.
Proof.
  unfold encode_state.
  apply (Base64Facts.b64encode_text_upto (List.length (zlib_compress state))).
  lia.
Qed.

(** X7.  With compression, [load_state] reads the stored text as it reads
    the text without the bytes that are neither of the table nor the pad:
    line breaks, blanks and any other foreign byte, wherever they stand,
    change nothing of the outcome. *)
Theorem decode_state_steps_over_foreign_bytes (blob : bytes) :
  decode_state true blob = decode_state true (filter Base64.b64_char blob).
Proof.
  unfold decode_state, Base64.b64decode.
  rewrite Base64Facts.a2b_base64_filter. reflexivity.
Qed.

(** X8.  With compression, a stored text without pad characters is
    decoded exactly when its data characters come in whole groups of
    four; it then yields three bytes for every group, which go to zlib.
    Otherwise [load_state] raises [binascii.Error]. *)
Theorem unpadded_snapshot_needs_whole_groups (blob : bytes) :
  ~ In Base64.BASE64_PAD blob ->
  let n := List.length (Base64.data_chars blob) in
  if (n mod 4 =? 0)%nat
  then exists z,
         Base64.b64decode blob = Ok z
         /\ (4 * List.length z = 3 * n)%nat
         /\ decode_state true blob = zlib_decompress z
  else exists msg,
         decode_state true blob = Raise (Base64.binascii_Error msg).
Proof.
  intros Hpad. cbv zeta.
  pose proof (Base64Facts.b64decode_unpadded blob Hpad) as H.
  unfold decode_state.
  destruct (Base64.b64decode blob) as [z|e].
  - destruct H as [H1 H2]. rewrite H1. cbn [Nat.eqb].
    exists z. repeat split; [exact H2].
  - destruct H as [H1 (msg & ->)].
    destruct (Nat.eqb_spec (List.length (Base64.data_chars blob) mod 4) 0);
      [contradiction|].
    exists msg. reflexivity.
Qed.

(** *** The clusters under the second loop (lines 77-79) *)

(** X26.  When the loop over the live view of [id_to_cluster] returns, the
    dictionary holds the clusters it held before, each under the key it
    had or under the [int] of that key: the loop may leave a key uncast,
    but it loses no cluster and adds none. *)
Theorem cast_cluster_keys_keeps_every_cluster (d : Drain) :
  fst (cast_cluster_keys d) = Ok tt ->
  let before := id_to_cluster d in
  let after := id_to_cluster (snd (cast_cluster_keys d)) in
  Permutation (values after) (values before)
  /\ exists l,
       Permutation l (items before) /\ Forall2 rekeyed (items after) l.
Proof.
  unfold cast_cluster_keys, rekey_view. cbv zeta.
  destruct (rekey_loop _ _ _ _) as [[[[]|e] m]|] eqn:Hloop; cbn [fst snd];
    try discriminate.
  intros _. cbn [id_to_cluster set_id_to_cluster].
  destruct (DictFacts.rekey_loop_items _ _ _ _ _ Hloop) as (l & Hl & Hf).
  split; [|exists l; split; assumption].
  unfold values. rewrite <- Hl.
  assert (Hv : map snd (items m) = map snd l).
  { clear Hl Hloop. induction Hf as [|x y a b [Hxy _] _ IH]; cbn;
      [reflexivity | rewrite Hxy, IH; reflexivity]. }
  rewrite Hv. reflexivity.
Qed.

(** *** What [load_state] raises *)

Lemma cast_raises_ValueError (k : PyKey) (e : exn) :
  int_key k = Raise e -> exists msg, e = Exn "ValueError" msg.
Proof.
  destruct k as [z|s]; [discriminate|]. apply IntFacts.int_str_raises.
Qed.

Lemma restore_drain_raises (p : ProfRef) (state : bytes) (e : exn) :
  restore_drain p state = Raise e ->
  jsonpickle_loads state = Raise e
  \/ (exists msg, e = Exn "ValueError" msg)
  \/ (exists msg, e = Exn "RuntimeError" msg).
Proof.
  unfold restore_drain.
  destruct (jsonpickle_loads state) as [d0|e0]; [|intros H; left; exact H].
  pose proof (DictFacts.rekey_list_outcome interpreter
                (keys (key_to_child_node (root_node d0)))
                (key_to_child_node (root_node d0))
                (fun s => le_n _)) as H1.
  unfold cast_root_keys.
  destruct (rekey_list _ _ _) as [[[]|e1] m1]; cbn [fst] in H1.
  2:{ intros H. injection H as <-. right. left.
      destruct H1 as (k & _ & Hk). eapply cast_raises_ValueError, Hk. }
  unfold cast_cluster_keys, rekey_view.
  cbn [id_to_cluster set_root_children].
  pose proof (DictFacts.rekey_loop_terminates interpreter (id_to_cluster d0))
    as Hsome.
  destruct (rekey_loop _ _ _ _) as [[[[]|e2] m2]|] eqn:Hloop;
    try discriminate; [|contradiction].
  intros H. injection H as <-. right.
  destruct (DictFacts.rekey_loop_raises _ _ _ _ _ _ Hloop)
    as [Hr | (k & Hk)]; [right; exact Hr | left].
  eapply cast_raises_ValueError, Hk.
Qed.

(** X25.  The exceptions [load_state] can raise: [AttributeError] when
    there is no handler; what the handler's [load_state] raised; with
    compression, [binascii.Error] or what [zlib.decompress] raised; what
    [jsonpickle.loads] raised; [ValueError] for a key that is no literal
    of an [int]; [RuntimeError] from the iterator of the second loop.
    The loops never raise [KeyError]. *)
Theorem load_state_raises_only_these (st : State) (e : exn) :
  fst (load_state st) = Raise e ->
  (persistence_handler (self st) = None
   /\ e = Exn "AttributeError"
            "'NoneType' object has no attribute 'load_state'")
  \/ (exists h,
        persistence_handler (self st) = Some h
        /\ fst (ph_load_state h (w_store (world st))) = Raise e)
  \/ (snapshot_compress_state (config (self st)) = true
      /\ ((exists msg, e = Exn "binascii.Error" msg)
          \/ exists z, zlib_decompress z = Raise e))
  \/ (exists state, jsonpickle_loads state = Raise e)
  \/ (exists msg, e = Exn "ValueError" msg)
  \/ (exists msg, e = Exn "RuntimeError" msg).
Proof.
  rewrite load_state_run. cbv zeta.
  destruct (persistence_handler (self st)) as [h|];
    [|intros H; injection H as <-; left; split; reflexivity].
  destruct (fst (ph_load_state h _)) as [[blob|]|e0] eqn:Hl;
    [| discriminate
     | intros H; injection H as <-; right; left; exists h; split;
       [reflexivity | exact Hl]].
  destruct (decode_state _ blob) as [state|e0] eqn:Hd.
  - destruct (restore_drain _ state) as [d|e1] eqn:Hr; [discriminate|].
    intros H. injection H as <-. do 3 right.
    destruct (restore_drain_raises _ _ _ Hr) as [H | [H | H]]; eauto.
  - intros H. injection H as <-. right. right. left.
    unfold decode_state in Hd.
    destruct (snapshot_compress_state _); [|discriminate].
    split; [reflexivity|].
    destruct (Base64.b64decode blob) as [z|e1] eqn:Hb.
    + right. eauto.
    + injection Hd as <-. left.
      apply Base64Facts.a2b_base64_raises in Hb. exact Hb.
Qed.

(** *** Bytes behind the pad *)

(** X24.  With compression, when the text [save_state] wrote ends in a
    pad, [load_state] reads nothing behind it: whatever follows the text
    in the stored state, the bytes that go to zlib are the ones zlib
    wrote. *)
Theorem bytes_behind_the_pad_are_not_read (state rest : bytes) :
  (List.length (zlib_compress state) mod 3 <> 0)%nat ->
  decode_state true (encode_state true state ++ rest)
  = zlib_decompress (zlib_compress state).
Proof.
  intros H. unfold decode_state, encode_state.
  rewrite (Base64Facts.b64decode_padded _ rest H). reflexivity.
Qed.

(** *** The log of a construction *)

(** X22.  What [__init__] logs: its own line first; with a handler, the
    line of the check next, and when the construction succeeds either that
    nothing was found or the numbers of clusters and messages of the
    engine it installed.  A construction that fails logs nothing about the
    failure. *)
Theorem construction_logs_what_it_found
    (handler : option PersistenceHandler) (cfg : option TemplateMinerConfig)
    (w : World) :
  let r := init handler cfg w in
  let starting := "Starting Drain3 template miner" in
  let checking := "Checking for saved state" in
  match handler with
  | None => w_log (snd r) = starting :: w_log w
  | Some _ =>
      match fst r with
      | Ok tm =>
          w_log (snd r)
          = "Saved state not found" :: checking :: starting :: w_log w
          \/ w_log (snd r)
             = ("Restored " ++ str_int (len (Drain_clusters (drain tm)))
                ++ " clusters with "
                ++ str_int (Drain_get_total_cluster_size (drain tm))
                ++ " messages")%string
               :: checking :: starting :: w_log w
      | Raise _ => w_log (snd r) = checking :: starting :: w_log w
      end
  end.
Proof.
  cbv zeta. rewrite init_run. destruct handler as [h|]; [|reflexivity].
  rewrite load_state_run. cbv zeta.
  cbn [built self world persistence_handler config w_store w_log].
  destruct (fst (ph_load_state h (w_store w))) as [[blob|]|e];
    [| left; reflexivity | reflexivity].
  destruct (decode_state _ blob) as [state|e]; [|reflexivity].
  destruct (restore_drain _ state) as [d|e]; [|reflexivity].
  right. reflexivity.
Qed.

(** *** The calls of the profiler *)

Lemma journal_profiler_world (p : ProfRef) (ev : Q -> ProfEvent) (w : World)
    (j : list ProfEvent) :
  journal w p = Some j ->
  exists t, journal (profiler_world p ev w) p = Some (j ++ [ev t]).
Proof.
  unfold journal, profiler_world.
  destruct (nth_error (w_heap w) p) as [[|j0]|] eqn:E; try discriminate.
  intros H. injection H as ->. exists (w_clock w (w_ticks w)).
  cbn [w_heap]. erewrite nth_error_store_at by eassumption. reflexivity.
Qed.

Lemma journal_heap (p : ProfRef) (w w' : World) :
  w_heap w' = w_heap w -> journal w' p = journal w p.
Proof. unfold journal. intros ->. reflexivity. Qed.

(** X23.  The calls one message makes on an active profiler, in their
    order: [total] is started, [mask] started and ended, [drain] started
    and ended; with a handler [save_state] is started; then [save_state]
    and [total] are ended and the report is asked for.  When the handler's
    [save_state] raises, the last three calls are not made: the sections
    [save_state] and [total] stay started. *)
Theorem profiler_calls_of_one_message (st : State) (msg : string)
    (j : list ProfEvent) :
  journal (world st) (tm_profiler (self st)) = Some j ->
  let r := add_log_message msg st in
  exists new,
    journal (world (snd r)) (tm_profiler (self st)) = Some (j ++ new)
    /\ map without_time new
       = [SectionStarted "total" 0; SectionStarted "mask" 0;
          SectionEnded "" 0; SectionStarted "drain" 0;
          SectionEnded "drain" 0]
         ++ match persistence_handler (self st), fst r with
            | None, _ =>
                [SectionEnded "total" 0;
                 ReportChecked (profiling_report_sec (config (self st))) 0]
            | Some _, Ok _ =>
                [SectionStarted "save_state" 0; SectionEnded "" 0;
                 SectionEnded "total" 0;
                 ReportChecked (profiling_report_sec (config (self st))) 0]
            | Some _, Raise _ => [SectionStarted "save_state" 0]
            end.
Proof.
  destruct st as [[cfg p ph d mk lst] w].
  cbn [self world tm_profiler persistence_handler config].
  intros Hj. cbv zeta.
  pose proof (add_log_message_run
                (mkState (mkMiner cfg p ph d mk lst) w) msg) as R.
  cbv zeta in R. cbn [self world persistence_handler tm_profiler] in R.
  destruct (engine_step _ msg) as [[cluster ct] d'].
  rewrite R. clear R.
  destruct (journal_profiler_world p (SectionStarted "total") w j Hj)
    as [t1 J1].
  destruct (journal_profiler_world p (SectionStarted "mask") _ _ J1)
    as [t2 J2].
  destruct (journal_profiler_world p (SectionEnded "") _ _ J2) as [t3 J3].
  destruct (journal_profiler_world p (SectionStarted "drain") _ _ J3)
    as [t4 J4].
  destruct (journal_profiler_world p (SectionEnded "drain") _ _ J4)
    as [t5 J5].
  fold (answered p w) in J5. rewrite <- !app_assoc in J5. cbn [app] in J5.
  clear J1 J2 J3 J4.
  destruct ph as [h|].
  2:{ cbn [fst snd world self config]. unfold closed.
      destruct (journal_profiler_world p (SectionEnded "total") _ _ J5)
        as [t6 J6].
      destruct (journal_profiler_world p (ReportChecked
                  (profiling_report_sec cfg)) _ _ J6) as [t7 J7].
      rewrite <- !app_assoc in J7. cbn [app] in J7.
      eexists. split; [exact J7 | reflexivity]. }
  rewrite snapshot_if_due_run. cbv zeta.
  cbn [self world persistence_handler tm_profiler set_drain].
  destruct (journal_profiler_world p (SectionStarted "save_state") _ _ J5)
    as [t6 J6].
  rewrite <- !app_assoc in J6. cbn [app] in J6.
  match goal with
  | |- context [snapshot_blob _ (w_heap ?x)] => set (w1 := x)
  end.
  assert (W1 : w_heap w1
               = w_heap (profiler_world p (SectionStarted "save_state")
                                        (answered p w))).
  { unfold w1. destruct (negb (ct =? "none")%string); reflexivity. }
  rewrite <- (journal_heap p _ _ W1) in J6. clearbody w1. clear W1 J5.
  destruct (reason_at _ ct cluster _) as [reason|].
  2:{ cbn [fst snd world self config]. unfold closed.
      destruct (journal_profiler_world p (SectionEnded "") _ _ J6)
        as [t7 J7].
      destruct (journal_profiler_world p (SectionEnded "total") _ _ J7)
        as [t8 J8].
      destruct (journal_profiler_world p (ReportChecked
                  (profiling_report_sec cfg)) _ _ J8) as [t9 J9].
      rewrite <- !app_assoc in J9. cbn [app] in J9.
      eexists. split; [exact J9 | reflexivity]. }
  destruct (ph_save_state h _ _) as [[[]|e] s'];
    cbn [fst snd world self config set_last_save_time].
  - unfold closed.
    match goal with
    | |- context [profiler_world p (SectionEnded "") ?x] =>
        assert (J6' : journal x p = Some (j ++ _)) by
          (rewrite (journal_heap p w1 x eq_refl); exact J6)
    end.
    destruct (journal_profiler_world p (SectionEnded "") _ _ J6')
      as [t7 J7].
    destruct (journal_profiler_world p (SectionEnded "total") _ _ J7)
      as [t8 J8].
    destruct (journal_profiler_world p (ReportChecked
                (profiling_report_sec cfg)) _ _ J8) as [t9 J9].
    rewrite <- !app_assoc in J9. cbn [app] in J9.
    eexists. split; [exact J9 | reflexivity].
  - match goal with
    | |- context [journal ?x p] =>
        rewrite (journal_heap p w1 x eq_refl)
    end.
    eexists. split; [exact J6 | reflexivity].
Qed.

(** *** The line and its masked content *)

(** X27.  Of a line, [add_log_message] uses nothing but its masked
    content: two lines that the masker maps to the same text get the same
    outcome and leave the same controller and the same world; the line as
    it came reaches neither the engine nor the record nor the snapshot. *)
Theorem lines_that_mask_alike_are_answered_alike (st : State)
    (line1 line2 : string) :
  mask (masker (self st)) line1 = mask (masker (self st)) line2 ->
  add_log_message line1 st = add_log_message line2 st.
Proof.
  intros H.
  pose proof (add_log_message_run st line1) as R1.
  pose proof (add_log_message_run st line2) as R2.
  cbv zeta in R1, R2. unfold engine_step in R1, R2. rewrite H in R1.
  destruct (Drain_add_log_message _ _) as [[cluster ct] d'].
  rewrite R1, R2. reflexivity.
Qed.

End Facts.

(** * Concrete runs *)

#[local] Existing Instance Demo.types.

Example six_clusters_blob :
  option_map string_of_list_byte Demo.six_clusters
  = Some ("root 1 2 3" ++ Demo.newline ++ "1 1 a" ++ Demo.newline
          ++ "2 1 b b" ++ Demo.newline ++ "3 1 c c c" ++ Demo.newline
          ++ "4 1 d" ++ Demo.newline ++ "5 1 e" ++ Demo.newline
          ++ "6 1 f" ++ Demo.newline)%string.
Proof. vm_compute. reflexivity. Qed.

Example one_cluster_blob :
  option_map string_of_list_byte Demo.one_cluster
  = Some "eAEBEQDu/3Jvb3QgMwoxIDEgYSBiIGMKKu4ENA==".
Proof. vm_compute. reflexivity. Qed.

(** The scenario of three identical lines with an interval of one second
    and readings of the clock 0.6 s apart: the first line creates a
    cluster and is saved at once, the second is not saved, the third is
    saved as periodic. *)
Example three_identical_lines :
  let st := Demo.session Py311 (Some Demo.memory_buffer)
              (Demo.config_with false false (1 # 60))
              (Demo.world_of (6 # 10) None) ["a b c"; "a b c"; "a b c"] in
  rev (w_log (world st))
  = ["Starting Drain3 template miner"; "Checking for saved state";
     "Saved state not found";
     "Saving state of 1 clusters with 1 messages, 17 bytes, reason: cluster_created (1)";
     "Saving state of 1 clusters with 3 messages, 17 bytes, reason: periodic"]
  /\ values (id_to_cluster (drain (self st))) = [mkLogCluster 1 3 "a b c"].
Proof. vm_compute. repeat split. Qed.

(** ** C1 *)

Lemma structural_change_snapshots_at_once_witness :
  let C := Demo.collaborators Py311 in
  let st := Demo.started Py311 (Some Demo.memory_buffer)
                         (Demo.config_with false false 5)
                         (Demo.world_of 1 None) in
  let step := engine_step (self st) "a b c" in
  (persistence_handler (self st) = Some Demo.memory_buffer
   /\ step = (mkLogCluster 1 1 "a b c", "cluster_created", snd step)
   /\ "cluster_created" <> "none")
  /\ (forall st0 : State,
         get_snapshot_reason "cluster_created" 1 st0
         = (Ok (Some "cluster_created (1)"), st0))
  /\ exists blob,
       w_saved (world (snd (add_log_message "a b c" st)))
       = blob :: w_saved (world st)
       /\ w_log (world (snd (add_log_message "a b c" st)))
          = saving_message (snd step) blob "cluster_created (1)"
              :: w_log (world st).
Proof.
  intros C st step.
  assert (H1 : persistence_handler (self st) = Some Demo.memory_buffer)
    by reflexivity.
  assert (H2 : step = (mkLogCluster 1 1 "a b c", "cluster_created", snd step))
    by (vm_compute; reflexivity).
  assert (H3 : "cluster_created" <> "none") by discriminate.
  split; [repeat apply conj; assumption|].
  exact (structural_change_snapshots_at_once st "a b c" Demo.memory_buffer
           (mkLogCluster 1 1 "a b c") "cluster_created" (snd step) H1 H2 H3).
Defined.

(** ** C2 *)

(** C2, as stated, fails.  With a handler and the interval option set to
    1, thirty seconds after the last save the elapsed time is above the
    option's number, yet nothing is saved: the option counts minutes. *)
Lemma unchanged_line_is_not_saved_by_the_option_in_seconds :
  let C := Demo.collaborators Py311 in
  let cfg := Demo.config_with false false 1 in
  let st := Demo.session Py311 (Some Demo.memory_buffer) cfg
                         (Demo.world_of 30 None) ["a b c"] in
  let now := w_clock (world st) (w_ticks (world st)) in
  let diff_time_sec := float_sub now (last_save_time (self st)) in
  persistence_handler (self st) = Some Demo.memory_buffer
  /\ snd (fst (engine_step (self st) "a b c")) = "none"
  /\ snapshot_interval_minutes (config (self st)) == 1
  /\ float_le diff_time_sec (Finite 30) = true
  /\ float_ge diff_time_sec (Finite 30) = true
  /\ float_ge diff_time_sec
              (Finite (snapshot_interval_minutes (config (self st)))) = true
  /\ w_saved (world (snd (add_log_message "a b c" st))) = w_saved (world st).
Proof. vm_compute. repeat split. Qed.

Lemma periodic_snapshot_when_due_witness :
  let C := Demo.collaborators Py311 in
  let st := Demo.a_minute_later in
  let step := engine_step (self st) "a b c" in
  let w := world st in
  let st' := snd (add_log_message "a b c" st) in
  (persistence_handler (self st) = Some Demo.memory_buffer
   /\ step = (mkLogCluster 1 2 "a b c", "none", snd step))
  /\ exists asked : nat,
       (w_ticks w <= asked < w_ticks (world st'))%nat
       /\ (clock_reads w (tm_profiler (self st)) = 0%nat -> asked = w_ticks w)
       /\ let now := w_clock w asked in
          let diff_time_sec := float_sub now (last_save_time (self st)) in
          let due :=
            float_ge diff_time_sec
              (float_mul (snapshot_interval_minutes (config (self st))) 60)
            = true in
          (due ->
           exists blob,
             w_saved (world st') = blob :: w_saved w
             /\ w_log (world st')
                = saving_message (snd step) blob "periodic" :: w_log w)
          /\ (~ due ->
              w_saved (world st') = w_saved w /\ w_log (world st') = w_log w).
Proof.
  intros C st step w st'.
  assert (H1 : persistence_handler (self st) = Some Demo.memory_buffer)
    by reflexivity.
  assert (H2 : step = (mkLogCluster 1 2 "a b c", "none", snd step))
    by (vm_compute; reflexivity).
  split; [split; assumption|].
  exact (periodic_snapshot_when_due st "a b c" Demo.memory_buffer
           (mkLogCluster 1 2 "a b c") (snd step) H1 H2).
Defined.

(** In that session the snapshot is due, and taken: the two readings are
    floats, their exact difference is below sixty seconds, and the
    difference the subtraction gives is the float 60.0. *)
Example a_minute_that_the_subtraction_rounds_up :
  let C := Demo.collaborators Py311 in
  let st := Demo.a_minute_later in
  let w := world st in
  let now := w_clock w (w_ticks w) in
  let st' := snd (add_log_message "a b c" st) in
  is_float now = true
  /\ is_float (last_save_time (self st)) = true
  /\ (now - last_save_time (self st) < 60)%Q
  /\ float_ge (float_sub now (last_save_time (self st)))
              (float_mul (snapshot_interval_minutes (config (self st))) 60)
     = true
  /\ List.length (w_saved (world st')) = S (List.length (w_saved w))
  /\ hd "" (w_log (world st'))
     = "Saving state of 1 clusters with 2 messages, 17 bytes, reason: periodic".
Proof. vm_compute. repeat split. Qed.

(** With the interval option set to the float 0.1, six seconds are
    enough: the product with 60 is the float 6.0. *)
Example a_tenth_of_a_minute_is_six_seconds :
  let interval : Q := 3602879701896397 # 36028797018963968 in
  is_float interval = true
  /\ (6 < interval * 60)%Q
  /\ float_ge (float_sub 6 0) (float_mul interval 60) = true.
Proof. vm_compute. repeat split. Qed.

(** ** C3 *)

(** The loop of lines 77-79 on a dictionary of six [str] keys, as any
    CPython from 3.11 on runs it: it ends without an error and the key
    ["2"] is still a [str]. *)
Example rekey_view_skips_a_key :
  let d := dict_of Py311
             (map (fun n => (KStr (str_int n), n)) [1; 2; 3; 4; 5; 6]) in
  fst (rekey_view Py311 d) = Ok tt
  /\ keys (snd (rekey_view Py311 d))
     = [KStr "2"; KInt 3; KInt 4; KInt 5; KInt 6; KInt 1]
  /\ fst (rekey_list Py311 (keys d) d) = Ok tt
  /\ keys (snd (rekey_list Py311 (keys d) d))
     = [KInt 1; KInt 2; KInt 3; KInt 4; KInt 5; KInt 6].
Proof. vm_compute. repeat split. Qed.

(** C3, at the failing input.  A controller is constructed over the
    snapshot an earlier session left after six different lines.  From
    CPython 3.11 on and on 3.7 the construction succeeds and a key of
    [id_to_cluster] is still a [str]; from 3.8 to 3.10 the construction
    raises [RuntimeError].  The keys of the root's children are [int]s
    wherever the construction succeeds. *)
Theorem restore_of_six_clusters_keeps_a_str_key_or_raises :
  let restored py :=
    fst (init (C := Demo.collaborators py) (Some Demo.memory_buffer)
              (Some (Demo.config_with false false 5))
              (Demo.world_of 1 Demo.six_clusters)) in
  let keys_of py :=
    match restored py with
    | Ok tm => Ok (keys (id_to_cluster (drain tm)),
                   keys (key_to_child_node (root_node (drain tm))))
    | Raise e => Raise e
    end in
  let changed :=
    Exn "RuntimeError" "dictionary keys changed during iteration" in
  keys_of Py311
  = Ok ([KStr "2"; KInt 3; KInt 4; KInt 5; KInt 6; KInt 1],
        [KInt 1; KInt 2; KInt 3])
  /\ keys_of Py310 = Raise changed
  /\ keys_of Py38 = Raise changed
  /\ keys_of Py37
     = Ok ([KStr "6"; KInt 1; KInt 2; KInt 3; KInt 4; KInt 5],
           [KInt 1; KInt 2; KInt 3]).
Proof. vm_compute. repeat split. Qed.

(** From 3.8 to 3.10 the snapshot of a single cluster is not restored
    either. *)
Example restore_of_one_cluster_raises :
  fst (init (C := Demo.collaborators Py38) (Some Demo.memory_buffer)
            (Some (Demo.config_with false true 5))
            (Demo.world_of 1 Demo.one_cluster))
  = Raise (Exn "RuntimeError" "dictionary keys changed during iteration").
Proof. vm_compute. reflexivity. Qed.

(** ** C4 *)

Lemma decode_state_encode_state_witness :
  let C := Demo.collaborators Py311 in
  let s := list_byte_of_string "root 3" in
  zlib_decompress (zlib_compress s) = Ok s
  /\ decode_state true (encode_state true s) = Ok s.
Proof.
  intros C s.
  assert (H : zlib_decompress (zlib_compress s) = Ok s)
    by (vm_compute; reflexivity).
  split; [exact H | exact (decode_state_encode_state s H)].
Defined.

(** ** C5 *)

(** C5, as stated, fails when the store cannot be written: it has nothing
    to load, the construction succeeds, and the first line raises where
    the controller without a store returns its record. *)
Lemma first_message_differs_when_the_store_cannot_save :
  let C := Demo.collaborators Py311 in
  let cfg := Demo.config_with false false 5 in
  let w := Demo.world_of 1 None in
  fst (ph_load_state Demo.read_only (w_store w)) = Ok None
  /\ fst (add_log_message "a b c"
            (Demo.started Py311 (Some Demo.read_only) cfg w))
     = Raise (Exn "PermissionError" "[Errno 13] Permission denied")
  /\ fst (add_log_message "a b c" (Demo.started Py311 None cfg w))
     = Ok [("change_type", VStr "cluster_created"); ("cluster_id", VInt 1);
           ("cluster_size", VInt 1); ("template_mined", VStr "a b c");
           ("cluster_count", VInt 1)].
Proof. vm_compute. repeat split. Qed.

Lemma empty_store_startup_witness :
  let C := Demo.collaborators Py311 in
  let h := Demo.memory_buffer in
  let cfg := Some (Demo.config_with false false 5) in
  let w := Demo.world_of 1 None in
  let st := built (Some h) cfg w in
  (fst (ph_load_state h (w_store w)) = Ok None
   /\ forall sim_th depth max_children max_clusters extra_delimiters p,
        Drain_clusters
          (Drain_init sim_th depth max_children max_clusters
                      extra_delimiters p) = [])
  /\ fst (load_state st) = Ok tt
  /\ self (snd (load_state st)) = self st
  /\ exists tm w' tm0 w0,
       init (Some h) cfg w = (Ok tm, w')
       /\ init None cfg w = (Ok tm0, w0)
       /\ drain tm = drain tm0
       /\ len (Drain_clusters (drain tm)) = 0
       /\ let r := add_log_message "a b c" (mkState tm w') in
          let r0 := add_log_message "a b c" (mkState tm0 w0) in
          drain (self (snd r)) = drain (self (snd r0))
          /\ (fst r = fst r0
              \/ exists blob e,
                   fst (ph_save_state h blob (w_store w')) = Raise e
                   /\ fst r = Raise e).
Proof.
  intros C h cfg w st.
  assert (H1 : fst (ph_load_state h (w_store w)) = Ok None) by reflexivity.
  assert (H2 : forall sim_th depth max_children max_clusters
                      extra_delimiters p,
             Drain_clusters
               (Drain_init sim_th depth max_children max_clusters
                           extra_delimiters p) = [])
    by (intros; reflexivity).
  split; [split; assumption|].
  exact (empty_store_startup h cfg w "a b c" H1 H2).
Defined.

(** ** C6 *)

Lemma corrupt_snapshot_is_fatal_witness :
  let C := Demo.collaborators Py311 in
  let h := Demo.memory_buffer in
  let cfg := Demo.config_with false true 5 in
  let blob := list_byte_of_string "a" in
  let w := Demo.world_of 1 (Some blob) in
  let e :=
    Exn "binascii.Error"
        "Invalid base64-encoded string: number of data characters (1) cannot be 1 more than a multiple of 4" in
  let st := built (Some h) (Some cfg) w in
  (fst (ph_load_state h (w_store w)) = Ok (Some blob)
   /\ snapshot_compress_state cfg = true
   /\ Base64.b64decode blob = Raise e)
  /\ fst (load_state st) = Raise e
  /\ self (snd (load_state st)) = self st
  /\ fst (init (Some h) (Some cfg) w) = Raise e.
Proof.
  intros C h cfg blob w e st.
  assert (H1 : fst (ph_load_state h (w_store w)) = Ok (Some blob))
    by reflexivity.
  assert (H2 : snapshot_compress_state cfg = true) by reflexivity.
  assert (H3 : Base64.b64decode blob = Raise e) by reflexivity.
  split; [repeat apply conj; assumption|].
  exact (corrupt_snapshot_is_fatal h cfg w blob e H1
           (or_introl (conj H2 H3))).
Defined.

(** ** C8 *)

Lemma add_log_message_returns_result_record_witness :
  let C := Demo.collaborators Py311 in
  let st := Demo.session Py311 (Some Demo.memory_buffer)
                         (Demo.config_with true true 5)
                         (Demo.world_of 1 None) ["a b c"; "x y"] in
  let step := engine_step (self st) "a b c" in
  step = (mkLogCluster 1 2 "a b c", "none", snd step)
  /\ drain (self (snd (add_log_message "a b c" st))) = snd step
  /\ (fst (add_log_message "a b c" st)
      = Ok [("change_type", VStr "none"); ("cluster_id", VInt 1);
            ("cluster_size", VInt 2); ("template_mined", VStr "a b c");
            ("cluster_count", VInt (len (Drain_clusters (snd step))))]
      \/ exists h blob e,
           persistence_handler (self st) = Some h
           /\ fst (ph_save_state h blob (w_store (world st))) = Raise e
           /\ fst (add_log_message "a b c" st) = Raise e).
Proof.
  intros C st step.
  assert (H : step = (mkLogCluster 1 2 "a b c", "none", snd step))
    by (vm_compute; reflexivity).
  split; [exact H|].
  exact (add_log_message_returns_result_record st "a b c"
           (mkLogCluster 1 2 "a b c") "none" (snd step) H).
Defined.

(** ** C9 *)

Lemma restored_engine_refers_to_live_profiler_witness :
  let C := Demo.collaborators Py311 in
  let h := Demo.memory_buffer in
  let cfg := Demo.config_with true true 5 in
  let st := built (Some h) (Some cfg) (Demo.world_of 1 Demo.one_cluster) in
  let st' := snd (load_state st) in
  let blob := list_byte_of_string "eAEBEQDu/3Jvb3QgMwoxIDEgYSBiIGMKKu4ENA==" in
  (persistence_handler (self st) = Some h
   /\ fst (ph_load_state h (w_store (world st))) = Ok (Some blob)
   /\ load_state st = (Ok tt, st'))
  /\ tm_profiler (self st') = tm_profiler (self st)
  /\ profiler (drain (self st')) = tm_profiler (self st)
  /\ exists state deserialised,
       decode_state (snapshot_compress_state (config (self st))) blob
       = Ok state
       /\ jsonpickle_loads state = Ok deserialised
       /\ set_profiler (drain (self st')) (profiler deserialised)
          = snd (cast_cluster_keys (snd (cast_root_keys deserialised))).
Proof.
  intros C h cfg st st' blob.
  assert (H1 : persistence_handler (self st) = Some h) by reflexivity.
  assert (H2 : fst (ph_load_state h (w_store (world st))) = Ok (Some blob))
    by (vm_compute; reflexivity).
  assert (H3 : load_state st = (Ok tt, st')) by (vm_compute; reflexivity).
  split; [repeat apply conj; assumption|].
  exact (restored_engine_refers_to_live_profiler st st' h blob H1 H2 H3).
Defined.

(** In that run the controller's profiler is the second object of the heap
    and the deserialised engine referred to another one. *)
Example restored_profiler_replaces_the_stale_one :
  let C := Demo.collaborators Py311 in
  let st := built (Some Demo.memory_buffer)
                  (Some (Demo.config_with true true 5))
                  (Demo.world_of 1 Demo.one_cluster) in
  tm_profiler (self st) = 1%nat
  /\ profiler (drain (self (snd (load_state st)))) = 1%nat
  /\ jsonpickle_loads (list_byte_of_string ("root 3" ++ Demo.newline
                        ++ "1 1 a b c" ++ Demo.newline))
     = Ok (mkDrain
             (mkNode (dict_of Py311 [(KStr "3", mkNode empty_dict)]))
             (dict_of Py311 [(KStr "1", mkLogCluster 1 1 "a b c")])
             Demo.stale_profiler tt).
Proof. vm_compute. repeat split. Qed.

(** ** C10 *)

Lemma demo_engine_is_profiler_blind (py : CPython) :
  profiler_blind (C := Demo.collaborators py).
Proof.
  unfold profiler_blind, same_engine, set_profiler. cbn.
  repeat apply conj.
  - reflexivity.
  - intros [r1 m1 p1 []] [r2 m2 p2 []] content H. cbn in H.
    injection H as -> ->. unfold Demo.engine_add. cbn.
    destruct (find _ _) as [[k c]|]; cbn; split; reflexivity.
  - intros [r1 m1 p1 []] [r2 m2 p2 []] H. cbn in H.
    injection H as -> ->. reflexivity.
Qed.

Lemma result_records_independent_of_profiling_witness :
  let C := Demo.collaborators Py311 in
  let handler := Some Demo.memory_buffer in
  let cfg := Demo.config_with false true (1 # 60) in
  let w := Demo.world_of 1 None in
  (profiler_blind /\ w_store w = w_store w)
  /\ match init handler (Some (set_profiling_enabled cfg false)) w,
           init handler (Some (set_profiling_enabled cfg true)) w with
     | (Ok tm1, w1'), (Ok tm2, w2') =>
         let out1 :=
           fst (add_log_messages Demo.six_lines (mkState tm1 w1')) in
         let out2 :=
           fst (add_log_messages Demo.six_lines (mkState tm2 w2')) in
         Forall2 agree out1 out2
         /\ (never_fails handler ->
             out1 = out2 /\ Forall (fun o => exists r, o = Ok r) out1)
     | (Raise e1, _), (Raise e2, _) => e1 = e2
     | _, _ => False
     end.
Proof.
  intros C handler cfg w.
  assert (H1 : profiler_blind) by apply demo_engine_is_profiler_blind.
  assert (H2 : w_store w = w_store w) by reflexivity.
  split; [split; assumption|].
  exact (result_records_independent_of_profiling handler cfg w w
           Demo.six_lines H1 H2).
Defined.

(** The two runs of that witness: the same records, while the active
    profiler read the clock more often and so saved at other times. *)
Example profiling_changes_the_saves_not_the_records :
  let cfg := Demo.config_with false true (1 # 60) in
  let lines := ["a"; "a"; "a"; "a"; "a"; "a"] in
  let run b :=
    add_log_messages (C := Demo.collaborators Py311) lines
      (Demo.started Py311 (Some Demo.memory_buffer)
                    (set_profiling_enabled cfg b) (Demo.world_of (1 # 4) None)) in
  fst (run false) = fst (run true)
  /\ List.length (w_saved (world (snd (run false)))) = 2%nat
  /\ List.length (w_saved (world (snd (run true)))) = 6%nat.
Proof. vm_compute. repeat split. Qed.

(** ** Further properties, at concrete inputs *)

Lemma world_of_monotone (step : Q) (stored : option bytes) :
  (0 <= step)%Q -> clock_monotone (Demo.world_of step stored).
Proof.
  intros Hs m n Hmn. cbn.
  apply Qmult_le_compat_r; [|exact Hs].
  rewrite <- Zle_Qle. lia.
Qed.

Lemma memory_buffer_loads_what_it_saved :
  loads_what_it_saved Demo.memory_buffer.
Proof. intros blob s s' H. cbn in H. injection H as <-. reflexivity. Qed.

Lemma cast_root_keys_keeps_the_children_in_order_witness :
  let C := Demo.collaborators Py311 in
  let leaf := mkNode empty_dict in
  let d :=
    mkDrain
      (mkNode (dict_of Py311
                 [(KStr "3", leaf);
                  (KStr " 1", mkNode (dict_of Py311 [(KInt 7, leaf)]));
                  (KInt 2, leaf)]))
      empty_dict 0%nat tt in
  let zs := [3; 1; 2] in
  (map int_key (keys (key_to_child_node (root_node d))) = map Ok zs
   /\ NoDup zs)
  /\ exists m,
       cast_root_keys d = (Ok tt, set_root_children d m)
       /\ keys m = map KInt zs
       /\ values m = values (key_to_child_node (root_node d)).
Proof.
  intros C leaf d zs.
  assert (H1 : map int_key (keys (key_to_child_node (root_node d)))
               = map Ok zs) by (vm_compute; reflexivity).
  assert (H2 : NoDup zs).
  { repeat (constructor; [cbn; intuition discriminate|]). constructor. }
  split; [split; assumption|].
  exact (cast_root_keys_keeps_the_children_in_order d zs H1 H2).
Defined.

Lemma load_state_installs_int_keys_at_the_root_witness :
  let C := Demo.collaborators Py311 in
  let h := Demo.memory_buffer in
  let cfg := Demo.config_with true true 5 in
  let st := built (Some h) (Some cfg) (Demo.world_of 1 Demo.one_cluster) in
  let st' := snd (load_state st) in
  let blob := list_byte_of_string "eAEBEQDu/3Jvb3QgMwoxIDEgYSBiIGMKKu4ENA==" in
  (persistence_handler (self st) = Some h
   /\ fst (ph_load_state h (w_store (world st))) = Ok (Some blob)
   /\ load_state st = (Ok tt, st'))
  /\ forallb is_int_key
       (keys (key_to_child_node (root_node (drain (self st'))))) = true.
Proof.
  intros C h cfg st st' blob.
  assert (H1 : persistence_handler (self st) = Some h) by reflexivity.
  assert (H2 : fst (ph_load_state h (w_store (world st))) = Ok (Some blob))
    by (vm_compute; reflexivity).
  assert (H3 : load_state st = (Ok tt, st')) by (vm_compute; reflexivity).
  split; [repeat apply conj; assumption|].
  exact (load_state_installs_int_keys_at_the_root st st' h blob H1 H2 H3).
Defined.

Lemma unpadded_snapshot_needs_whole_groups_witness :
  let C := Demo.collaborators Py311 in
  let blob := list_byte_of_string "QUJD" in
  ~ In Base64.BASE64_PAD blob
  /\ let n := List.length (Base64.data_chars blob) in
     if (n mod 4 =? 0)%nat
     then exists z,
            Base64.b64decode blob = Ok z
            /\ (4 * List.length z = 3 * n)%nat
            /\ decode_state true blob = zlib_decompress z
     else exists msg,
            decode_state true blob = Raise (Base64.binascii_Error msg).
Proof.
  intros C blob.
  assert (H : ~ In Base64.BASE64_PAD blob).
  { cbn. intuition discriminate. }
  split; [exact H|].
  exact (unpadded_snapshot_needs_whole_groups blob H).
Defined.

Lemma last_save_time_is_an_earlier_reading_witness :
  let C := Demo.collaborators Py311 in
  let handler := Some Demo.memory_buffer in
  let cfg := Some (Demo.config_with true true (1 # 60)) in
  let w := Demo.world_of 1 None in
  let st := Demo.started Py311 handler (Demo.config_with true true (1 # 60)) w in
  let msgs := ["a"; "a"; "b"] in
  init handler cfg w = (Ok (self st), world st)
  /\ last_save_is_a_reading
       (snd (add_log_messages msgs (mkState (self st) (world st)))).
Proof.
  intros C handler cfg w st msgs.
  assert (H : init handler cfg w = (Ok (self st), world st))
    by (vm_compute; reflexivity).
  split; [exact H|].
  exact (last_save_time_is_an_earlier_reading handler cfg w (self st)
           (world st) msgs H).
Defined.

Lemma interval_not_positive_saves_at_every_message_witness :
  let C := Demo.collaborators Py311 in
  let h := Demo.memory_buffer in
  let cfg := Some (Demo.config_with false false 0) in
  let w := Demo.world_of 1 None in
  let st := Demo.started Py311 (Some h) (Demo.config_with false false 0) w in
  let msgs := ["a"; "a"; "b"] in
  (init (Some h) cfg w = (Ok (self st), world st)
   /\ profiling_enabled (config (self st)) = false
   /\ clock_monotone w
   /\ (snapshot_interval_minutes (config (self st)) <= 0)%Q)
  /\ List.length
       (w_saved (world (snd (add_log_messages msgs
                               (mkState (self st) (world st))))))
     = (List.length (w_saved w) + List.length msgs)%nat.
Proof.
  intros C h cfg w st msgs.
  assert (H1 : init (Some h) cfg w = (Ok (self st), world st))
    by (vm_compute; reflexivity).
  assert (H2 : profiling_enabled (config (self st)) = false) by reflexivity.
  assert (H3 : clock_monotone w) by (apply world_of_monotone; discriminate).
  assert (H4 : (snapshot_interval_minutes (config (self st)) <= 0)%Q)
    by discriminate.
  split; [repeat apply conj; assumption|].
  exact (interval_not_positive_saves_at_every_message h cfg w (self st)
           (world st) msgs H1 H2 H3 H4).
Defined.

Lemma failed_periodic_save_is_tried_again_witness :
  let C := Demo.collaborators Py311 in
  let h := Demo.read_only in
  let st := Demo.session Py311 (Some h) (Demo.config_with false false (1 # 60))
                         (Demo.world_of 30 None) ["a b c"] in
  let step := engine_step (self st) "a b c" in
  let e := Exn "PermissionError" "[Errno 13] Permission denied" in
  let st1 := snd (add_log_message "a b c" st) in
  (persistence_handler (self st) = Some h
   /\ nth_error (w_heap (world st)) (tm_profiler (self st))
      = Some NullProfiler
   /\ clock_monotone (world st)
   /\ step = (mkLogCluster 1 2 "a b c", "none", snd step)
   /\ fst (add_log_message "a b c" st) = Raise e)
  /\ exists blob,
       w_saved (world (snd (add_log_message "x y" st1)))
       = blob :: w_saved (world st1).
Proof.
  intros C h st step e st1.
  assert (H1 : persistence_handler (self st) = Some h) by reflexivity.
  assert (H2 : nth_error (w_heap (world st)) (tm_profiler (self st))
               = Some NullProfiler) by (vm_compute; reflexivity).
  assert (H3 : clock_monotone (world st)).
  { assert (Hw : w_clock (world st) = w_clock (Demo.world_of 30 None))
      by (vm_compute; reflexivity).
    unfold clock_monotone. rewrite Hw.
    apply (world_of_monotone 30 None). discriminate. }
  assert (H4 : step = (mkLogCluster 1 2 "a b c", "none", snd step))
    by (vm_compute; reflexivity).
  assert (H5 : fst (add_log_message "a b c" st) = Raise e)
    by (vm_compute; reflexivity).
  split; [repeat apply conj; assumption|].
  exact (failed_periodic_save_is_tried_again st "a b c" "x y" h
           (mkLogCluster 1 2 "a b c") (snd step) e H1 H2 H3 H4 H5).
Defined.

Lemma methods_that_need_a_handler_raise_without_one_witness :
  let C := Demo.collaborators Py311 in
  let st := Demo.started Py311 None (Demo.config_with false false 5)
                         (Demo.world_of 1 None) in
  persistence_handler (self st) = None
  /\ load_state st
     = (Raise (Exn "AttributeError"
                   "'NoneType' object has no attribute 'load_state'"),
        mkState (self st)
                (set_log (world st)
                         ("Checking for saved state" :: w_log (world st))))
  /\ save_state "on demand" st
     = (Raise (Exn "AttributeError"
                   "'NoneType' object has no attribute 'save_state'"),
        mkState (self st)
          (set_log (world st)
             (saving_message (drain (self st))
                (snapshot_blob (self st) (w_heap (world st))) "on demand"
              :: w_log (world st)))).
Proof.
  intros C st.
  assert (H : persistence_handler (self st) = None) by reflexivity.
  split; [exact H|].
  exact (methods_that_need_a_handler_raise_without_one st "on demand" H).
Defined.

Lemma load_state_reads_what_save_state_wrote_witness :
  let C := Demo.collaborators Py311 in
  let h := Demo.memory_buffer in
  let cfg := Demo.config_with false true 5 in
  let st := Demo.session Py311 (Some h) cfg (Demo.world_of 1 None)
                         ["a b c"; "a b c"] in
  let st' := snd (save_state "on demand" st) in
  let st2 := built (Some h) (Some cfg)
                   (Demo.world_of 1 (w_store (world st'))) in
  let text :=
    list_byte_of_string
      (jsonpickle_dumps (drain (self st)) (w_heap (world st))) in
  (persistence_handler (self st) = Some h
   /\ loads_what_it_saved h
   /\ (snapshot_compress_state (config (self st)) = true ->
       zlib_decompress (zlib_compress text) = Ok text)
   /\ save_state "on demand" st = (Ok tt, st')
   /\ persistence_handler (self st2) = Some h
   /\ snapshot_compress_state (config (self st2))
      = snapshot_compress_state (config (self st))
   /\ w_store (world st2) = w_store (world st'))
  /\ match restore_drain (tm_profiler (self st2)) text with
     | Ok d =>
         fst (load_state st2) = Ok tt
         /\ self (snd (load_state st2)) = set_drain (self st2) d
     | Raise e =>
         fst (load_state st2) = Raise e
         /\ self (snd (load_state st2)) = self st2
     end.
Proof.
  intros C h cfg st st' st2 text.
  assert (H1 : persistence_handler (self st) = Some h) by reflexivity.
  assert (H2 : loads_what_it_saved h)
    by exact memory_buffer_loads_what_it_saved.
  assert (H3 : snapshot_compress_state (config (self st)) = true ->
               zlib_decompress (zlib_compress text) = Ok text)
    by (intros _; vm_compute; reflexivity).
  assert (H4 : save_state "on demand" st = (Ok tt, st'))
    by (vm_compute; reflexivity).
  assert (H5 : persistence_handler (self st2) = Some h) by reflexivity.
  assert (H6 : snapshot_compress_state (config (self st2))
               = snapshot_compress_state (config (self st)))
    by reflexivity.
  assert (H7 : w_store (world st2) = w_store (world st')) by reflexivity.
  split; [repeat apply conj; assumption|].
  exact (load_state_reads_what_save_state_wrote st st' st2 h "on demand"
           H1 H2 H3 H4 H5 H6 H7).
Defined.

(** In that run the engine that is installed has the cluster of the two
    lines, under the [int] key [1]. *)
Example the_saved_cluster_comes_back :
  let C := Demo.collaborators Py311 in
  let h := Demo.memory_buffer in
  let cfg := Demo.config_with false true 5 in
  let st := Demo.session Py311 (Some h) cfg (Demo.world_of 1 None)
                         ["a b c"; "a b c"] in
  let st' := snd (save_state "on demand" st) in
  let st2 := built (Some h) (Some cfg)
                   (Demo.world_of 1 (w_store (world st'))) in
  items (id_to_cluster (drain (self (snd (load_state st2)))))
  = [(KInt 1, mkLogCluster 1 2 "a b c")].
Proof. vm_compute. reflexivity. Qed.

Lemma snapshot_holds_the_engine_after_the_message_witness :
  let C := Demo.collaborators Py311 in
  let st := Demo.started Py311 (Some Demo.memory_buffer)
                         (Demo.config_with true true 5)
                         (Demo.world_of 1 None) in
  let step := engine_step (self st) "a b c" in
  let st' := snd (add_log_message "a b c" st) in
  step = (mkLogCluster 1 1 "a b c", "cluster_created", snd step)
  /\ (w_saved (world st') = w_saved (world st)
      \/ exists heap,
           w_saved (world st')
           = encode_state (snapshot_compress_state (config (self st)))
               (list_byte_of_string (jsonpickle_dumps (snd step) heap))
             :: w_saved (world st)).
Proof.
  intros C st step st'.
  assert (H : step = (mkLogCluster 1 1 "a b c", "cluster_created", snd step))
    by (vm_compute; reflexivity).
  split; [exact H|].
  exact (snapshot_holds_the_engine_after_the_message st "a b c"
           (mkLogCluster 1 1 "a b c") "cluster_created" (snd step) H).
Defined.

Lemma demo_engine_keeps_profiler (py : CPython) :
  engine_keeps_profiler (C := Demo.collaborators py).
Proof. intros sim_th depth max_children max_clusters extra p. reflexivity. Qed.

Lemma construction_shares_one_new_profiler_witness :
  let C := Demo.collaborators Py311 in
  let handler := Some Demo.memory_buffer in
  let cfg := Demo.config_with true true 5 in
  let w := Demo.world_of 1 Demo.one_cluster in
  let st := Demo.started Py311 handler cfg w in
  let tm := self st in
  (engine_keeps_profiler
   /\ init handler (Some cfg) w = (Ok tm, world st))
  /\ profiler (drain tm) = tm_profiler tm
  /\ (List.length (w_heap w) <= tm_profiler tm)%nat
  /\ nth_error (w_heap (world st)) (tm_profiler tm)
     = Some (if profiling_enabled (config tm)
             then SimpleProfiler [] else NullProfiler)
  /\ firstn (List.length (w_heap w)) (w_heap (world st)) = w_heap w.
Proof.
  intros C handler cfg w st tm.
  assert (H1 : engine_keeps_profiler) by apply demo_engine_keeps_profiler.
  assert (H2 : init handler (Some cfg) w = (Ok tm, world st))
    by (vm_compute; reflexivity).
  split; [split; assumption|].
  exact (construction_shares_one_new_profiler handler (Some cfg) w tm
           (world st) H1 H2).
Defined.

Lemma construction_takes_last_save_time_from_the_clock_witness :
  let C := Demo.collaborators Py311 in
  let handler := Some Demo.memory_buffer in
  let cfg := Demo.config_with true true 5 in
  let w := Demo.world_of 7 Demo.one_cluster in
  let st := Demo.started Py311 handler cfg w in
  init handler (Some cfg) w = (Ok (self st), world st)
  /\ (exists n, (w_ticks w <= n < w_ticks (world st))%nat
                /\ last_save_time (self st) = w_clock w n)
  /\ w_clock (world st) = w_clock w
  /\ w_saved (world st) = w_saved w.
Proof.
  intros C handler cfg w st.
  assert (H : init handler (Some cfg) w = (Ok (self st), world st))
    by (vm_compute; reflexivity).
  split; [exact H|].
  exact (construction_takes_last_save_time_from_the_clock handler (Some cfg)
           w (self st) (world st) H).
Defined.

Lemma without_a_handler_every_message_is_answered_witness :
  let C := Demo.collaborators Py311 in
  let st := Demo.started Py311 None (Demo.config_with true false 0)
                         (Demo.world_of 1 None) in
  let r := add_log_messages Demo.six_lines st in
  persistence_handler (self st) = None
  /\ List.length (fst r) = List.length Demo.six_lines
  /\ Forall (fun o => exists record, o = Ok record) (fst r)
  /\ w_saved (world (snd r)) = w_saved (world st)
  /\ w_log (world (snd r)) = w_log (world st)
  /\ w_store (world (snd r)) = w_store (world st)
  /\ last_save_time (self (snd r)) = last_save_time (self st).
Proof.
  intros C st r.
  assert (H : persistence_handler (self st) = None) by reflexivity.
  split; [exact H|].
  exact (without_a_handler_every_message_is_answered Demo.six_lines st H).
Defined.

Lemma profiler_calls_of_one_message_witness :
  let C := Demo.collaborators Py311 in
  let st := Demo.started Py311 (Some Demo.read_only)
                         (Demo.config_with true false 5)
                         (Demo.world_of 1 None) in
  let r := add_log_message "a b c" st in
  journal (world st) (tm_profiler (self st)) = Some []
  /\ exists new,
       journal (world (snd r)) (tm_profiler (self st)) = Some ([] ++ new)
       /\ map without_time new
          = [SectionStarted "total" 0; SectionStarted "mask" 0;
             SectionEnded "" 0; SectionStarted "drain" 0;
             SectionEnded "drain" 0]
            ++ match persistence_handler (self st), fst r with
               | None, _ =>
                   [SectionEnded "total" 0;
                    ReportChecked
                      (profiling_report_sec (config (self st))) 0]
               | Some _, Ok _ =>
                   [SectionStarted "save_state" 0; SectionEnded "" 0;
                    SectionEnded "total" 0;
                    ReportChecked
                      (profiling_report_sec (config (self st))) 0]
               | Some _, Raise _ => [SectionStarted "save_state" 0]
               end.
Proof.
  intros C st r.
  assert (H : journal (world st) (tm_profiler (self st)) = Some [])
    by (vm_compute; reflexivity).
  split; [exact H|].
  exact (profiler_calls_of_one_message st "a b c" [] H).
Defined.

(** In that run the store cannot be written: the first line raises, and
    the journal ends with the start of [save_state]. *)
Example a_failed_save_leaves_two_sections_started :
  let C := Demo.collaborators Py311 in
  let st := Demo.started Py311 (Some Demo.read_only)
                         (Demo.config_with true false 5)
                         (Demo.world_of 1 None) in
  let r := add_log_message "a b c" st in
  fst r = Raise (Exn "PermissionError" "[Errno 13] Permission denied")
  /\ option_map (map without_time)
       (journal (world (snd r)) (tm_profiler (self st)))
     = Some [SectionStarted "total" 0; SectionStarted "mask" 0;
             SectionEnded "" 0; SectionStarted "drain" 0;
             SectionEnded "drain" 0; SectionStarted "save_state" 0].
Proof. vm_compute. split; reflexivity. Qed.

Lemma bytes_behind_the_pad_are_not_read_witness :
  let C := Demo.collaborators Py311 in
  let state := list_byte_of_string "root 3" in
  let rest := list_byte_of_string "eAEB" in
  (List.length (zlib_compress state) mod 3 <> 0)%nat
  /\ decode_state true (encode_state true state ++ rest)
     = zlib_decompress (zlib_compress state).
Proof.
  intros C state rest.
  assert (H : (List.length (zlib_compress state) mod 3 <> 0)%nat)
    by (vm_compute; discriminate).
  split; [exact H|].
  exact (bytes_behind_the_pad_are_not_read state rest H).
Defined.

Lemma load_state_raises_only_these_witness :
  let C := Demo.collaborators Py311 in
  let h := Demo.memory_buffer in
  let cfg := Demo.config_with false true 5 in
  let w := Demo.world_of 1 (Some (list_byte_of_string "a")) in
  let st := built (Some h) (Some cfg) w in
  let e :=
    Exn "binascii.Error"
        "Invalid base64-encoded string: number of data characters (1) cannot be 1 more than a multiple of 4" in
  fst (load_state st) = Raise e
  /\ ((persistence_handler (self st) = None
       /\ e = Exn "AttributeError"
                "'NoneType' object has no attribute 'load_state'")
      \/ (exists h,
            persistence_handler (self st) = Some h
            /\ fst (ph_load_state h (w_store (world st))) = Raise e)
      \/ (snapshot_compress_state (config (self st)) = true
          /\ ((exists msg, e = Exn "binascii.Error" msg)
              \/ exists z, zlib_decompress z = Raise e))
      \/ (exists state, jsonpickle_loads state = Raise e)
      \/ (exists msg, e = Exn "ValueError" msg)
      \/ (exists msg, e = Exn "RuntimeError" msg)).
Proof.
  intros C h cfg w st e.
  assert (H : fst (load_state st) = Raise e) by (vm_compute; reflexivity).
  split; [exact H|].
  exact (load_state_raises_only_these st e H).
Defined.

Lemma cast_cluster_keys_keeps_every_cluster_witness :
  let C := Demo.collaborators Py311 in
  let d :=
    mkDrain (mkNode empty_dict)
      (dict_of Py311
         (map (fun n => (KStr (str_int n), mkLogCluster n 1 "a"))
              [1; 2; 3; 4; 5; 6]))
      0%nat tt in
  let before := id_to_cluster d in
  let after := id_to_cluster (snd (cast_cluster_keys d)) in
  fst (cast_cluster_keys d) = Ok tt
  /\ Permutation (values after) (values before)
  /\ exists l,
       Permutation l (items before) /\ Forall2 rekeyed (items after) l.
Proof.
  intros C d before after.
  assert (H : fst (cast_cluster_keys d) = Ok tt) by (vm_compute; reflexivity).
  split; [exact H|].
  exact (cast_cluster_keys_keeps_every_cluster d H).
Defined.

Lemma lines_that_mask_alike_are_answered_alike_witness :
  let C := Demo.with_masker (Demo.collaborators Py311)
                            (fun _ => Demo.mask_digits) in
  let st := built (Some Demo.memory_buffer)
                  (Some (Demo.config_with true true 5))
                  (Demo.world_of 1 None) in
  mask (masker (self st)) "user 17 logged in"
  = mask (masker (self st)) "user 42 logged in"
  /\ add_log_message "user 17 logged in" st
     = add_log_message "user 42 logged in" st.
Proof.
  intros C st.
  assert (H : mask (masker (self st)) "user 17 logged in"
              = mask (masker (self st)) "user 42 logged in")
    by reflexivity.
  split; [exact H|].
  exact (lines_that_mask_alike_are_answered_alike st "user 17 logged in"
           "user 42 logged in" H).
Defined.

(** In that run the template that is mined and saved is the masked
    line. *)
Example the_masked_line_is_what_is_mined :
  let C := Demo.with_masker (Demo.collaborators Py311)
                            (fun _ => Demo.mask_digits) in
  let st := built (Some Demo.memory_buffer)
                  (Some (Demo.config_with true false 5))
                  (Demo.world_of 1 None) in
  let r := add_log_message "user 17 logged in" st in
  fst r = Ok [("change_type", VStr "cluster_created"); ("cluster_id", VInt 1);
              ("cluster_size", VInt 1);
              ("template_mined", VStr "user ## logged in");
              ("cluster_count", VInt 1)]
  /\ option_map string_of_list_byte (w_store (world (snd r)))
     = Some ("root 4" ++ Demo.newline ++ "1 1 user ## logged in"
             ++ Demo.newline)%string.
Proof. vm_compute. split; reflexivity. Qed.
